(** * netkit.py: rule classification and subnet arithmetic

    A shallow embedding of the two pieces of reasoned logic of
    [netkit.py]: the security-group rule classifier inside
    [check_compliance] and the subnet calculator [calculate_subnets],
    together with the parts of the interpreter's [ipaddress] module that
    the calculator calls. *)

From Stdlib Require Import ZArith List String Ascii Bool Lia.
From Stdlib Require Import Sorted Permutation DecimalString HexadecimalString.
Import ListNotations.

Local Open Scope string_scope.
Local Open Scope Z_scope.
Local Open Scope list_scope.

(** ** Python values used by the program *)

Module Py.

(** [d.get(key, default)] on an optional key of a response dictionary. *)
Definition get {A : Type} (field : option A) (default : A) : A :=
  match field with
  | Some v => v
  | None => default
  end.

(** Truth value of [d.get(key)] for an integer field: [None] and [0]
    are both false. *)
Definition truthy (v : option Z) : bool :=
  match v with
  | Some n => negb (n =? 0)
  | None => false
  end.

(** [str(n)] for an integer. *)
Definition str (n : Z) : string :=
  DecimalString.NilZero.string_of_int (Z.to_int n).

(** ['%x' % n] for a non-negative integer. *)
Definition hex (n : Z) : string :=
  HexadecimalString.NilZero.string_of_uint (N.to_hex_uint (Z.to_N n)).

(** [s.endswith(suffix)]. *)
Definition endswith (s suffix : string) : bool :=
  let n := String.length s in
  let m := String.length suffix in
  (m <=? n)%nat && String.eqb (substring (n - m) m s) suffix.

(** [s.split(sep)] for a one-character separator: the fields between
    the separators, empty fields included; never the empty list. *)
Fixpoint split (sep : ascii) (s : string) : list string :=
  match s with
  | EmptyString => [EmptyString]
  | String c rest =>
      if Ascii.eqb c sep then EmptyString :: split sep rest
      else match split sep rest with
           | [] => [String c EmptyString]
           | field :: fields => String c field :: fields
           end
  end.

(** [sep.join(parts)]. *)
Fixpoint join (sep : string) (parts : list string) : string :=
  match parts with
  | [] => EmptyString
  | [p] => p
  | p :: rest => (p ++ sep ++ join sep rest)%string
  end.

(** [c in s] for a character. *)
Fixpoint contains (c : ascii) (s : string) : bool :=
  match s with
  | EmptyString => false
  | String d rest => Ascii.eqb c d || contains c rest
  end.

(** ** Stable sort by an integer key

    [list.sort(key=...)] is stable.  The model inserts from the right,
    placing an element in front of the first one whose key is not
    smaller, so equal keys keep their order.  [stable_sort_unique]
    below shows that sortedness and stability determine the result, so
    the choice of algorithm is immaterial. *)
Section Sort.
Context {A : Type} (key : A -> Z).

Fixpoint insert (x : A) (l : list A) : list A :=
  match l with
  | [] => [x]
  | y :: l' => if key x <=? key y then x :: l else y :: insert x l'
  end.

Definition sort (l : list A) : list A := fold_right insert [] l.

(** The elements of [l] whose key is [k], in the order of [l]. *)
Definition with_key (k : Z) (l : list A) : list A :=
  filter (fun x => key x =? k) l.

Definition key_le (x y : A) : Prop := key x <= key y.
End Sort.

End Py.

(** ** Data model: the [describe_security_groups] response *)

(** An entry of a rule's [IpRanges] list. *)
Record IpRange := mkIpRange { CidrIp : option string }.

(** An entry of a rule's [Ipv6Ranges] list. *)
Record Ipv6Range := mkIpv6Range { CidrIpv6 : option string }.

(** An ingress rule, an entry of [IpPermissions].  Every key that the
    program reads with [get] is optional. *)
Record IpPermission := mkIpPermission {
  IpProtocol : option string;
  FromPort : option Z;
  ToPort : option Z;
  IpRanges : option (list IpRange);
  Ipv6Ranges : option (list Ipv6Range)
}.

Record SecurityGroup := mkSecurityGroup {
  GroupId : string;
  GroupName : string;
  IpPermissions : option (list IpPermission)
}.

(** The dictionary appended to [issues]. *)
Record Issue := mkIssue {
  severity : string;
  sg_id : string;
  sg_name : string;
  protocol : string;
  port : string;
  source : string;
  description : string
}.

(** ** The rule classifier of [check_compliance] *)

(** [risky_ports], in insertion order, which is the order of
    [risky_ports.items()]. *)
Definition risky_ports : list (Z * string) :=
  [ (22, "SSH"); (3389, "RDP"); (3306, "MySQL"); (5432, "PostgreSQL");
    (1433, "MSSQL"); (27017, "MongoDB"); (6379, "Redis");
    (9200, "Elasticsearch") ].

(** [from_port <= port <= to_port], evaluated only where both are
    integers. *)
Definition within (from_port to_port : option Z) (p : Z) : bool :=
  match from_port, to_port with
  | Some f, Some t => (f <=? p) && (p <=? t)
  | _, _ => false
  end.

Section RuleBody.
(** The variables bound by the enclosing loops: [sg_id], [sg_name],
    [protocol], [from_port] and [to_port]. *)
Variables (group_id group_name : string).
Variables (proto : string) (from_port to_port : option Z).

Definition critical_issue (cidr : string) : Issue :=
  {| severity := "CRITICAL"; sg_id := group_id; sg_name := group_name;
     protocol := "ALL"; port := "ALL"; source := cidr;
     description := "All traffic allowed from internet" |}.

Definition high_issue (cidr : string) (p : Z) (service : string) : Issue :=
  {| severity := "HIGH"; sg_id := group_id; sg_name := group_name;
     protocol := proto;
     port := (Py.str p ++ " (" ++ service ++ ")")%string; source := cidr;
     description := (service ++ " exposed to internet")%string |}.

Definition medium_issue (cidr : string) (p : Z) (service : string) : Issue :=
  {| severity := "MEDIUM"; sg_id := group_id; sg_name := group_name;
     protocol := proto;
     port := (Py.str p ++ " (" ++ service ++ ")")%string; source := cidr;
     description := (service ++ " exposed to large CIDR block")%string |}.

(** Lines 124-134: the loop over [risky_ports] in the internet branch. *)
Definition high_loop (cidr : string) (issues : list Issue) : list Issue :=
  fold_left
    (fun issues '(p, service) =>
       if Py.truthy from_port && Py.truthy to_port
          && within from_port to_port p
       then issues ++ [high_issue cidr p service]
       else issues)
    risky_ports issues.

(** Lines 138-148: the loop over [risky_ports] in the large-block
    branch, entered once the bounds have been tested. *)
Definition medium_loop (cidr : string) (issues : list Issue) : list Issue :=
  fold_left
    (fun issues '(p, service) =>
       if within from_port to_port p
       then issues ++ [medium_issue cidr p service]
       else issues)
    risky_ports issues.

(** Lines 110-148: the body of the loop over [IpRanges]. *)
Definition check_range (ip_range : IpRange) (issues : list Issue)
  : list Issue :=
  let cidr := Py.get (CidrIp ip_range) "" in
  if String.eqb cidr "0.0.0.0/0" then
    if String.eqb proto "-1" then issues ++ [critical_issue cidr]
    else high_loop cidr issues
  else if Py.endswith cidr "/8" || Py.endswith cidr "/16" then
    if Py.truthy from_port && Py.truthy to_port
    then medium_loop cidr issues
    else issues
  else issues.
End RuleBody.

(** Lines 105-148: the body of the loop over [IpPermissions]. *)
Definition check_rule (sg : SecurityGroup) (rule : IpPermission)
  (issues : list Issue) : list Issue :=
  let proto := Py.get (IpProtocol rule) "-1" in
  let from_port := FromPort rule in
  let to_port := ToPort rule in
  fold_left
    (fun issues ip_range =>
       check_range (GroupId sg) (GroupName sg) proto from_port to_port
         ip_range issues)
    (Py.get (IpRanges rule) []) issues.

(** Lines 101-148: the body of the loop over [SecurityGroups]. *)
Definition check_group (sg : SecurityGroup) (issues : list Issue)
  : list Issue :=
  fold_left (fun issues rule => check_rule sg rule issues)
    (Py.get (IpPermissions sg) []) issues.

(** Lines 98-148: the issues in encounter order. *)
Definition collect_issues (groups : list SecurityGroup) : list Issue :=
  fold_left (fun issues sg => check_group sg issues) groups [].

(** [severity_order.get(x['severity'], 3)]. *)
Definition severity_order : list (string * Z) :=
  [ ("CRITICAL", 0); ("HIGH", 1); ("MEDIUM", 2) ].

Fixpoint lookup (k : string) (d : list (string * Z)) : option Z :=
  match d with
  | [] => None
  | (k', v) :: d' => if String.eqb k k' then Some v else lookup k d'
  end.

Definition severity_rank (x : Issue) : Z :=
  Py.get (lookup (severity x) severity_order) 3.

(** Lines 98-151: the classifier, [issues] after [issues.sort]. *)
Definition classify (groups : list SecurityGroup) : list Issue :=
  Py.sort severity_rank (collect_issues groups).

(** [sum(1 for i in issues if i['severity'] == s)]. *)
Definition count_severity (s : string) (issues : list Issue) : Z :=
  fold_left (fun n i => if String.eqb (severity i) s then n + 1 else n)
    issues 0.

(** Lines 191-196: the value returned once the report is printed. *)
Definition exit_status (strict : bool) (issues : list Issue) : Z :=
  let critical := count_severity "CRITICAL" issues in
  let high := count_severity "HIGH" issues in
  if strict then
    if critical >? 0 then 2
    else if high >? 0 then 1
    else 0
  else 0.

(** The value returned by [check_compliance], as a function of
    [args.strict] and of what [describe_security_groups] gave: a
    [ClientError], or the response's [SecurityGroups].  Printing does not
    influence the value and is left out. *)
Definition check_compliance (strict : bool)
  (response : string + list SecurityGroup) : Z :=
  match response with
  | inl _ => 1
  | inr groups => exit_status strict (classify groups)
  end.


(** ** The interpreter's [ipaddress] module (CPython 3.11)

    [calculate_subnets] parses its argument with [ipaddress.ip_network]
    and enumerates with [subnets].  The functions below follow the
    module's string path; a function returns [None] where the module
    raises an exception whose message [ip_network] discards. *)

Module ipaddress.

Inductive version := V4 | V6.

Definition _max_prefixlen (v : version) : Z :=
  match v with V4 => 32 | V6 => 128 end.

Definition _ALL_ONES (v : version) : Z := 2 ^ _max_prefixlen v - 1.

(** The exceptions that leave a network constructor. *)
Inductive exn :=
| AddressValueError
| NetmaskValueError
| ValueError (msg : string).

(** Default of [sys.get_int_max_str_digits()]: [int] refuses a longer
    decimal string. *)
Definition int_max_str_digits : nat := 4300.

Definition chars (s : string) : list ascii := list_ascii_of_string s.

Definition code (c : ascii) : Z := Z.of_nat (nat_of_ascii c).

Definition is_decimal_digit (c : ascii) : bool :=
  (48 <=? code c) && (code c <=? 57).

(** [s.isascii() and s.isdigit()]; false on the empty string. *)
Definition isascii_isdigit (s : string) : bool :=
  negb (String.eqb s "") && forallb is_decimal_digit (chars s).

(** [int(s)] on a string of decimal digits. *)
Definition int10 (s : string) : option Z :=
  if (int_max_str_digits <? String.length s)%nat then None
  else Some (fold_left (fun n c => 10 * n + (code c - 48)) (chars s) 0).

Definition hex_value (c : ascii) : option Z :=
  let n := code c in
  if (48 <=? n) && (n <=? 57) then Some (n - 48)
  else if (97 <=? n) && (n <=? 102) then Some (n - 87)
  else if (65 <=? n) && (n <=? 70) then Some (n - 55)
  else None.

(** [_HEX_DIGITS.issuperset(s)]. *)
Definition all_hex_digits (s : string) : bool :=
  forallb (fun c => match hex_value c with Some _ => true | None => false end)
    (chars s).

(** [int(s, 16)] on a string of hexadecimal digits; the empty string
    is refused. *)
Definition int16 (s : string) : option Z :=
  if String.eqb s "" then None
  else Some (fold_left (fun n c => 16 * n + Py.get (hex_value c) 0)
               (chars s) 0).

(** [n.bit_length()]. *)
Definition bit_length (n : Z) : Z :=
  if n =? 0 then 0 else Z.log2 (Z.abs n) + 1.

Definition _count_righthand_zero_bits (number bits : Z) : Z :=
  if number =? 0 then bits
  else Z.min bits (bit_length (Z.land (Z.lnot number) (number - 1))).

Definition _ip_int_from_prefix (v : version) (prefixlen : Z) : Z :=
  Z.lxor (_ALL_ONES v) (Z.shiftr (_ALL_ONES v) prefixlen).

(** [None] where the source raises [ValueError]. *)
Definition _prefix_from_ip_int (v : version) (ip_int : Z) : option Z :=
  let trailing_zeroes := _count_righthand_zero_bits ip_int (_max_prefixlen v) in
  let prefixlen := _max_prefixlen v - trailing_zeroes in
  let leading_ones := Z.shiftr ip_int trailing_zeroes in
  let all_ones := Z.shiftl 1 prefixlen - 1 in
  if negb (leading_ones =? all_ones) then None else Some prefixlen.

(** [None] where the source raises [NetmaskValueError]. *)
Definition _prefix_from_prefix_string (v : version) (prefixlen_str : string)
  : option Z :=
  if negb (isascii_isdigit prefixlen_str) then None
  else match int10 prefixlen_str with
       | None => None
       | Some prefixlen =>
           if negb ((0 <=? prefixlen) && (prefixlen <=? _max_prefixlen v))
           then None
           else Some prefixlen
       end.

(** *** IPv4 *)

(** [None] where the source raises [ValueError]. *)
Definition _parse_octet (octet_str : string) : option Z :=
  if String.eqb octet_str "" then None
  else if negb (isascii_isdigit octet_str) then None
  else if (3 <? String.length octet_str)%nat then None
  else if negb (String.eqb octet_str "0")
          && (String.eqb (substring 0 1 octet_str) "0") then None
  else match int10 octet_str with
       | None => None
       | Some octet_int => if octet_int >? 255 then None else Some octet_int
       end.

(** [map f l] that stops at the first failure. *)
Fixpoint traverse {A B : Type} (f : A -> option B) (l : list A)
  : option (list B) :=
  match l with
  | [] => Some []
  | x :: l' =>
      match f x with
      | None => None
      | Some y =>
          match traverse f l' with
          | None => None
          | Some ys => Some (y :: ys)
          end
      end
  end.

(** [int.from_bytes(bs, 'big')]. *)
Definition from_bytes (bs : list Z) : Z :=
  fold_left (fun n b => 256 * n + b) bs 0.

(** [_BaseV4._ip_int_from_string]; [None] for [AddressValueError]. *)
Definition v4_ip_int_from_string (ip_str : string) : option Z :=
  if String.eqb ip_str "" then None
  else
    let octets := Py.split "." ip_str in
    if negb (List.length octets =? 4)%nat then None
    else match traverse _parse_octet octets with
         | None => None
         | Some bs => Some (from_bytes bs)
         end.

(** [IPv4Address(addr_str)._ip]; [None] for [AddressValueError]. *)
Definition IPv4Address (addr_str : string) : option Z :=
  if Py.contains "/" addr_str then None
  else v4_ip_int_from_string addr_str.

(** [_prefix_from_ip_string], which only IPv4 reaches; [None] for
    [NetmaskValueError]. *)
Definition _prefix_from_ip_string (ip_str : string) : option Z :=
  match v4_ip_int_from_string ip_str with
  | None => None
  | Some ip_int =>
      match _prefix_from_ip_int V4 ip_int with
      | Some prefixlen => Some prefixlen
      | None => _prefix_from_ip_int V4 (Z.lxor ip_int (_ALL_ONES V4))
      end
  end.

(** *** IPv6 *)

(** [None] where the source raises [ValueError]. *)
Definition _parse_hextet (hextet_str : string) : option Z :=
  if negb (all_hex_digits hextet_str) then None
  else if (4 <? String.length hextet_str)%nat then None
  else int16 hextet_str.

(** The loop that looks for the one empty part strictly between the
    end points: [None] on a second one, else [Some skip_index]. *)
Definition find_skip_index (parts : list string) : option (option nat) :=
  fold_left
    (fun st i =>
       match st with
       | None => None
       | Some skip_index =>
           if String.eqb (nth i parts "") "" then
             match skip_index with
             | Some _ => None
             | None => Some (Some i)
             end
           else Some skip_index
       end)
    (seq 1 (List.length parts - 2)) (Some None).

(** The two parsing loops: [ip_int <<= 16; ip_int |= hextet]. *)
Definition shift_in (ip_int : Z) (hextets : list Z) : Z :=
  fold_left (fun n h => Z.lor (Z.shiftl n 16) h) hextets ip_int.

(** [_BaseV6._ip_int_from_string]; [None] for [AddressValueError]. *)
Definition v6_ip_int_from_string (ip_str : string) : option Z :=
  if String.eqb ip_str "" then None
  else
    let parts := Py.split ":" ip_str in
    if (List.length parts <? 3)%nat then None
    else
      let with_suffix :=
        if Py.contains "." (last parts "") then
          match IPv4Address (last parts "") with
          | None => None
          | Some ipv4_int =>
              Some (removelast parts
                      ++ [ Py.hex (Z.land (Z.shiftr ipv4_int 16) 65535);
                           Py.hex (Z.land ipv4_int 65535) ])
          end
        else Some parts in
      match with_suffix with
      | None => None
      | Some parts =>
          if (9 <? List.length parts)%nat then None
          else
            match find_skip_index parts with
            | None => None
            | Some skip =>
                let len := Z.of_nat (List.length parts) in
                let first_empty := String.eqb (nth 0 parts "") "" in
                let last_empty := String.eqb (last parts "") "" in
                let counts :=
                  match skip with
                  | Some skip_index =>
                      let parts_hi := Z.of_nat skip_index in
                      let parts_lo := len - Z.of_nat skip_index - 1 in
                      let parts_hi :=
                        if first_empty then parts_hi - 1 else parts_hi in
                      if first_empty && negb (parts_hi =? 0) then None
                      else
                        let parts_lo :=
                          if last_empty then parts_lo - 1 else parts_lo in
                        if last_empty && negb (parts_lo =? 0) then None
                        else
                          let parts_skipped := 8 - (parts_hi + parts_lo) in
                          if parts_skipped <? 1 then None
                          else Some (parts_hi, parts_lo, parts_skipped)
                  | None =>
                      if negb (len =? 8) then None
                      else if first_empty then None
                      else if last_empty then None
                      else Some (len, 0, 0)
                  end in
                match counts with
                | None => None
                | Some (parts_hi, parts_lo, parts_skipped) =>
                    let hi := firstn (Z.to_nat parts_hi) parts in
                    let lo := skipn (Z.to_nat (len - parts_lo)) parts in
                    match traverse _parse_hextet hi,
                          traverse _parse_hextet lo with
                    | Some his, Some los =>
                        Some (shift_in
                                (Z.shiftl (shift_in 0 his)
                                   (16 * parts_skipped)) los)
                    | _, _ => None
                    end
                end
            end
      end.

(** [ip_str.partition('%')]: the text before the first [%], and the
    text after it when there is one. *)
Fixpoint partition_percent (s : string) : string * option string :=
  match s with
  | EmptyString => (EmptyString, None)
  | String c rest =>
      if Ascii.eqb c "%" then (EmptyString, Some rest)
      else let '(addr, scope) := partition_percent rest in
           (String c addr, scope)
  end.

(** [_split_scope_id]; [None] for [AddressValueError]. *)
Definition _split_scope_id (ip_str : string)
  : option (string * option string) :=
  match partition_percent ip_str with
  | (addr, None) => Some (addr, None)
  | (addr, Some scope_id) =>
      if String.eqb scope_id "" || Py.contains "%" scope_id then None
      else Some (addr, Some scope_id)
  end.

(** [IPv6Address(addr_str)]: the integer and the scope id; [None] for
    [AddressValueError]. *)
Definition IPv6Address (addr_str : string) : option (Z * option string) :=
  if Py.contains "/" addr_str then None
  else match _split_scope_id addr_str with
       | None => None
       | Some (addr_str, scope_id) =>
           match v6_ip_int_from_string addr_str with
           | None => None
           | Some ip => Some (ip, scope_id)
           end
       end.

(** *** Networks *)

(** An [IPv4Network] or [IPv6Network] object: its class, the integer
    of [network_address], that address's scope id (IPv6 only) and
    [_prefixlen].  [netmask] and [hostmask] are functions of these. *)
Record Network := mkNetwork {
  net_version : version;
  network_address : Z;
  scope_id : option string;
  prefixlen : Z
}.

Definition netmask (n : Network) : Z :=
  _ip_int_from_prefix (net_version n) (prefixlen n).

Definition hostmask (n : Network) : Z :=
  Z.lxor (netmask n) (_ALL_ONES (net_version n)).

Definition broadcast_address (n : Network) : Z :=
  Z.lor (network_address n) (hostmask n).

(** [_BaseV4._string_from_ip_int]. *)
Definition v4_string_from_ip_int (ip_int : Z) : string :=
  Py.join "."
    (map (fun k => Py.str (Z.land (Z.shiftr ip_int (8 * k)) 255))
       [3; 2; 1; 0]).

(** The state of the loop of [_compress_hextets]. *)
Record run := mkRun {
  best_doublecolon_start : Z;
  best_doublecolon_len : Z;
  doublecolon_start : Z;
  doublecolon_len : Z
}.

Definition _compress_hextets (hextets : list string) : list string :=
  let step (st : run) (entry : nat * string) : run :=
    let '(index, hextet) := entry in
    if String.eqb hextet "0" then
      let len := doublecolon_len st + 1 in
      let start :=
        if doublecolon_start st =? -1 then Z.of_nat index
        else doublecolon_start st in
      if len >? best_doublecolon_len st
      then mkRun start len start len
      else mkRun (best_doublecolon_start st) (best_doublecolon_len st)
             start len
    else mkRun (best_doublecolon_start st) (best_doublecolon_len st) (-1) 0
  in
  let st :=
    fold_left step (combine (seq 0 (List.length hextets)) hextets)
      (mkRun (-1) 0 (-1) 0) in
  if best_doublecolon_len st >? 1 then
    let best_doublecolon_end :=
      best_doublecolon_start st + best_doublecolon_len st in
    let hextets :=
      if best_doublecolon_end =? Z.of_nat (List.length hextets)
      then hextets ++ [""] else hextets in
    let hextets :=
      firstn (Z.to_nat (best_doublecolon_start st)) hextets
        ++ [""] ++ skipn (Z.to_nat best_doublecolon_end) hextets in
    if best_doublecolon_start st =? 0 then "" :: hextets else hextets
  else hextets.

(** [_BaseV6._string_from_ip_int]: the eight groups of ['%032x'],
    each printed with ['%x']. *)
Definition v6_string_from_ip_int (ip_int : Z) : string :=
  Py.join ":"
    (_compress_hextets
       (map (fun k => Py.hex (Z.land (Z.shiftr ip_int (16 * k)) 65535))
          [7; 6; 5; 4; 3; 2; 1; 0])).

(** [str(network.network_address)]. *)
Definition address_str (n : Network) : string :=
  match net_version n with
  | V4 => v4_string_from_ip_int (network_address n)
  | V6 =>
      let ip_str := v6_string_from_ip_int (network_address n) in
      match scope_id n with
      | Some id => (ip_str ++ "%" ++ id)%string
      | None => ip_str
      end
  end.

(** [str(network)]. *)
Definition network_str (n : Network) : string :=
  (address_str n ++ "/" ++ Py.str (prefixlen n))%string.

(** The end of both constructors: the strict test for host bits. *)
Definition check_host_bits (n : Network) : exn + Network :=
  let packed := network_address n in
  if negb (Z.land packed (netmask n) =? packed)
  then inl (ValueError (network_str n ++ " has host bits set"))
  else inr n.

(** [_split_addr_prefix] on a string: the address text and, when a
    [/] is present, the mask text; [None] for [AddressValueError]. *)
Definition _split_addr_prefix (address : string)
  : option (string * option string) :=
  match Py.split "/" address with
  | [addr] => Some (addr, None)
  | [addr; mask] => Some (addr, Some mask)
  | _ => None
  end.

(** [IPv4Network(address)] for a string, [strict=True]. *)
Definition IPv4Network (address : string) : exn + Network :=
  match _split_addr_prefix address with
  | None => inl AddressValueError
  | Some (addr, mask) =>
      match IPv4Address addr with
      | None => inl AddressValueError
      | Some ip =>
          let made :=
            match mask with
            | None => Some (_max_prefixlen V4)
            | Some arg =>
                match _prefix_from_prefix_string V4 arg with
                | Some prefixlen => Some prefixlen
                | None => _prefix_from_ip_string arg
                end
            end in
          match made with
          | None => inl NetmaskValueError
          | Some prefixlen => check_host_bits (mkNetwork V4 ip None prefixlen)
          end
      end
  end.

(** [IPv6Network(address)] for a string, [strict=True]. *)
Definition IPv6Network (address : string) : exn + Network :=
  match _split_addr_prefix address with
  | None => inl AddressValueError
  | Some (addr, mask) =>
      match IPv6Address addr with
      | None => inl AddressValueError
      | Some (ip, scope) =>
          let made :=
            match mask with
            | None => Some (_max_prefixlen V6)
            | Some arg => _prefix_from_prefix_string V6 arg
            end in
          match made with
          | None => inl NetmaskValueError
          | Some prefixlen => check_host_bits (mkNetwork V6 ip scope prefixlen)
          end
      end
  end.

(** [cls((address, prefixlen))] for two integers, as [subnets] calls
    it. *)
Definition Network_of_ints (v : version) (address prefixlen : Z)
  : exn + Network :=
  if (address <? 0) || (address >? _ALL_ONES v) then inl AddressValueError
  else if negb ((0 <=? prefixlen) && (prefixlen <=? _max_prefixlen v))
  then inl NetmaskValueError
  else check_host_bits (mkNetwork v address None prefixlen).

(** [range(start, stop, step)] for a positive step. *)
Definition range (start stop step : Z) : list Z :=
  map (fun i => start + Z.of_nat i * step)
    (seq 0 (Z.to_nat ((stop - start + step - 1) / step))).

(** [map f l] that stops at the first exception. *)
Fixpoint traverse_exn {A B : Type} (f : A -> exn + B) (l : list A)
  : exn + list B :=
  match l with
  | [] => inr []
  | x :: l' =>
      match f x with
      | inl e => inl e
      | inr y =>
          match traverse_exn f l' with
          | inl e => inl e
          | inr ys => inr (y :: ys)
          end
      end
  end.

(** [list(self.subnets(new_prefix=new_prefix))]. *)
Definition subnets (self : Network) (new_prefix : Z) : exn + list Network :=
  let v := net_version self in
  if prefixlen self =? _max_prefixlen v then inr [self]
  else if new_prefix <? prefixlen self
  then inl (ValueError "new prefix must be longer")
  else
    let prefixlen_diff := new_prefix - prefixlen self in
    if prefixlen_diff <? 0
    then inl (ValueError "prefix length diff must be > 0")
    else
      let new_prefixlen := prefixlen self + prefixlen_diff in
      if new_prefixlen >? _max_prefixlen v
      then inl (ValueError
                  ("prefix length diff " ++ Py.str new_prefixlen
                     ++ " is invalid for netblock " ++ network_str self))
      else
        let start := network_address self in
        let stop := broadcast_address self + 1 in
        let step := Z.shiftr (hostmask self + 1) prefixlen_diff in
        if step =? 0
        then inl (ValueError "range() arg 3 must not be zero")
        else traverse_exn
               (fun new_addr => Network_of_ints v new_addr new_prefixlen)
               (range start stop step).

Section Repr.
(** [repr] of a string, as [{address!r}] prints it. *)
Variable repr : string -> string.

(** [ip_network(address)]: the network, or the message of the
    [ValueError] raised. *)
Definition ip_network (address : string) : string + Network :=
  match IPv4Network address with
  | inr n => inr n
  | inl (ValueError msg) => inl msg
  | inl _ =>
      match IPv6Network address with
      | inr n => inr n
      | inl (ValueError msg) => inl msg
      | inl _ =>
          inl (repr address
                 ++ " does not appear to be an IPv4 or IPv6 network")%string
      end
  end.
End Repr.

End ipaddress.


(** ** The subnet calculator *)

(** The class [Colors]: process-wide attributes, passed explicitly. *)
Record Colors := mkColors {
  RED : string;
  GREEN : string;
  YELLOW : string;
  BLUE : string;
  CYAN : string;
  BOLD : string;
  END_ : string
}.

Definition esc (s : string) : string := String (ascii_of_nat 27) s.

(** The attributes as the class body sets them. *)
Definition Colors_initial : Colors :=
  {| RED := esc "[91m"; GREEN := esc "[92m"; YELLOW := esc "[93m";
     BLUE := esc "[94m"; CYAN := esc "[96m"; BOLD := esc "[1m";
     END_ := esc "[0m" |}.

(** The attributes after [Colors.disable()]. *)
Definition Colors_disabled : Colors :=
  {| RED := ""; GREEN := ""; YELLOW := ""; BLUE := ""; CYAN := "";
     BOLD := ""; END_ := "" |}.

(** How a call of a command function ends: a [return], or an exception
    that propagates to [main]. *)
Inductive completion :=
| Return (status : Z)
| Raise (e : ipaddress.exn).

(** ["=" * 70]. *)
Definition rule : string := string_of_list_ascii (repeat "="%char 70).

Section Interpreter.
(** [repr] of a string. *)
Variable repr : string -> string.

(** [math.ceil(math.log2(n))] for a positive integer [n], computed in
    double precision.  It agrees with the exact [Z.log2_up] on the
    counts that matter, but not everywhere (on [2^49 + 1] it gives 49),
    so it stays a parameter; the properties below say what they assume
    of it. *)
Variable ceil_log2 : Z -> Z.

Variable c : Colors.

(** Lines 445-449: what is printed before the argument is parsed. *)
Definition banner (cidr : string) (count : Z) : list string :=
  [ (CYAN c ++ BOLD c ++ "Subnet Calculator" ++ END_ c)%string;
    rule;
    ("VPC CIDR: " ++ YELLOW c ++ cidr ++ END_ c)%string;
    ("Subnets: " ++ CYAN c ++ Py.str count ++ END_ c)%string;
    "" ].

(** Line 454. *)
Definition invalid_line (e : string) : string :=
  (RED c ++ "ERROR: " ++ e ++ END_ c)%string.

(** Line 462. *)
Definition limit_line (new_prefix : Z) : string :=
  (RED c ++ "ERROR: Too many subnets - would result in /"
     ++ Py.str new_prefix ++ " (max /28)" ++ END_ c)%string.

(** Lines 468-472. *)
Definition summary (prefixlen original_hosts new_prefix new_hosts : Z)
  : list string :=
  [ ("Original: /" ++ Py.str prefixlen ++ " (" ++ Py.str original_hosts
       ++ " hosts)")%string;
    ("New subnets: " ++ GREEN c ++ "/" ++ Py.str new_prefix ++ " ("
       ++ Py.str new_hosts ++ " hosts each)" ++ END_ c)%string;
    "";
    (YELLOW c ++ "Subnet Allocations:" ++ END_ c)%string ].

(** Line 476, for the pair [(i, subnet)] of [enumerate]. *)
Definition allocation_line (new_hosts : Z)
  (entry : nat * ipaddress.Network) : string :=
  let '(i, subnet) := entry in
  ("  Subnet " ++ Py.str (Z.of_nat i + 1) ++ ": "
     ++ ipaddress.network_str subnet ++ " (" ++ CYAN c ++ Py.str new_hosts
     ++ END_ c ++ " usable hosts)")%string.

(** [enumerate(l)]. *)
Definition enumerate {A : Type} (l : list A) : list (nat * A) :=
  combine (seq 0 (List.length l)) l.

(** [calculate_subnets(args)] with [args.cidr] and [args.count]: the
    lines printed and how the call ends.  [math.log2] raises on a
    count that is not positive.  Past the test against 28 the two
    exponents are at least 4, [bits_needed] being non-negative. *)
Definition calculate_subnets (cidr : string) (count : Z)
  : list string * completion :=
  let out := banner cidr count in
  match ipaddress.ip_network repr cidr with
  | inl e => (out ++ [invalid_line e], Return 1)
  | inr network =>
      if count <=? 0
      then (out, Raise (ipaddress.ValueError "math domain error"))
      else
        let bits_needed := ceil_log2 count in
        let new_prefix := ipaddress.prefixlen network + bits_needed in
        if new_prefix >? 28 then (out ++ [limit_line new_prefix], Return 1)
        else
          let original_hosts := 2 ^ (32 - ipaddress.prefixlen network) - 2 in
          let new_hosts := 2 ^ (32 - new_prefix) - 2 in
          let out :=
            out ++ summary (ipaddress.prefixlen network) original_hosts
                     new_prefix new_hosts in
          match ipaddress.subnets network new_prefix with
          | inl e => (out, Raise e)
          | inr subnets =>
              (out
                 ++ map (allocation_line new_hosts)
                      (enumerate (firstn (Z.to_nat count) subnets))
                 ++ [""; rule],
               Return 0)
          end
  end.

(** Lines 562-563 and 569-573 of [main]: the status of the [subnet]
    command.  An exception is reported and turned into status 1. *)
Definition main_subnet (cidr : string) (count : Z) : Z :=
  match snd (calculate_subnets cidr count) with
  | Return status => status
  | Raise _ => 1
  end.

End Interpreter.


(** ** Terms in which the properties are stated *)

(** The issues of [l] with severity [s], in the order of [l]. *)
Definition with_severity (s : string) (l : list Issue) : list Issue :=
  filter (fun i => String.eqb (severity i) s) l.

(** The severities that the classifier produces. *)
Definition known_severity (i : Issue) : Prop :=
  severity i = "CRITICAL" \/ severity i = "HIGH" \/ severity i = "MEDIUM".

(** [rule] with its [FromPort] key removed. *)
Definition without_from_port (rule : IpPermission) : IpPermission :=
  {| IpProtocol := IpProtocol rule; FromPort := None; ToPort := ToPort rule;
     IpRanges := IpRanges rule; Ipv6Ranges := Ipv6Ranges rule |}.

(** A TCP rule for ports 0-65535 from the given source, in a group of
    its own: what the console calls "All TCP". *)
Definition all_tcp_from (cidr : string) : SecurityGroup :=
  {| GroupId := "sg-0a1b2c3d"; GroupName := "open";
     IpPermissions :=
       Some [ {| IpProtocol := Some "tcp"; FromPort := Some 0;
                 ToPort := Some 65535;
                 IpRanges := Some [ {| CidrIp := Some cidr |} ];
                 Ipv6Ranges := None |} ] |}.

(** A rule open to every protocol from the given source, in a group of
    its own. *)
Definition all_traffic_from (cidr : string) : SecurityGroup :=
  {| GroupId := "sg-11112222"; GroupName := "any";
     IpPermissions :=
       Some [ {| IpProtocol := Some "-1"; FromPort := None; ToPort := None;
                 IpRanges := Some [ {| CidrIp := Some cidr |} ];
                 Ipv6Ranges := None |} ] |}.

(** A TCP rule for one port from the given source, in a group of its
    own. *)
Definition tcp_port_from (p : Z) (cidr : string) : SecurityGroup :=
  {| GroupId := "sg-33334444"; GroupName := "db";
     IpPermissions :=
       Some [ {| IpProtocol := Some "tcp"; FromPort := Some p;
                 ToPort := Some p;
                 IpRanges := Some [ {| CidrIp := Some cidr |} ];
                 Ipv6Ranges := None |} ] |}.

(** A rule whose only source is the IPv6 range [::/0]. *)
Definition ipv6_only_rule : IpPermission :=
  {| IpProtocol := Some "-1"; FromPort := Some 22; ToPort := Some 22;
     IpRanges := None;
     Ipv6Ranges := Some [ {| CidrIpv6 := Some "::/0" |} ] |}.

(** The response cut around one source entry.  [with_rules sg rules] is
    the group [sg] with [rules] for its [IpPermissions], and
    [with_ranges rule ranges] the rule with [ranges] for its [IpRanges];
    every other key is kept. *)
Definition with_rules (sg : SecurityGroup) (rules : list IpPermission)
  : SecurityGroup :=
  {| GroupId := GroupId sg; GroupName := GroupName sg;
     IpPermissions := Some rules |}.

Definition with_ranges (rule : IpPermission) (ranges : list IpRange)
  : IpPermission :=
  {| IpProtocol := IpProtocol rule; FromPort := FromPort rule;
     ToPort := ToPort rule; IpRanges := Some ranges;
     Ipv6Ranges := Ipv6Ranges rule |}.

(** A group with two rules: SSH from two private blocks and from
    anywhere, then every protocol from a private block, from anywhere
    and from a single host. *)
Definition mixed_group : SecurityGroup :=
  {| GroupId := "sg-55556666"; GroupName := "mixed";
     IpPermissions :=
       Some [ {| IpProtocol := Some "tcp"; FromPort := Some 22;
                 ToPort := Some 22;
                 IpRanges := Some [ {| CidrIp := Some "10.0.0.0/8" |};
                                    {| CidrIp := Some "0.0.0.0/0" |} ];
                 Ipv6Ranges := None |};
              {| IpProtocol := Some "-1"; FromPort := Some 22;
                 ToPort := Some 22;
                 IpRanges := Some [ {| CidrIp := Some "172.16.0.0/16" |};
                                    {| CidrIp := Some "0.0.0.0/0" |};
                                    {| CidrIp := Some "192.0.2.1/32" |} ];
                 Ipv6Ranges := None |} ] |}.

(** The sensitive ports inside [[f, t]], in table order. *)
Definition ports_within (f t : Z) : list (Z * string) :=
  filter (fun entry => (f <=? fst entry) && (fst entry <=? t)) risky_ports.

(** The [i]-th network of length [new_prefix] inside [network], counting
    upwards from its first address. *)
Definition nth_subnet (network : ipaddress.Network) (new_prefix : Z) (i : nat)
  : ipaddress.Network :=
  let v := ipaddress.net_version network in
  ipaddress.mkNetwork v
    (ipaddress.network_address network
       + Z.of_nat i * 2 ^ (ipaddress._max_prefixlen v - new_prefix))
    None new_prefix.

(** A network as the strict constructors leave it. *)
Definition well_formed (n : ipaddress.Network) : Prop :=
  0 <= ipaddress.prefixlen n
    <= ipaddress._max_prefixlen (ipaddress.net_version n)
  /\ Z.land (ipaddress.network_address n) (ipaddress.netmask n)
     = ipaddress.network_address n.

(** An interpreter's [repr], on the strings used in examples. *)
Definition quote (s : string) : string := ("'" ++ s ++ "'")%string.

(** ** Further terms: the classifier's report *)

(** The (group, rule, source) triples of a response, in the order in
    which the three nested loops of lines 100-109 visit them. *)
Definition sources (groups : list SecurityGroup)
  : list (SecurityGroup * IpPermission * IpRange) :=
  flat_map
    (fun sg =>
       flat_map
         (fun rule => map (fun r => (sg, rule, r)) (Py.get (IpRanges rule) []))
         (Py.get (IpPermissions sg) []))
    groups.

(** What the loop body adds for one triple. *)
Definition triple_issues (t : SecurityGroup * IpPermission * IpRange)
  : list Issue :=
  let '(sg, rule, r) := t in
  check_range (GroupId sg) (GroupName sg) (Py.get (IpProtocol rule) "-1")
    (FromPort rule) (ToPort rule) r [].

(** The triple lets every protocol in from the whole internet. *)
Definition open_to_all (t : SecurityGroup * IpPermission * IpRange) : Prop :=
  let '(_, rule, r) := t in
  Py.get (CidrIp r) "" = "0.0.0.0/0" /\ Py.get (IpProtocol rule) "-1" = "-1".

(** The rule has both bounds, neither of them 0, around the sensitive
    port [p]. *)
Definition covers (rule : IpPermission) (p : Z) : Prop :=
  exists f t,
    FromPort rule = Some f /\ ToPort rule = Some t
    /\ f <> 0 /\ t <> 0 /\ f <= p <= t.

(** The triple lets a sensitive port in from the whole internet, under
    a protocol other than "-1". *)
Definition exposes_port (t : SecurityGroup * IpPermission * IpRange) : Prop :=
  let '(_, rule, r) := t in
  Py.get (CidrIp r) "" = "0.0.0.0/0"
  /\ Py.get (IpProtocol rule) "-1" <> "-1"
  /\ exists p service, In (p, service) risky_ports /\ covers rule p.

(** Lines 158-167: the dictionary [output] of the JSON report. *)
Record ComplianceOutput := mkComplianceOutput {
  region : string;
  account : string;
  vpc_id : option string;
  total_issues : Z;
  critical : Z;
  high : Z;
  medium : Z;
  issues : list Issue
}.

(** Lines 98-167 with [args.json] set: [output] for the given
    [args.region], [identity['Account']], [args.vpc] and response. *)
Definition compliance_output (args_region identity_account : string)
  (args_vpc : option string) (groups : list SecurityGroup)
  : ComplianceOutput :=
  let found := classify groups in
  {| region := args_region;
     account := identity_account;
     vpc_id := args_vpc;
     total_issues := Z.of_nat (List.length found);
     critical := count_severity "CRITICAL" found;
     high := count_severity "HIGH" found;
     medium := count_severity "MEDIUM" found;
     issues := found |}.

(** ** Further terms: networks *)

(** [network.num_addresses]. *)
Definition num_addresses (n : ipaddress.Network) : Z :=
  ipaddress.broadcast_address n - ipaddress.network_address n + 1.

(** ** The security-group listing, [analyze_security_groups] *)

(** A group as the listing reads it: the keys of [SecurityGroup], and
    the keys [VpcId] and [IpPermissionsEgress]. *)
Record GroupDetail := mkGroupDetail {
  group : SecurityGroup;
  VpcId : option string;
  IpPermissionsEgress : option (list IpPermission)
}.

(** How the listing ends: a [return], a [KeyError] on a subscript, or
    the [ClientError] of the API call, which this command does not
    catch. *)
Inductive listing_end :=
| Listed (status : Z)
| KeyError (key : string)
| ClientError (msg : string).

(** What a loop has printed, and the key that stopped it, if any. *)
Definition printed : Type := (list string * option string)%type.

(** A [for] loop whose body prints and may raise [KeyError]. *)
Fixpoint run_each {A : Type} (body : A -> printed) (l : list A) : printed :=
  match l with
  | [] => ([], None)
  | x :: l' =>
      match body x with
      | (lines, Some key) => (lines, Some key)
      | (lines, None) =>
          let '(rest, stopped) := run_each body l' in (lines ++ rest, stopped)
      end
  end.

(** The bullet of the rule lines, U+2022 in UTF-8. *)
Definition bullet : string :=
  String (ascii_of_nat 226)
    (String (ascii_of_nat 128) (String (ascii_of_nat 162) EmptyString)).

(** [f"{v}"] for [rule.get(key, 'ALL')]. *)
Definition port_text (v : option Z) : string :=
  match v with
  | Some n => Py.str n
  | None => "ALL"
  end.

(** [from_port == to_port] for two such values: an integer never equals
    ['ALL']. *)
Definition port_eqb (a b : option Z) : bool :=
  match a, b with
  | Some x, Some y => x =? y
  | None, None => true
  | _, _ => false
  end.

(** Line 424. *)
Definition port_str (rule : IpPermission) : string :=
  let from_port := FromPort rule in
  let to_port := ToPort rule in
  if port_eqb from_port to_port then (":" ++ port_text from_port)%string
  else (":" ++ port_text from_port ++ "-" ++ port_text to_port)%string.

Section Listing.
Variable c : Colors.

(** Lines 426-427: one inbound source; [ip_range['CidrIp']] raises on a
    missing key. *)
Definition inbound_line (rule : IpPermission) (ip_range : IpRange) : printed :=
  match CidrIp ip_range with
  | None => ([], Some "CidrIp")
  | Some cidr =>
      ([ ("    " ++ bullet ++ " " ++ YELLOW c
            ++ Py.get (IpProtocol rule) "-1" ++ END_ c ++ port_str rule
            ++ " from " ++ GREEN c ++ cidr ++ END_ c)%string ],
       None)
  end.

(** Lines 433-434: one outbound destination. *)
Definition outbound_line (rule : IpPermission) (ip_range : IpRange) : printed :=
  match CidrIp ip_range with
  | None => ([], Some "CidrIp")
  | Some cidr =>
      ([ ("    " ++ bullet ++ " " ++ YELLOW c
            ++ Py.get (IpProtocol rule) "-1" ++ END_ c
            ++ " to " ++ GREEN c ++ cidr ++ END_ c)%string ],
       None)
  end.

(** Lines 418-434: a block of rules under its heading, printed only for
    a list that is present and not empty. *)
Definition rules_block (heading : string)
  (line : IpPermission -> IpRange -> printed)
  (rules : option (list IpPermission)) : printed :=
  match rules with
  | None | Some [] => ([], None)
  | Some rules =>
      let '(lines, stopped) :=
        run_each
          (fun rule => run_each (line rule) (Py.get (IpRanges rule) []))
          rules in
      (heading :: lines, stopped)
  end.

(** Sequencing of two printing steps. *)
Definition and_then (first : printed) (next : printed) : printed :=
  match first with
  | (lines, Some key) => (lines, Some key)
  | (lines, None) => let '(rest, stopped) := next in (lines ++ rest, stopped)
  end.

(** Lines 415-436: the body of the loop over the groups. *)
Definition group_block (sg : GroupDetail) : printed :=
  let title :=
    ("Security Group: " ++ CYAN c ++ GroupName (group sg) ++ END_ c
       ++ " (" ++ GroupId (group sg) ++ ")")%string in
  match VpcId sg with
  | None => ([title], Some "VpcId")
  | Some vpc =>
      and_then
        ([title; ("  VPC: " ++ GREEN c ++ vpc ++ END_ c)%string], None)
        (and_then
           (rules_block ("  " ++ GREEN c ++ "Inbound Rules:" ++ END_ c)%string
              inbound_line (IpPermissions (group sg)))
           (and_then
              (rules_block
                 ("  " ++ RED c ++ "Outbound Rules:" ++ END_ c)%string
                 outbound_line (IpPermissionsEgress sg))
              ([""], None)))
  end.

(** Lines 404-409: the heading; the VPC line only for a non-empty
    [args.vpc]. *)
Definition listing_heading (args_region : string) (args_vpc : option string)
  : list string :=
  [ (CYAN c ++ BOLD c ++ "Security Group Analysis" ++ END_ c)%string;
    rule;
    ("Region: " ++ YELLOW c ++ args_region ++ END_ c)%string ]
  ++ match args_vpc with
     | Some vpc =>
         if String.eqb vpc "" then []
         else [ ("VPC: " ++ YELLOW c ++ vpc ++ END_ c)%string ]
     | None => []
     end
  ++ [ "" ].

(** [analyze_security_groups(args)] once the session exists: the lines
    printed and how the call ends, for [args.region], [args.vpc] and
    what [describe_security_groups] gave. *)
Definition analyze_security_groups (args_region : string)
  (args_vpc : option string) (response : string + list GroupDetail)
  : list string * listing_end :=
  let out := listing_heading args_region args_vpc in
  match response with
  | inl msg => (out, ClientError msg)
  | inr sgs =>
      match run_each group_block sgs with
      | (lines, Some key) => (out ++ lines, KeyError key)
      | (lines, None) =>
          (out ++ lines
             ++ [ rule;
                  ("Total: " ++ Py.str (Z.of_nat (List.length sgs))
                     ++ " security group(s)")%string ],
           Listed 0)
      end
  end.
End Listing.

(** Every range entry of every inbound and outbound rule of the group
    has its [CidrIp], and the group has its [VpcId]. *)
Definition fully_keyed (sg : GroupDetail) : Prop :=
  VpcId sg <> None
  /\ forall rule ip_range,
       In rule (Py.get (IpPermissions (group sg)) []
                  ++ Py.get (IpPermissionsEgress sg) []) ->
       In ip_range (Py.get (IpRanges rule) []) ->
       CidrIp ip_range <> None.

(** The number of IPv4 range entries under a list of rules. *)
Definition range_count (rules : option (list IpPermission)) : nat :=
  List.length
    (flat_map (fun rule => Py.get (IpRanges rule) []) (Py.get rules [])).

(** ** The comparison of two VPCs, [diff_vpcs] *)


Section Comparison.
(** The order in which the interpreter iterates over [set(l)], the set
    built by adding the members of [l] in turn, and over the difference
    [set(a) - set(b)] of two such sets.  The language leaves both open
    (they follow the hash tables); where a property needs them, it
    assumes only that each member comes once. *)
Variable set_iter : list string -> list string.
Variable difference_iter : list string -> list string -> list string.

Variable Instance : Type.
Variable c : Colors.



End Comparison.


(** * Properties *)

(** ** Accumulating loops *)

Lemma fold_left_emit {A B : Type} (emit : B -> list A)
  (step : list A -> B -> list A) :
  (forall acc x, step acc x = acc ++ emit x) ->
  forall l acc, fold_left step l acc = acc ++ flat_map emit l.
Proof.
  intros Hstep l. induction l as [|x l IH]; intros acc; simpl.
  - now rewrite app_nil_r.
  - rewrite IH, Hstep, <- app_assoc. reflexivity.
Qed.

Lemma high_loop_emit gid gname proto fp tp cidr issues :
  high_loop gid gname proto fp tp cidr issues
  = issues ++ flat_map
      (fun entry : Z * string =>
         if Py.truthy fp && Py.truthy tp && within fp tp (fst entry)
         then [high_issue gid gname proto cidr (fst entry) (snd entry)]
         else [])
      risky_ports.
Proof.
  unfold high_loop. apply fold_left_emit.
  intros acc [p service]; simpl.
  destruct (Py.truthy fp && Py.truthy tp && within fp tp p);
    [reflexivity | now rewrite app_nil_r].
Qed.

Lemma medium_loop_emit gid gname proto fp tp cidr issues :
  medium_loop gid gname proto fp tp cidr issues
  = issues ++ flat_map
      (fun entry : Z * string =>
         if within fp tp (fst entry)
         then [medium_issue gid gname proto cidr (fst entry) (snd entry)]
         else [])
      risky_ports.
Proof.
  unfold medium_loop. apply fold_left_emit.
  intros acc [p service]; simpl.
  destruct (within fp tp p); [reflexivity | now rewrite app_nil_r].
Qed.

(** Every loop body only appends: what it adds does not depend on what
    was collected before. *)
Lemma check_range_app gid gname proto fp tp r issues :
  check_range gid gname proto fp tp r issues
  = issues ++ check_range gid gname proto fp tp r [].
Proof.
  unfold check_range.
  destruct (String.eqb _ "0.0.0.0/0").
  - destruct (String.eqb proto "-1"); [reflexivity|].
    rewrite high_loop_emit, (high_loop_emit _ _ _ _ _ _ []). reflexivity.
  - destruct (Py.endswith _ "/8" || Py.endswith _ "/16");
      [|now rewrite app_nil_r].
    destruct (Py.truthy fp && Py.truthy tp); [|now rewrite app_nil_r].
    rewrite medium_loop_emit, (medium_loop_emit _ _ _ _ _ _ []). reflexivity.
Qed.

Lemma check_rule_emit sg rule issues :
  check_rule sg rule issues
  = issues ++ flat_map
      (fun r => check_range (GroupId sg) (GroupName sg)
                  (Py.get (IpProtocol rule) "-1") (FromPort rule)
                  (ToPort rule) r [])
      (Py.get (IpRanges rule) []).
Proof.
  unfold check_rule. apply fold_left_emit.
  intros acc r. apply check_range_app.
Qed.

Lemma check_group_emit sg issues :
  check_group sg issues
  = issues ++ flat_map (fun rule => check_rule sg rule [])
      (Py.get (IpPermissions sg) []).
Proof.
  unfold check_group. apply fold_left_emit.
  intros acc rule. rewrite check_rule_emit, (check_rule_emit _ _ []).
  reflexivity.
Qed.

(** The collected list is the concatenation, in encounter order, of what
    each (group, rule, source) triple contributes. *)
Lemma collect_issues_flat_map groups :
  collect_issues groups
  = flat_map
      (fun sg =>
         flat_map
           (fun rule =>
              flat_map
                (fun r => check_range (GroupId sg) (GroupName sg)
                            (Py.get (IpProtocol rule) "-1") (FromPort rule)
                            (ToPort rule) r [])
                (Py.get (IpRanges rule) []))
           (Py.get (IpPermissions sg) []))
      groups.
Proof.
  unfold collect_issues.
  rewrite (fold_left_emit (fun sg => check_group sg [])).
  - simpl. apply flat_map_ext. intros sg.
    rewrite check_group_emit. simpl. apply flat_map_ext. intros rule.
    now rewrite check_rule_emit.
  - intros acc sg. rewrite check_group_emit, (check_group_emit _ []).
    reflexivity.
Qed.

Lemma Forall_flat_map {A B : Type} (P : B -> Prop) (f : A -> list B) l :
  (forall x, In x l -> Forall P (f x)) -> Forall P (flat_map f l).
Proof.
  induction l as [|x l IH]; intros H; simpl; [constructor|].
  apply Forall_app; split; [apply H; now left|].
  apply IH. intros y Hy. apply H. now right.
Qed.

Lemma check_range_severity gid gname proto fp tp r :
  Forall known_severity (check_range gid gname proto fp tp r []).
Proof.
  unfold check_range.
  destruct (String.eqb _ "0.0.0.0/0").
  - destruct (String.eqb proto "-1").
    + constructor; [now left | constructor].
    + rewrite high_loop_emit, app_nil_l. apply Forall_flat_map. intros e _.
      destruct (_ && _); constructor; [right; now left | constructor].
  - destruct (_ || _); [|constructor].
    destruct (_ && _); [|constructor].
    rewrite medium_loop_emit, app_nil_l. apply Forall_flat_map. intros e _.
    destruct (within _ _ _); constructor; [right; now right | constructor].
Qed.

Lemma collect_issues_severity groups :
  Forall known_severity (collect_issues groups).
Proof.
  rewrite collect_issues_flat_map.
  repeat (apply Forall_flat_map; intros ? _).
  apply check_range_severity.
Qed.

(** ** The stable sort *)

Section SortFacts.
Context {A : Type} (key : A -> Z).

Lemma insert_perm x l : Permutation (x :: l) (Py.insert key x l).
Proof.
  induction l as [|y l IH]; simpl; [reflexivity|].
  destruct (key x <=? key y); [reflexivity|].
  rewrite perm_swap. now constructor.
Qed.

Lemma sort_perm l : Permutation l (Py.sort key l).
Proof.
  induction l as [|x l IH]; simpl; [constructor|].
  rewrite <- insert_perm. now constructor.
Qed.

Lemma insert_sorted x l :
  Sorted (Py.key_le key) l -> Sorted (Py.key_le key) (Py.insert key x l).
Proof.
  induction l as [|y l IH]; intros Hs; simpl.
  - repeat constructor.
  - destruct (key x <=? key y) eqn:Hxy.
    + constructor; [assumption|]. constructor. apply Z.leb_le, Hxy.
    + apply Z.leb_gt in Hxy. inversion Hs as [|? ? Hl Hhd]; subst.
      constructor; [now apply IH|].
      destruct l as [|z l]; simpl.
      * constructor. unfold Py.key_le. lia.
      * destruct (key x <=? key z); constructor.
        -- unfold Py.key_le. lia.
        -- now inversion Hhd.
Qed.

Lemma sort_sorted l : Sorted (Py.key_le key) (Py.sort key l).
Proof.
  induction l as [|x l IH]; simpl; [constructor|].
  now apply insert_sorted.
Qed.

Lemma key_le_trans : Relations_1.Transitive (Py.key_le key).
Proof. intros x y z. unfold Py.key_le. lia. Qed.

Lemma with_key_insert k x l :
  Py.with_key key k (Py.insert key x l) = Py.with_key key k (x :: l).
Proof.
  unfold Py.with_key.
  induction l as [|y l IH]; [reflexivity|].
  cbn [Py.insert]. destruct (key x <=? key y) eqn:Hxy; [reflexivity|].
  apply Z.leb_gt in Hxy.
  cbn [filter] in *. rewrite IH.
  destruct (key x =? k) eqn:Hx, (key y =? k) eqn:Hy; try reflexivity.
  apply Z.eqb_eq in Hx, Hy. lia.
Qed.

(** Stability: the elements with a given key keep their order. *)
Lemma sort_stable k l :
  Py.with_key key k (Py.sort key l) = Py.with_key key k l.
Proof.
  induction l as [|x l IH]; [reflexivity|].
  cbn [Py.sort fold_right]. rewrite with_key_insert.
  unfold Py.with_key in *. cbn [filter].
  unfold Py.sort in IH. now rewrite IH.
Qed.

Lemma with_key_head_none k x l :
  StronglySorted (Py.key_le key) (x :: l) -> k < key x ->
  Py.with_key key k (x :: l) = [].
Proof.
  intros Hs Hk. inversion Hs as [|? ? _ Hall]; subst.
  unfold Py.with_key. simpl.
  replace (key x =? k) with false by (symmetry; apply Z.eqb_neq; lia).
  induction l as [|y l IH]; simpl; [reflexivity|].
  inversion Hall as [|? ? Hy Hl]; subst. unfold Py.key_le in Hy.
  replace (key y =? k) with false by (symmetry; apply Z.eqb_neq; lia).
  apply IH; [|assumption].
  constructor; [|assumption].
  inversion Hs as [|? ? Hs' _]; subst. now inversion Hs'.
Qed.

(** A list sorted by key is determined by its per-key sublists: any
    stable sort computes what [Py.sort] computes. *)
Lemma stable_sort_unique l1 :
  forall l2,
    StronglySorted (Py.key_le key) l1 ->
    StronglySorted (Py.key_le key) l2 ->
    (forall k, Py.with_key key k l1 = Py.with_key key k l2) ->
    l1 = l2.
Proof.
  induction l1 as [|x l1 IH]; intros l2 H1 H2 Heq.
  - destruct l2 as [|y l2]; [reflexivity|].
    specialize (Heq (key y)). unfold Py.with_key in Heq. simpl in Heq.
    rewrite Z.eqb_refl in Heq. discriminate.
  - destruct l2 as [|y l2].
    + specialize (Heq (key x)). unfold Py.with_key in Heq. simpl in Heq.
      rewrite Z.eqb_refl in Heq. discriminate.
    + assert (Hk : key x = key y).
      { destruct (Z.lt_trichotomy (key x) (key y)) as [Hlt|[He|Hgt]];
          [exfalso|exact He|exfalso].
        - pose proof (Heq (key x)) as E.
          rewrite (with_key_head_none (key x) y l2 H2 Hlt) in E.
          unfold Py.with_key in E. simpl in E.
          rewrite Z.eqb_refl in E. discriminate.
        - pose proof (Heq (key y)) as E.
          rewrite (with_key_head_none (key y) x l1 H1 Hgt) in E.
          unfold Py.with_key in E. simpl in E.
          rewrite Z.eqb_refl in E. discriminate. }
      pose proof (Heq (key x)) as E.
      unfold Py.with_key in E. simpl in E.
      rewrite Z.eqb_refl, <- Hk, Z.eqb_refl in E.
      injection E as Exy E. subst y. f_equal.
      apply IH.
      * now inversion H1.
      * now inversion H2.
      * intros k. specialize (Heq k). unfold Py.with_key in *.
        simpl in Heq. destruct (key x =? k); [now injection Heq|exact Heq].
Qed.
End SortFacts.

(** ** Severity ranks *)

Lemma rank_critical i :
  (severity_rank i =? 0) = String.eqb (severity i) "CRITICAL".
Proof.
  unfold severity_rank. simpl.
  destruct (String.eqb_spec (severity i) "CRITICAL") as [E|_]; [reflexivity|].
  destruct (String.eqb (severity i) "HIGH"); [reflexivity|].
  destruct (String.eqb (severity i) "MEDIUM"); reflexivity.
Qed.

Lemma rank_high i :
  (severity_rank i =? 1) = String.eqb (severity i) "HIGH".
Proof.
  unfold severity_rank. simpl.
  destruct (String.eqb_spec (severity i) "CRITICAL") as [E|_].
  - rewrite E. reflexivity.
  - destruct (String.eqb (severity i) "HIGH"); [reflexivity|].
    destruct (String.eqb (severity i) "MEDIUM"); reflexivity.
Qed.

Lemma rank_medium i :
  (severity_rank i =? 2) = String.eqb (severity i) "MEDIUM".
Proof.
  unfold severity_rank. simpl.
  destruct (String.eqb_spec (severity i) "CRITICAL") as [E|_].
  - rewrite E. reflexivity.
  - destruct (String.eqb_spec (severity i) "HIGH") as [E|_].
    + rewrite E. reflexivity.
    + destruct (String.eqb (severity i) "MEDIUM"); reflexivity.
Qed.

Lemma rank_known i : known_severity i -> 0 <= severity_rank i <= 2.
Proof.
  unfold known_severity, severity_rank.
  intros [E|[E|E]]; rewrite E; simpl; lia.
Qed.

Lemma filter_nil_iff {A : Type} (f : A -> bool) l :
  (forall x, In x l -> f x = false) -> filter f l = [].
Proof.
  induction l as [|x l IH]; intros H; simpl; [reflexivity|].
  rewrite (H x (or_introl eq_refl)). apply IH. intros y Hy. apply H. now right.
Qed.

Lemma filter_filter {A : Type} (f g : A -> bool) l :
  filter f (filter g l) = filter (fun x => g x && f x) l.
Proof.
  induction l as [|x l IH]; simpl; [reflexivity|].
  destruct (g x); simpl; [destruct (f x)|]; now rewrite IH.
Qed.

Lemma with_key_with_key {A : Type} (key : A -> Z) k j l :
  Py.with_key key k (Py.with_key key j l)
  = if k =? j then Py.with_key key j l else [].
Proof.
  unfold Py.with_key. rewrite filter_filter.
  destruct (Z.eqb_spec k j) as [->|Hne].
  - apply filter_ext. intros x. now rewrite andb_diag.
  - apply filter_nil_iff. intros x _.
    destruct (Z.eqb_spec (key x) j), (Z.eqb_spec (key x) k);
      try reflexivity. congruence.
  Qed.

Lemma constant_key_sorted {A : Type} (key : A -> Z) k l :
  StronglySorted (Py.key_le key) (Py.with_key key k l).
Proof.
  unfold Py.with_key.
  induction l as [|x l IH]; simpl; [constructor|].
  destruct (Z.eqb_spec (key x) k) as [E|_]; [|exact IH].
  constructor; [exact IH|].
  apply Forall_forall. intros y Hy. apply filter_In in Hy as [_ Hy].
  apply Z.eqb_eq in Hy. unfold Py.key_le. lia.
Qed.

Lemma strongly_sorted_app {A : Type} (R : A -> A -> Prop) l1 l2 :
  StronglySorted R l1 -> StronglySorted R l2 ->
  (forall x y, In x l1 -> In y l2 -> R x y) ->
  StronglySorted R (l1 ++ l2).
Proof.
  induction l1 as [|x l1 IH]; intros H1 H2 H12; simpl; [assumption|].
  inversion H1 as [|? ? Hs Hall]; subst.
  constructor.
  - apply IH; [assumption|assumption|].
    intros a b Ha Hb. apply H12; [now right|assumption].
  - apply Forall_app; split; [assumption|].
    apply Forall_forall. intros y Hy. apply H12; [now left|assumption].
Qed.

Lemma in_with_key {A : Type} (key : A -> Z) k l x :
  In x (Py.with_key key k l) -> key x = k.
Proof.
  unfold Py.with_key. intros H. apply filter_In in H as [_ H].
  now apply Z.eqb_eq.
Qed.

(** Sorting keys drawn from 0, 1, 2 lays the three classes out one after
    the other, each in its original order. *)
Lemma sort_three_ranks {A : Type} (key : A -> Z) l :
  Forall (fun x => 0 <= key x <= 2) l ->
  Py.sort key l
  = Py.with_key key 0 l ++ Py.with_key key 1 l ++ Py.with_key key 2 l.
Proof.
  intros Hr.
  apply stable_sort_unique with (key := key).
  - apply Sorted_StronglySorted; [apply key_le_trans | apply sort_sorted].
  - repeat apply strongly_sorted_app; try apply constant_key_sorted.
    + intros x y Hx Hy. apply in_with_key in Hx, Hy. unfold Py.key_le. lia.
    + intros x y Hx Hy. apply in_app_or in Hy.
      apply in_with_key in Hx. unfold Py.key_le.
      destruct Hy as [Hy|Hy]; apply in_with_key in Hy; lia.
  - intros k. rewrite sort_stable.
    unfold Py.with_key at 1 2. rewrite !filter_app.
    fold (Py.with_key key k (Py.with_key key 0 l)).
    fold (Py.with_key key k (Py.with_key key 1 l)).
    fold (Py.with_key key k (Py.with_key key 2 l)).
    rewrite !with_key_with_key.
    destruct (Z.eqb_spec k 0) as [->|H0]; [now rewrite app_nil_r|].
    destruct (Z.eqb_spec k 1) as [->|H1]; [now rewrite app_nil_r|].
    destruct (Z.eqb_spec k 2) as [->|H2]; [reflexivity|].
    simpl. unfold Py.with_key. apply filter_nil_iff.
    intros x Hx. rewrite Forall_forall in Hr. specialize (Hr x Hx).
    apply Z.eqb_neq. lia.
Qed.

Lemma with_key_rank_0 l :
  Py.with_key severity_rank 0 l = with_severity "CRITICAL" l.
Proof. apply filter_ext, rank_critical. Qed.

Lemma with_key_rank_1 l :
  Py.with_key severity_rank 1 l = with_severity "HIGH" l.
Proof. apply filter_ext, rank_high. Qed.

Lemma with_key_rank_2 l :
  Py.with_key severity_rank 2 l = with_severity "MEDIUM" l.
Proof. apply filter_ext, rank_medium. Qed.

Lemma sort_issues_by_class l :
  Forall known_severity l ->
  Py.sort severity_rank l
  = with_severity "CRITICAL" l ++ with_severity "HIGH" l
      ++ with_severity "MEDIUM" l.
Proof.
  intros Hk. rewrite sort_three_ranks.
  - now rewrite with_key_rank_0, with_key_rank_1, with_key_rank_2.
  - eapply Forall_impl; [|exact Hk]. apply rank_known.
Qed.

Lemma with_severity_twice s t l :
  with_severity s (with_severity t l)
  = if String.eqb s t then with_severity t l else [].
Proof.
  unfold with_severity. rewrite filter_filter.
  destruct (String.eqb_spec s t) as [->|Hne].
  - apply filter_ext. intros x. now rewrite andb_diag.
  - apply filter_nil_iff. intros x _.
    destruct (String.eqb_spec (severity x) t), (String.eqb_spec (severity x) s);
      try reflexivity. congruence.
Qed.

Lemma with_severity_unknown s l :
  Forall known_severity l ->
  s <> "CRITICAL" -> s <> "HIGH" -> s <> "MEDIUM" ->
  with_severity s l = [].
Proof.
  intros Hk Hc Hh Hm. apply filter_nil_iff. intros x Hx.
  rewrite Forall_forall in Hk. specialize (Hk x Hx).
  apply String.eqb_neq. unfold known_severity in Hk.
  destruct Hk as [E|[E|E]]; congruence.
Qed.

Lemma count_severity_length s l :
  count_severity s l = Z.of_nat (List.length (with_severity s l)).
Proof.
  unfold count_severity.
  assert (G : forall n,
             fold_left
               (fun n i => if String.eqb (severity i) s then n + 1 else n) l n
             = n + Z.of_nat (List.length (with_severity s l))).
  { induction l as [|x l IH]; intros n; simpl; [lia|].
    rewrite IH. destruct (String.eqb (severity x) s); simpl; lia. }
  now rewrite G.
Qed.

Lemma count_severity_pos s l :
  (exists i, In i l /\ severity i = s) <-> 0 < count_severity s l.
Proof.
  rewrite count_severity_length. split.
  - intros (i & Hi & E).
    assert (Hin : In i (with_severity s l)).
    { apply filter_In. split; [assumption|]. now apply String.eqb_eq. }
    destruct (with_severity s l); [contradiction|]. simpl. lia.
  - intros H. destruct (with_severity s l) as [|i r] eqn:E; [simpl in H; lia|].
    exists i. assert (Hin : In i (with_severity s l)) by (rewrite E; now left).
    apply filter_In in Hin as [Hin Hs]. split; [assumption|].
    now apply String.eqb_eq.
Qed.

(** ** The classifier, branch by branch *)

Lemma flat_map_nil {A B : Type} (l : list A) :
  flat_map (fun _ => @nil B) l = [].
Proof. induction l; simpl; auto. Qed.

Lemma flat_map_filter_map {A B : Type} (f : A -> bool) (g : A -> B) l :
  flat_map (fun x => if f x then [g x] else []) l = map g (filter f l).
Proof.
  induction l as [|x l IH]; simpl; [reflexivity|].
  destruct (f x); simpl; now rewrite IH.
Qed.

(** The internet branch with both bounds present and non-zero: one HIGH
    issue per sensitive port inside the bounds. *)
Lemma internet_branch_high gid gname proto f t r :
  Py.get (CidrIp r) "" = "0.0.0.0/0" -> proto <> "-1" ->
  f <> 0 -> t <> 0 ->
  check_range gid gname proto (Some f) (Some t) r []
  = map (fun e => high_issue gid gname proto "0.0.0.0/0" (fst e) (snd e))
      (ports_within f t).
Proof.
  intros Hc Hp Hf Ht. unfold check_range. rewrite Hc.
  change (String.eqb "0.0.0.0/0" "0.0.0.0/0") with true. cbv iota.
  apply String.eqb_neq in Hp. rewrite Hp.
  rewrite high_loop_emit, app_nil_l.
  unfold Py.truthy, within.
  apply Z.eqb_neq in Hf, Ht. rewrite Hf, Ht. cbn [negb andb].
  apply (flat_map_filter_map
           (fun e : Z * string => (f <=? fst e) && (fst e <=? t))).
Qed.

(** The large-block branch with both bounds present and non-zero: one
    MEDIUM issue per sensitive port inside the bounds. *)
Lemma large_block_branch_medium gid gname proto f t r :
  Py.get (CidrIp r) "" <> "0.0.0.0/0" ->
  Py.endswith (Py.get (CidrIp r) "") "/8"
    || Py.endswith (Py.get (CidrIp r) "") "/16" = true ->
  f <> 0 -> t <> 0 ->
  check_range gid gname proto (Some f) (Some t) r []
  = map (fun e => medium_issue gid gname proto (Py.get (CidrIp r) "")
                    (fst e) (snd e))
      (ports_within f t).
Proof.
  intros Hc He Hf Ht. unfold check_range.
  apply String.eqb_neq in Hc. rewrite Hc, He.
  unfold Py.truthy. apply Z.eqb_neq in Hf, Ht. rewrite Hf, Ht. cbn [negb andb].
  rewrite medium_loop_emit, app_nil_l. unfold within.
  apply (flat_map_filter_map
           (fun e : Z * string => (f <=? fst e) && (fst e <=? t))).
Qed.

(** Any other source adds nothing. *)
Lemma other_source_no_issue gid gname proto fp tp r :
  Py.get (CidrIp r) "" <> "0.0.0.0/0" ->
  Py.endswith (Py.get (CidrIp r) "") "/8" = false ->
  Py.endswith (Py.get (CidrIp r) "") "/16" = false ->
  check_range gid gname proto fp tp r [] = [].
Proof.
  intros Hc H8 H16. unfold check_range.
  apply String.eqb_neq in Hc. now rewrite Hc, H8, H16.
Qed.

(** Bounds [20, 25] from the internet: SSH alone. *)
Lemma bounds_20_25_ssh_only gid gname proto r :
  Py.get (CidrIp r) "" = "0.0.0.0/0" -> proto <> "-1" ->
  check_range gid gname proto (Some 20) (Some 25) r []
  = [ {| severity := "HIGH"; sg_id := gid; sg_name := gname;
         protocol := proto; port := "22 (SSH)"; source := "0.0.0.0/0";
         description := "SSH exposed to internet" |} ].
Proof.
  intros Hc Hp. rewrite internet_branch_high by (assumption || lia).
  reflexivity.
Qed.

(** MySQL from 10.0.0.0/16 is MEDIUM; from 10.0.0.0/15 it is nothing. *)
Lemma mysql_slash16_medium_slash15_nothing :
  classify [tcp_port_from 3306 "10.0.0.0/16"]
  = [ {| severity := "MEDIUM"; sg_id := "sg-33334444"; sg_name := "db";
         protocol := "tcp"; port := "3306 (MySQL)"; source := "10.0.0.0/16";
         description := "MySQL exposed to large CIDR block" |} ]
  /\ classify [tcp_port_from 3306 "10.0.0.0/15"] = [].
Proof. split; reflexivity. Qed.

(** ** The classifier: main properties *)

(** C2, at the input where the code departs from it.  A TCP rule for
    ports 0-65535 from 0.0.0.0/0 has both bounds present and all eight
    sensitive ports inside them, yet the classifier reports nothing:
    the bound 0 fails the truth test of line 125. *)
Theorem C2_all_tcp_from_internet_unreported :
  ports_within 0 65535 = risky_ports
  /\ classify [all_tcp_from "0.0.0.0/0"] = [].
Proof. split; reflexivity. Qed.

(** C3, at the input where the code departs from it.  A TCP rule for
    ports 0-65535 from 10.0.0.0/8 has both bounds present and all eight
    sensitive ports inside them, yet the classifier reports nothing:
    the bound 0 fails the truth test of line 137. *)
Theorem C3_all_tcp_from_large_block_unreported :
  Py.endswith "10.0.0.0/8" "/8" = true
  /\ ports_within 0 65535 = risky_ports
  /\ classify [all_tcp_from "10.0.0.0/8"] = [].
Proof. repeat split; reflexivity. Qed.

(** C6. The value returned after the report: in strict mode 2 as soon as
    one CRITICAL issue exists, else 1 as soon as one HIGH issue exists,
    else 0; without strict mode 0 whatever the issues.  It is the value
    of [check_compliance] on every response that is not an API error. *)
Theorem C6_exit_status_policy :
  forall issues,
    ((exists i, In i issues /\ severity i = "CRITICAL") ->
     exit_status true issues = 2)
    /\ (~ (exists i, In i issues /\ severity i = "CRITICAL") ->
        (exists i, In i issues /\ severity i = "HIGH") ->
        exit_status true issues = 1)
    /\ (~ (exists i, In i issues /\ severity i = "CRITICAL") ->
        ~ (exists i, In i issues /\ severity i = "HIGH") ->
        exit_status true issues = 0)
    /\ exit_status false issues = 0
    /\ (forall strict groups,
          check_compliance strict (inr groups)
          = exit_status strict (classify groups)).
Proof.
  intros issues. unfold exit_status.
  pose proof (count_severity_pos "CRITICAL" issues) as Hc.
  pose proof (count_severity_pos "HIGH" issues) as Hh.
  repeat split.
  - intros H. apply Hc in H.
    destruct (Z.gtb_spec (count_severity "CRITICAL" issues) 0);
      [reflexivity|lia].
  - intros Hn H. apply Hh in H.
    destruct (Z.gtb_spec (count_severity "CRITICAL" issues) 0) as [G|_].
    + exfalso. apply Hn, Hc. lia.
    + destruct (Z.gtb_spec (count_severity "HIGH" issues) 0); [reflexivity|lia].
  - intros Hn Hm.
    destruct (Z.gtb_spec (count_severity "CRITICAL" issues) 0) as [G|_].
    + exfalso. apply Hn, Hc. lia.
    + destruct (Z.gtb_spec (count_severity "HIGH" issues) 0) as [G|_];
        [|reflexivity].
      exfalso. apply Hm, Hh. lia.
Qed.

Lemma C6_witness :
  exit_status true
    (classify [tcp_port_from 22 "0.0.0.0/0"; all_traffic_from "0.0.0.0/0";
               tcp_port_from 22 "10.0.0.0/8"]) = 2.
Proof.
  refine (proj1 (C6_exit_status_policy _) _).
  eexists. split; [left; reflexivity | reflexivity].
Defined.

(** C7. For every sequence of security groups the classifier's output is
    sorted by severity rank, is a rearrangement of the issues in
    encounter order, and keeps the encounter order inside each severity:
    it is the CRITICAL issues, then the HIGH ones, then the MEDIUM ones.
    In particular one MEDIUM and one CRITICAL issue come out CRITICAL
    first, in whichever order they went in. *)
Theorem C7_sorted_by_severity_stable :
  (forall groups,
     let raw := collect_issues groups in
     let out := classify groups in
     StronglySorted (fun a b => severity_rank a <= severity_rank b) out
     /\ Permutation raw out
     /\ (forall s, with_severity s out = with_severity s raw)
     /\ out = with_severity "CRITICAL" raw ++ with_severity "HIGH" raw
                ++ with_severity "MEDIUM" raw)
  /\ (forall m c,
        severity m = "MEDIUM" -> severity c = "CRITICAL" ->
        Py.sort severity_rank [m; c] = [c; m]
        /\ Py.sort severity_rank [c; m] = [c; m]).
Proof.
  split.
  - intros groups raw out. subst raw out. unfold classify.
    pose proof (collect_issues_severity groups) as Hk.
    split; [|split; [|split]].
    + apply (Sorted_StronglySorted (key_le_trans severity_rank)).
      apply sort_sorted.
    + apply sort_perm.
    + intros s. rewrite (sort_issues_by_class _ Hk).
      unfold with_severity at 1. rewrite !filter_app.
      fold (with_severity s (with_severity "CRITICAL" (collect_issues groups))).
      fold (with_severity s (with_severity "HIGH" (collect_issues groups))).
      fold (with_severity s (with_severity "MEDIUM" (collect_issues groups))).
      rewrite !with_severity_twice.
      destruct (String.eqb_spec s "CRITICAL") as [->|Hc];
        [now rewrite app_nil_r|].
      destruct (String.eqb_spec s "HIGH") as [->|Hh];
        [now rewrite app_nil_r|].
      destruct (String.eqb_spec s "MEDIUM") as [->|Hm]; [reflexivity|].
      symmetry. now apply with_severity_unknown.
    + now apply sort_issues_by_class.
  - intros m c Hm Hc. unfold Py.sort, severity_rank. simpl.
    rewrite Hm, Hc. simpl. split; reflexivity.
Qed.

Lemma C7_witness :
  Py.sort severity_rank
    (collect_issues [tcp_port_from 22 "10.0.0.0/8";
                     all_traffic_from "0.0.0.0/0"])
  = collect_issues [all_traffic_from "0.0.0.0/0";
                    tcp_port_from 22 "10.0.0.0/8"]
  /\ Py.sort severity_rank
       (collect_issues [all_traffic_from "0.0.0.0/0";
                        tcp_port_from 22 "10.0.0.0/8"])
     = collect_issues [all_traffic_from "0.0.0.0/0";
                       tcp_port_from 22 "10.0.0.0/8"].
Proof.
  exact (proj2 C7_sorted_by_severity_stable
           (medium_issue "sg-33334444" "db" "tcp" "10.0.0.0/8" 22 "SSH")
           (critical_issue "sg-11112222" "any" "0.0.0.0/0")
           eq_refl eq_refl).
Defined.

(** C9. A rule whose [FromPort] is 0 yields no HIGH and no MEDIUM issue,
    whatever its [ToPort] and sources: it yields exactly what the same
    rule yields with [FromPort] absent. *)
Theorem C9_zero_from_port_as_absent :
  forall sg rule,
    FromPort rule = Some 0 ->
    (forall i, In i (check_rule sg rule []) ->
               severity i <> "HIGH" /\ severity i <> "MEDIUM")
    /\ check_rule sg rule [] = check_rule sg (without_from_port rule) [].
Proof.
  intros sg rule H0.
  assert (Hr : forall r,
             check_range (GroupId sg) (GroupName sg)
               (Py.get (IpProtocol rule) "-1") (Some 0) (ToPort rule) r []
             = if String.eqb (Py.get (CidrIp r) "") "0.0.0.0/0"
                  && String.eqb (Py.get (IpProtocol rule) "-1") "-1"
               then [critical_issue (GroupId sg) (GroupName sg)
                       (Py.get (CidrIp r) "")]
               else []).
  { intros r. unfold check_range.
    destruct (String.eqb _ "0.0.0.0/0").
    - destruct (String.eqb _ "-1"); [reflexivity|].
      rewrite high_loop_emit. cbn [Py.truthy Z.eqb negb andb app].
      apply flat_map_nil.
    - destruct (_ || _); reflexivity. }
  assert (Hn : forall r,
             check_range (GroupId sg) (GroupName sg)
               (Py.get (IpProtocol rule) "-1") None (ToPort rule) r []
             = check_range (GroupId sg) (GroupName sg)
                 (Py.get (IpProtocol rule) "-1") (Some 0) (ToPort rule) r []).
  { intros r. rewrite Hr. unfold check_range.
    destruct (String.eqb _ "0.0.0.0/0").
    - destruct (String.eqb _ "-1"); [reflexivity|].
      rewrite high_loop_emit. cbn [Py.truthy andb app].
      apply flat_map_nil.
    - destruct (_ || _); reflexivity. }
  split.
  - intros i Hi. rewrite check_rule_emit, app_nil_l, H0 in Hi.
    apply in_flat_map in Hi as (r & _ & Hi). rewrite Hr in Hi.
    destruct (_ && _); [|contradiction].
    destruct Hi as [<-|[]]. simpl. split; discriminate.
  - rewrite !check_rule_emit, H0, !app_nil_l.
    unfold without_from_port. cbn [IpProtocol FromPort ToPort IpRanges].
    apply flat_map_ext. intros r. symmetry. apply Hn.
Qed.

Lemma C9_witness :
  check_rule (all_tcp_from "0.0.0.0/0")
    {| IpProtocol := Some "tcp"; FromPort := Some 0; ToPort := Some 65535;
       IpRanges := Some [ {| CidrIp := Some "0.0.0.0/0" |} ];
       Ipv6Ranges := None |} []
  = check_rule (all_tcp_from "0.0.0.0/0")
      {| IpProtocol := Some "tcp"; FromPort := None; ToPort := Some 65535;
         IpRanges := Some [ {| CidrIp := Some "0.0.0.0/0" |} ];
         Ipv6Ranges := None |} [].
Proof.
  exact (proj2 (C9_zero_from_port_as_absent (all_tcp_from "0.0.0.0/0")
                  {| IpProtocol := Some "tcp"; FromPort := Some 0;
                     ToPort := Some 65535;
                     IpRanges := Some [ {| CidrIp := Some "0.0.0.0/0" |} ];
                     Ipv6Ranges := None |} eq_refl)).
Defined.

(** C10. Only [IpRanges] is read: a rule with no IPv4 source, whatever
    its [Ipv6Ranges], protocol and port bounds, adds no issue. *)
Theorem C10_ipv6_sources_not_inspected :
  forall sg rule issues,
    Py.get (IpRanges rule) [] = [] ->
    check_rule sg rule issues = issues.
Proof.
  intros sg rule issues H. unfold check_rule. now rewrite H.
Qed.

Lemma C10_witness :
  check_rule (all_traffic_from "0.0.0.0/0") ipv6_only_rule [] = [].
Proof.
  exact (C10_ipv6_sources_not_inspected (all_traffic_from "0.0.0.0/0")
           ipv6_only_rule [] eq_refl).
Defined.

(** ** Masks and alignment *)

Lemma land_lxor_distr a b c :
  Z.land a (Z.lxor b c) = Z.lxor (Z.land a b) (Z.land a c).
Proof.
  apply Z.bits_inj'. intros i _.
  rewrite Z.land_spec, !Z.lxor_spec, !Z.land_spec.
  destruct (Z.testbit a i), (Z.testbit b i), (Z.testbit c i); reflexivity.
Qed.

Lemma max_prefixlen_pos v : 0 < ipaddress._max_prefixlen v.
Proof. destruct v; simpl; lia. Qed.

Lemma all_ones_ones v :
  ipaddress._ALL_ONES v = Z.ones (ipaddress._max_prefixlen v).
Proof. unfold ipaddress._ALL_ONES. rewrite Z.ones_equiv. lia. Qed.

(** The netmask of length [p] is all ones with the low [max - p] bits
    cleared. *)
Lemma netmask_lxor v p :
  0 <= p <= ipaddress._max_prefixlen v ->
  ipaddress._ip_int_from_prefix v p
  = Z.lxor (Z.ones (ipaddress._max_prefixlen v))
      (Z.ones (ipaddress._max_prefixlen v - p)).
Proof.
  intros Hp. unfold ipaddress._ip_int_from_prefix.
  rewrite all_ones_ones, Z.shiftr_div_pow2 by lia.
  now rewrite Z.ones_div_pow2.
Qed.

Lemma hostmask_ones n :
  0 <= ipaddress.prefixlen n
    <= ipaddress._max_prefixlen (ipaddress.net_version n) ->
  ipaddress.hostmask n
  = Z.ones (ipaddress._max_prefixlen (ipaddress.net_version n)
            - ipaddress.prefixlen n).
Proof.
  intros Hp. unfold ipaddress.hostmask, ipaddress.netmask.
  rewrite netmask_lxor, all_ones_ones by assumption.
  rewrite (Z.lxor_comm (Z.ones _)), Z.lxor_assoc, Z.lxor_nilpotent.
  apply Z.lxor_0_r.
Qed.

(** The strict test of the constructors, in arithmetic: the address is
    inside the address space and a multiple of the block size. *)
Lemma aligned_iff v p a :
  0 <= p <= ipaddress._max_prefixlen v ->
  Z.land a (ipaddress._ip_int_from_prefix v p) = a
  <-> 0 <= a < 2 ^ ipaddress._max_prefixlen v
      /\ a mod 2 ^ (ipaddress._max_prefixlen v - p) = 0.
Proof.
  intros Hp. pose proof (max_prefixlen_pos v) as Hm.
  rewrite netmask_lxor, land_lxor_distr, !Z.land_ones by lia.
  set (m := ipaddress._max_prefixlen v) in *.
  assert (Hpow : 2 ^ m = 2 ^ p * 2 ^ (m - p)).
  { rewrite <- Z.pow_add_r by lia. f_equal. lia. }
  assert (Hk : 0 < 2 ^ (m - p)) by (apply Z.pow_pos_nonneg; lia).
  assert (Hq : 0 < 2 ^ p) by (apply Z.pow_pos_nonneg; lia).
  assert (Hmm : (a mod 2 ^ m) mod 2 ^ (m - p) = a mod 2 ^ (m - p)).
  { rewrite Hpow, Z.mul_comm. rewrite Z.rem_mul_r by lia.
    rewrite Z.mul_comm, Z.mod_add by lia. apply Z.mod_mod. lia. }
  split.
  - intros H.
    assert (Hy : 0 <= a mod 2 ^ (m - p) < 2 ^ (m - p))
      by (apply Z.mod_pos_bound; lia).
    assert (Hz : a mod 2 ^ (m - p) = 0).
    { assert (E : Z.land (Z.ones (m - p))
                    (Z.lxor (a mod 2 ^ m) (a mod 2 ^ (m - p)))
                  = Z.land (Z.ones (m - p)) a) by now rewrite H.
      rewrite land_lxor_distr, !(Z.land_comm (Z.ones (m - p))) in E.
      rewrite !Z.land_ones in E by lia.
      rewrite Hmm, Z.mod_mod, Z.lxor_nilpotent in E by lia.
      now symmetry. }
    rewrite Hz, Z.lxor_0_r in H. split; [|assumption].
    rewrite <- H. apply Z.mod_pos_bound. apply Z.pow_pos_nonneg; lia.
  - intros [Hr Hz]. rewrite Hz, Z.lxor_0_r. apply Z.mod_small. assumption.
Qed.

(** ** What the constructors guarantee *)

Lemma check_host_bits_inr n n' :
  ipaddress.check_host_bits n = inr n' ->
  n' = n
  /\ Z.land (ipaddress.network_address n) (ipaddress.netmask n)
     = ipaddress.network_address n.
Proof.
  unfold ipaddress.check_host_bits.
  destruct (Z.eqb_spec (Z.land (ipaddress.network_address n)
                          (ipaddress.netmask n))
              (ipaddress.network_address n)) as [E|_]; simpl.
  - intros [= <-]. now split.
  - discriminate.
Qed.

Lemma prefix_from_prefix_string_range v s p :
  ipaddress._prefix_from_prefix_string v s = Some p ->
  0 <= p <= ipaddress._max_prefixlen v.
Proof.
  unfold ipaddress._prefix_from_prefix_string.
  destruct (ipaddress.isascii_isdigit s); simpl; [|discriminate].
  destruct (ipaddress.int10 s) as [q|]; [|discriminate].
  destruct (Z.leb_spec 0 q), (Z.leb_spec q (ipaddress._max_prefixlen v));
    simpl; try discriminate.
  intros [= <-]. lia.
Qed.

Lemma count_righthand_zero_bits_range x bits :
  0 <= bits -> 0 <= ipaddress._count_righthand_zero_bits x bits <= bits.
Proof.
  intros Hb. unfold ipaddress._count_righthand_zero_bits, ipaddress.bit_length.
  destruct (x =? 0); [lia|].
  destruct (_ =? 0); [lia|].
  pose proof (Z.log2_nonneg (Z.abs (Z.land (Z.lnot x) (x - 1)))). lia.
Qed.

Lemma prefix_from_ip_int_range v x p :
  ipaddress._prefix_from_ip_int v x = Some p ->
  0 <= p <= ipaddress._max_prefixlen v.
Proof.
  unfold ipaddress._prefix_from_ip_int.
  destruct (negb _); [discriminate|]. intros [= <-].
  pose proof (max_prefixlen_pos v).
  pose proof (count_righthand_zero_bits_range x (ipaddress._max_prefixlen v)).
  lia.
Qed.

Lemma prefix_from_ip_string_range s p :
  ipaddress._prefix_from_ip_string s = Some p -> 0 <= p <= 32.
Proof.
  unfold ipaddress._prefix_from_ip_string.
  destruct (ipaddress.v4_ip_int_from_string s) as [x|]; [|discriminate].
  destruct (ipaddress._prefix_from_ip_int ipaddress.V4 x) as [q|] eqn:E.
  - intros [= <-]. exact (prefix_from_ip_int_range _ _ _ E).
  - apply (prefix_from_ip_int_range ipaddress.V4).
Qed.

Lemma IPv4Network_well_formed s n :
  ipaddress.IPv4Network s = inr n -> well_formed n.
Proof.
  unfold ipaddress.IPv4Network.
  destruct (ipaddress._split_addr_prefix s) as [[addr mask]|]; [|discriminate].
  destruct (ipaddress.IPv4Address addr) as [ip|]; [|discriminate].
  destruct mask as [arg|].
  - destruct (ipaddress._prefix_from_prefix_string ipaddress.V4 arg)
      as [p|] eqn:Ep.
    + intros H. apply check_host_bits_inr in H as [-> H].
      split; [|exact H]. exact (prefix_from_prefix_string_range _ _ _ Ep).
    + destruct (ipaddress._prefix_from_ip_string arg) as [p|] eqn:Ei;
        [|discriminate].
      intros H. apply check_host_bits_inr in H as [-> H].
      split; [|exact H]. exact (prefix_from_ip_string_range _ _ Ei).
  - intros H. apply check_host_bits_inr in H as [-> H].
    split; [simpl; lia | exact H].
Qed.

Lemma IPv6Network_well_formed s n :
  ipaddress.IPv6Network s = inr n -> well_formed n.
Proof.
  unfold ipaddress.IPv6Network.
  destruct (ipaddress._split_addr_prefix s) as [[addr mask]|]; [|discriminate].
  destruct (ipaddress.IPv6Address addr) as [[ip scope]|]; [|discriminate].
  destruct mask as [arg|].
  - destruct (ipaddress._prefix_from_prefix_string ipaddress.V6 arg)
      as [p|] eqn:Ep; [|discriminate].
    intros H. apply check_host_bits_inr in H as [-> H].
    split; [|exact H]. exact (prefix_from_prefix_string_range _ _ _ Ep).
  - intros H. apply check_host_bits_inr in H as [-> H].
    split; [simpl; lia | exact H].
Qed.

(** Every network that [ip_network] returns has a prefix length within
    its address family and no host bits. *)
Lemma ip_network_well_formed repr s n :
  ipaddress.ip_network repr s = inr n -> well_formed n.
Proof.
  unfold ipaddress.ip_network.
  destruct (ipaddress.IPv4Network s) as [[| |msg]|n4] eqn:E4.
  - destruct (ipaddress.IPv6Network s) as [[| |msg]|n6] eqn:E6;
      try discriminate.
    intros [= <-]. exact (IPv6Network_well_formed _ _ E6).
  - destruct (ipaddress.IPv6Network s) as [[| |msg]|n6] eqn:E6;
      try discriminate.
    intros [= <-]. exact (IPv6Network_well_formed _ _ E6).
  - discriminate.
  - intros [= <-]. exact (IPv4Network_well_formed _ _ E4).
Qed.

(** ** Enumerating subnets *)

Lemma range_multiples start step q :
  0 < step -> 0 <= q ->
  ipaddress.range start (start + q * step) step
  = map (fun i => start + Z.of_nat i * step) (seq 0 (Z.to_nat q)).
Proof.
  intros Hs Hq. unfold ipaddress.range. do 2 f_equal.
  replace (start + q * step - start + step - 1) with (q * step + (step - 1))
    by lia.
  rewrite Z.div_add_l by lia. rewrite Z.div_small by lia. lia.
Qed.

Lemma traverse_exn_total {A B : Type} (f : A -> ipaddress.exn + B)
  (g : A -> B) l :
  (forall x, In x l -> f x = inr (g x)) ->
  ipaddress.traverse_exn f l = inr (map g l).
Proof.
  induction l as [|x l IH]; intros H; simpl; [reflexivity|].
  rewrite (H x (or_introl eq_refl)), IH; [reflexivity|].
  intros y Hy. apply H. now right.
Qed.

Lemma firstn_seq n start len :
  (n <= len)%nat -> firstn n (seq start len) = seq start n.
Proof.
  revert start len. induction n as [|n IH]; intros start len H;
    [reflexivity|].
  destruct len as [|len]; [lia|]. simpl. f_equal. apply IH. lia.
Qed.

Lemma enumerate_map_seq {A : Type} (f : nat -> A) n :
  enumerate (map f (seq 0 n)) = map (fun i => (i, f i)) (seq 0 n).
Proof.
  unfold enumerate. rewrite length_map, length_seq.
  generalize 0%nat. induction n as [|n IH]; intros s; simpl; [reflexivity|].
  now rewrite IH.
Qed.

(** [subnets] on a well-formed network and a prefix length between its
    own and the family's maximum: the [2^(new_prefix - prefixlen)]
    blocks, upwards from the network address. *)
Lemma subnets_enumerates n new_prefix :
  well_formed n ->
  ipaddress.prefixlen n <= new_prefix
    <= ipaddress._max_prefixlen (ipaddress.net_version n) ->
  ipaddress.prefixlen n
    < ipaddress._max_prefixlen (ipaddress.net_version n) ->
  ipaddress.subnets n new_prefix
  = inr (map (nth_subnet n new_prefix)
           (seq 0 (Z.to_nat (2 ^ (new_prefix - ipaddress.prefixlen n))))).
Proof.
  intros [Hp Hal] Hnp Hlt.
  set (v := ipaddress.net_version n) in *.
  set (m := ipaddress._max_prefixlen v) in *.
  set (p := ipaddress.prefixlen n) in *.
  set (a := ipaddress.network_address n) in *.
  unfold ipaddress.netmask in Hal. fold v p in Hal.
  apply aligned_iff in Hal; [|assumption]. fold m in Hal.
  destruct Hal as [Hrange Hdiv].
  assert (Hblock : 0 < 2 ^ (m - p)) by (apply Z.pow_pos_nonneg; lia).
  assert (Hstep : 0 < 2 ^ (m - new_prefix)) by (apply Z.pow_pos_nonneg; lia).
  assert (Hcount : 0 < 2 ^ (new_prefix - p)) by (apply Z.pow_pos_nonneg; lia).
  assert (Hsplit : 2 ^ (m - p) = 2 ^ (new_prefix - p) * 2 ^ (m - new_prefix)).
  { rewrite <- Z.pow_add_r by lia. f_equal. lia. }
  assert (Hspace : 2 ^ m = 2 ^ p * 2 ^ (m - p)).
  { rewrite <- Z.pow_add_r by lia. f_equal. lia. }
  assert (Hhost : ipaddress.hostmask n = 2 ^ (m - p) - 1).
  { rewrite hostmask_ones by assumption. fold v m p.
    rewrite Z.ones_equiv. lia. }
  assert (Hbroad : ipaddress.broadcast_address n = a + (2 ^ (m - p) - 1)).
  { unfold ipaddress.broadcast_address. fold a. rewrite Hhost.
    assert (Hdisj : Z.land a (2 ^ (m - p) - 1) = 0).
    { replace (2 ^ (m - p) - 1) with (Z.ones (m - p))
        by (rewrite Z.ones_equiv; lia).
      rewrite Z.land_ones by lia. assumption. }
    rewrite <- Z.lxor_lor by assumption.
    symmetry. now apply Z.add_nocarry_lxor. }
  unfold ipaddress.subnets. fold v m p a.
  destruct (Z.eqb_spec p m) as [E|_]; [lia|].
  destruct (Z.ltb_spec new_prefix p) as [E|_]; [lia|].
  destruct (Z.ltb_spec (new_prefix - p) 0) as [E|_]; [lia|].
  replace (p + (new_prefix - p)) with new_prefix by lia.
  destruct (Z.gtb_spec new_prefix m) as [E|_]; [lia|].
  rewrite Hhost, Hbroad.
  replace (2 ^ (m - p) - 1 + 1) with (2 ^ (m - p)) by lia.
  rewrite Z.shiftr_div_pow2 by lia.
  replace (2 ^ (m - p) / 2 ^ (new_prefix - p)) with (2 ^ (m - new_prefix)).
  2:{ rewrite Hsplit, Z.mul_comm, Z.div_mul by lia. reflexivity. }
  destruct (Z.eqb_spec (2 ^ (m - new_prefix)) 0) as [E|_]; [lia|].
  replace (a + (2 ^ (m - p) - 1) + 1)
    with (a + 2 ^ (new_prefix - p) * 2 ^ (m - new_prefix)) by lia.
  rewrite range_multiples by lia.
  rewrite (traverse_exn_total _
             (fun x => ipaddress.mkNetwork v x None new_prefix)).
  - rewrite map_map. reflexivity.
  - intros x Hx. apply in_map_iff in Hx as (i & <- & Hi).
    apply in_seq in Hi.
    assert (Hi' : 0 <= Z.of_nat i < 2 ^ (new_prefix - p)) by lia.
    (* the address is a multiple of the block size, so the last subnet
       still ends inside the address space *)
    assert (Hq : a = 2 ^ (m - p) * (a / 2 ^ (m - p))).
    { apply Z.div_exact; [lia | assumption]. }
    assert (Hup : a / 2 ^ (m - p) < 2 ^ p).
    { apply Z.div_lt_upper_bound; [lia|]. rewrite Z.mul_comm, <- Hspace. lia. }
    assert (Hroom : a + 2 ^ (m - p) <= 2 ^ m).
    { rewrite Hspace. nia. }
    assert (Hnew : 0 <= a + Z.of_nat i * 2 ^ (m - new_prefix) < 2 ^ m) by nia.
    unfold ipaddress.Network_of_ints. fold m.
    unfold ipaddress._ALL_ONES. fold m.
    destruct (Z.ltb_spec (a + Z.of_nat i * 2 ^ (m - new_prefix)) 0) as [E|_];
      [lia|].
    destruct (Z.gtb_spec (a + Z.of_nat i * 2 ^ (m - new_prefix)) (2 ^ m - 1))
      as [E|_]; [lia|].
    destruct (Z.leb_spec 0 new_prefix) as [_|E]; [|lia].
    destruct (Z.leb_spec new_prefix m) as [_|E]; [|lia].
    cbn [orb andb negb].
    unfold ipaddress.check_host_bits, ipaddress.netmask.
    cbn [ipaddress.network_address ipaddress.net_version ipaddress.prefixlen].
    assert (Hal' : Z.land (a + Z.of_nat i * 2 ^ (m - new_prefix))
                     (ipaddress._ip_int_from_prefix v new_prefix)
                   = a + Z.of_nat i * 2 ^ (m - new_prefix)).
    { apply aligned_iff; [fold m; lia|]. fold m. split; [assumption|].
      rewrite Z.mod_add by lia.
      remember (a / 2 ^ (m - p)) as k eqn:Ek.
      replace a with (2 ^ (new_prefix - p) * k * 2 ^ (m - new_prefix))
        by (rewrite Hq, Hsplit; lia).
      apply Z.mod_mul. lia. }
    rewrite Hal', Z.eqb_refl. reflexivity.
Qed.

(** ** The subnet calculator: main properties *)

Lemma log2_up_large n : 2 ^ 28 < n -> 28 < Z.log2_up n.
Proof. intros H. apply Z.log2_up_lt_pow2; lia. Qed.

Lemma first_subnets_taken n new_prefix count :
  0 < count <= 2 ^ (new_prefix - ipaddress.prefixlen n) ->
  enumerate
    (firstn (Z.to_nat count)
       (map (nth_subnet n new_prefix)
          (seq 0 (Z.to_nat (2 ^ (new_prefix - ipaddress.prefixlen n))))))
  = map (fun i => (i, nth_subnet n new_prefix i)) (seq 0 (Z.to_nat count)).
Proof.
  intros Hc. rewrite firstn_map, firstn_seq by lia. apply enumerate_map_seq.
Qed.

Section SplitterClaims.
Variable repr : string -> string.
Variable ceil_log2 : Z -> Z.

(** What is assumed of the floating-point computation: it is exact up to
    [2^28], and stays above 28 beyond. *)
Hypothesis ceil_log2_exact :
  forall n, 1 <= n <= 2 ^ 28 -> ceil_log2 n = Z.log2_up n.
Hypothesis ceil_log2_large :
  forall n, 2 ^ 28 < n -> 28 < ceil_log2 n.

(** The successful path, for any count whose exact logarithm keeps the
    new prefix within 28. *)
Lemma calculate_subnets_allocates c cidr count network :
  ipaddress.ip_network repr cidr = inr network ->
  0 < count ->
  ipaddress.prefixlen network + Z.log2_up count <= 28 ->
  calculate_subnets repr ceil_log2 c cidr count
  = (banner c cidr count
       ++ summary c (ipaddress.prefixlen network)
            (2 ^ (32 - ipaddress.prefixlen network) - 2)
            (ipaddress.prefixlen network + Z.log2_up count)
            (2 ^ (32 - (ipaddress.prefixlen network + Z.log2_up count)) - 2)
       ++ map (fun i =>
                 allocation_line c
                   (2 ^ (32 - (ipaddress.prefixlen network
                               + Z.log2_up count)) - 2)
                   (i, nth_subnet network
                         (ipaddress.prefixlen network + Z.log2_up count) i))
            (seq 0 (Z.to_nat count))
       ++ [""; rule],
     Return 0).
Proof.
  intros Hparse Hpos Hfit.
  pose proof (ip_network_well_formed _ _ _ Hparse) as Hwf.
  pose proof Hwf as [Hp _].
  pose proof (Z.log2_up_nonneg count) as Hbits.
  assert (Hsmall : count <= 2 ^ 28).
  { apply Z.log2_up_le_pow2; lia. }
  assert (Hmax : 32 <= ipaddress._max_prefixlen (ipaddress.net_version network))
    by (destruct (ipaddress.net_version network); simpl; lia).
  unfold calculate_subnets. rewrite Hparse.
  destruct (Z.leb_spec count 0) as [E|_]; [lia|].
  rewrite ceil_log2_exact by lia.
  destruct (Z.gtb_spec (ipaddress.prefixlen network + Z.log2_up count) 28)
    as [E|_]; [lia|].
  rewrite subnets_enumerates by (assumption || lia).
  rewrite first_subnets_taken.
  - rewrite map_map, <- app_assoc. reflexivity.
  - replace (ipaddress.prefixlen network + Z.log2_up count
             - ipaddress.prefixlen network) with (Z.log2_up count) by lia.
    split; [assumption|].
    apply Z.log2_up_le_pow2; lia.
Qed.

(** C4. For every CIDR that parses, with prefix length [p], and every
    positive count with [p + ceil(log2 count) <= 28]: the calculator
    returns normally, reports the new prefix [p + ceil(log2 count)],
    and lists exactly [count] subnets, the [i]-th being the [i]-th
    block of that prefix length counted upwards from the network
    address, each with [2^(32 - newPrefix) - 2] usable hosts.  With
    count 1 the new prefix is the original one.  On 10.0.0.0/16 and
    count 4 the subnets are 10.0.0.0/18, 10.0.64.0/18, 10.0.128.0/18
    and 10.0.192.0/18 with 16382 hosts each. *)
Theorem C4_split_lists_first_subnets :
  forall c : Colors,
    (forall cidr count network,
       ipaddress.ip_network repr cidr = inr network ->
       0 < count ->
       ipaddress.prefixlen network + Z.log2_up count <= 28 ->
       let p := ipaddress.prefixlen network in
       let new_prefix := p + Z.log2_up count in
       let new_hosts := 2 ^ (32 - new_prefix) - 2 in
       calculate_subnets repr ceil_log2 c cidr count
       = (banner c cidr count
            ++ summary c p (2 ^ (32 - p) - 2) new_prefix new_hosts
            ++ map (fun i =>
                      allocation_line c new_hosts
                        (i, nth_subnet network new_prefix i))
                 (seq 0 (Z.to_nat count))
            ++ [""; rule],
          Return 0))
    /\ (forall cidr network,
          ipaddress.ip_network repr cidr = inr network ->
          ipaddress.prefixlen network <= 28 ->
          let p := ipaddress.prefixlen network in
          let hosts := 2 ^ (32 - p) - 2 in
          calculate_subnets repr ceil_log2 c cidr 1
          = (banner c cidr 1
               ++ summary c p hosts p hosts
               ++ [allocation_line c hosts (0%nat, nth_subnet network p 0)]
               ++ [""; rule],
             Return 0))
    /\ (let subnets :=
          [ ipaddress.mkNetwork ipaddress.V4 167772160 None 18;
            ipaddress.mkNetwork ipaddress.V4 167788544 None 18;
            ipaddress.mkNetwork ipaddress.V4 167804928 None 18;
            ipaddress.mkNetwork ipaddress.V4 167821312 None 18 ] in
        calculate_subnets repr ceil_log2 c "10.0.0.0/16" 4
        = (banner c "10.0.0.0/16" 4
             ++ summary c 16 65534 18 16382
             ++ map (allocation_line c 16382) (enumerate subnets)
             ++ [""; rule],
           Return 0)
        /\ map ipaddress.network_str subnets
           = ["10.0.0.0/18"; "10.0.64.0/18"; "10.0.128.0/18";
              "10.0.192.0/18"]).
Proof.
  intros c. split; [|split].
  - intros cidr count network Hparse Hpos Hfit. cbv zeta.
    now apply calculate_subnets_allocates.
  - intros cidr network Hparse Hfit. cbv zeta.
    rewrite (calculate_subnets_allocates c cidr 1 network Hparse)
      by (change (Z.log2_up 1) with 0; lia).
    change (Z.log2_up 1) with 0. rewrite Z.add_0_r. reflexivity.
  - cbv zeta. split; [|reflexivity].
    assert (Hparse : ipaddress.ip_network repr "10.0.0.0/16"
                     = inr (ipaddress.mkNetwork ipaddress.V4 167772160
                              None 16)) by reflexivity.
    rewrite (calculate_subnets_allocates c _ 4 _ Hparse)
      by (vm_compute; congruence).
    reflexivity.
Qed.

(** C5. For every CIDR that parses, with prefix length [p], and every
    positive count with [p + ceil(log2 count) > 28]: the calculator
    prints, after the banner, one error line that names the prefix it
    computed and the ceiling /28, prints no allocation, and returns 1.
    The prefix it computed exceeds 28 and, for counts up to [2^28], is
    [p + ceil(log2 count)].  On 10.0.0.0/24 and count 20 the computed
    prefix is 29. *)
Theorem C5_split_beyond_28_refused :
  forall c : Colors,
    (forall cidr count network,
       ipaddress.ip_network repr cidr = inr network ->
       0 < count ->
       ipaddress.prefixlen network + Z.log2_up count > 28 ->
       let new_prefix := ipaddress.prefixlen network + ceil_log2 count in
       28 < new_prefix
       /\ (count <= 2 ^ 28 ->
           new_prefix = ipaddress.prefixlen network + Z.log2_up count)
       /\ calculate_subnets repr ceil_log2 c cidr count
          = (banner c cidr count
               ++ [ (RED c ++ "ERROR: Too many subnets - would result in /"
                       ++ Py.str new_prefix ++ " (max /28)"
                       ++ END_ c)%string ],
             Return 1))
    /\ calculate_subnets repr ceil_log2 c "10.0.0.0/24" 20
       = (banner c "10.0.0.0/24" 20
            ++ [ (RED c ++ "ERROR: Too many subnets - would result in /"
                    ++ "29" ++ " (max /28)" ++ END_ c)%string ],
          Return 1).
Proof.
  intros c.
  assert (G : forall cidr count network,
             ipaddress.ip_network repr cidr = inr network ->
             0 < count ->
             ipaddress.prefixlen network + Z.log2_up count > 28 ->
             28 < ipaddress.prefixlen network + ceil_log2 count
             /\ (count <= 2 ^ 28 ->
                 ipaddress.prefixlen network + ceil_log2 count
                 = ipaddress.prefixlen network + Z.log2_up count)
             /\ calculate_subnets repr ceil_log2 c cidr count
                = (banner c cidr count
                     ++ [limit_line c
                           (ipaddress.prefixlen network + ceil_log2 count)],
                   Return 1)).
  { intros cidr count network Hparse Hpos Hover.
    pose proof (ip_network_well_formed _ _ _ Hparse) as [Hp _].
    assert (Hgt : 28 < ipaddress.prefixlen network + ceil_log2 count).
    { destruct (Z.le_gt_cases count (2 ^ 28)) as [Hs|Hl].
      - rewrite ceil_log2_exact by lia. lia.
      - pose proof (ceil_log2_large count Hl). lia. }
    split; [assumption|]. split.
    - intros Hs. now rewrite ceil_log2_exact by lia.
    - unfold calculate_subnets. rewrite Hparse.
      destruct (Z.leb_spec count 0) as [E|_]; [lia|].
      destruct (Z.gtb_spec (ipaddress.prefixlen network + ceil_log2 count) 28)
        as [_|E]; [reflexivity|lia]. }
  split.
  - intros cidr count network Hparse Hpos Hover. cbv zeta.
    exact (G cidr count network Hparse Hpos Hover).
  - assert (Hparse : ipaddress.ip_network repr "10.0.0.0/24"
                     = inr (ipaddress.mkNetwork ipaddress.V4 167772160
                              None 24)) by reflexivity.
    destruct (G _ 20 _ Hparse) as (_ & E & ->);
      [lia | vm_compute; congruence |].
    rewrite E by (vm_compute; congruence). reflexivity.
Qed.

(** C8, as the code has it.  For every string that [ip_network]
    rejects, and every count: the calculator prints the banner (title,
    rule, the two arguments echoed, an empty line), then one error
    line carrying the parser's message, prints nothing of a result,
    and returns 1; no exception leaves it, and the command's status
    is 1. *)
Theorem C8_rejected_cidr_reported :
  forall (c : Colors) cidr count msg,
    ipaddress.ip_network repr cidr = inl msg ->
    calculate_subnets repr ceil_log2 c cidr count
    = (banner c cidr count
         ++ [ (RED c ++ "ERROR: " ++ msg ++ END_ c)%string ],
       Return 1)
    /\ main_subnet repr ceil_log2 c cidr count = 1.
Proof.
  intros c cidr count msg Hparse.
  unfold main_subnet, calculate_subnets. rewrite Hparse. split; reflexivity.
Qed.
End SplitterClaims.

Lemma C4_witness :
  calculate_subnets quote Z.log2_up Colors_disabled "10.0.0.0/16" 5
  = ([ "Subnet Calculator"; rule; "VPC CIDR: 10.0.0.0/16"; "Subnets: 5"; "";
       "Original: /16 (65534 hosts)"; "New subnets: /19 (8190 hosts each)";
       ""; "Subnet Allocations:";
       "  Subnet 1: 10.0.0.0/19 (8190 usable hosts)";
       "  Subnet 2: 10.0.32.0/19 (8190 usable hosts)";
       "  Subnet 3: 10.0.64.0/19 (8190 usable hosts)";
       "  Subnet 4: 10.0.96.0/19 (8190 usable hosts)";
       "  Subnet 5: 10.0.128.0/19 (8190 usable hosts)"; ""; rule ],
     Return 0).
Proof.
  exact (proj1 (C4_split_lists_first_subnets quote Z.log2_up
                  (fun n _ => eq_refl) Colors_disabled)
           "10.0.0.0/16" 5
           (ipaddress.mkNetwork ipaddress.V4 167772160 None 16)
           eq_refl eq_refl ltac:(vm_compute; congruence)).
Defined.

Lemma C5_witness :
  calculate_subnets quote Z.log2_up Colors_disabled "10.0.0.0/24" 17
  = ([ "Subnet Calculator"; rule; "VPC CIDR: 10.0.0.0/24"; "Subnets: 17"; "";
       "ERROR: Too many subnets - would result in /29 (max /28)" ],
     Return 1).
Proof.
  exact (proj2 (proj2 (proj1 (C5_split_beyond_28_refused quote Z.log2_up
                                (fun n _ => eq_refl) log2_up_large
                                Colors_disabled)
                         "10.0.0.0/24" 17
                         (ipaddress.mkNetwork ipaddress.V4 167772160 None 24)
                         eq_refl eq_refl eq_refl))).
Defined.

Lemma C8_witness :
  calculate_subnets quote Z.log2_up Colors_disabled "10.0.0.5/16" 2
  = ([ "Subnet Calculator"; rule; "VPC CIDR: 10.0.0.5/16"; "Subnets: 2"; "";
       "ERROR: 10.0.0.5/16 has host bits set" ],
     Return 1).
Proof.
  exact (proj1 (C8_rejected_cidr_reported quote Z.log2_up Colors_disabled
                  "10.0.0.5/16" 2 "10.0.0.5/16 has host bits set" eq_refl)).
Defined.

(** C8, as stated, at "not-a-cidr" and count 2: the parser rejects the
    string, and five lines are printed before the error line, so the
    error line is not all that is emitted. *)
Lemma C8_banner_precedes_failure :
  ipaddress.ip_network quote "not-a-cidr"
  = inl "'not-a-cidr' does not appear to be an IPv4 or IPv6 network"
  /\ calculate_subnets quote Z.log2_up Colors_disabled "not-a-cidr" 2
     = ([ "Subnet Calculator"; rule; "VPC CIDR: not-a-cidr"; "Subnets: 2"; "";
          "ERROR: 'not-a-cidr' does not appear to be an IPv4 or IPv6 network" ],
        Return 1)
  /\ fst (calculate_subnets quote Z.log2_up Colors_disabled "not-a-cidr" 2)
     <> [ "ERROR: 'not-a-cidr' does not appear to be an IPv4 or IPv6 network" ].
Proof.
  split; [reflexivity|]. split; [reflexivity|].
  vm_compute. discriminate.
Qed.

(** * Further properties *)

(** ** The classifier as a whole *)

Lemma flat_map_map_compose {A B C : Type} (f : A -> B) (g : B -> list C) l :
  flat_map g (map f l) = flat_map (fun x => g (f x)) l.
Proof. induction l as [|x l IH]; simpl; [reflexivity | now rewrite IH]. Qed.

Lemma flat_map_nested {A B C : Type} (f : A -> list B) (g : B -> list C) l :
  flat_map g (flat_map f l) = flat_map (fun x => flat_map g (f x)) l.
Proof.
  induction l as [|x l IH]; simpl; [reflexivity|].
  now rewrite flat_map_app, IH.
Qed.

(** The collected list, triple by triple. *)
Lemma collect_issues_sources groups :
  collect_issues groups = flat_map triple_issues (sources groups).
Proof.
  rewrite collect_issues_flat_map. unfold sources.
  rewrite flat_map_nested. apply flat_map_ext. intros sg.
  rewrite flat_map_nested. apply flat_map_ext. intros rule.
  now rewrite flat_map_map_compose.
Qed.

Lemma in_classify groups i :
  In i (classify groups)
  <-> exists t, In t (sources groups) /\ In i (triple_issues t).
Proof.
  unfold classify. rewrite <- in_flat_map, <- collect_issues_sources.
  split; apply Permutation_in;
    [apply Permutation_sym|]; apply sort_perm.
Qed.

Lemma sources_app g1 g2 : sources (g1 ++ g2) = sources g1 ++ sources g2.
Proof. unfold sources. apply flat_map_app. Qed.

Lemma in_risky_within f t entry :
  In entry (ports_within f t)
  <-> In entry risky_ports /\ f <= fst entry <= t.
Proof.
  unfold ports_within. rewrite filter_In, andb_true_iff, !Z.leb_le.
  tauto.
Qed.

(** What one issue of a (rule, source) pair can be. *)
Lemma check_range_inv gid gname proto fp tp r i :
  In i (check_range gid gname proto fp tp r []) ->
  sg_id i = gid /\ sg_name i = gname /\ source i = Py.get (CidrIp r) ""
  /\ ((severity i = "CRITICAL" /\ source i = "0.0.0.0/0" /\ proto = "-1"
       /\ protocol i = "ALL" /\ port i = "ALL")
      \/ (exists f t p service,
            fp = Some f /\ tp = Some t /\ f <> 0 /\ t <> 0
            /\ In (p, service) risky_ports /\ f <= p <= t
            /\ protocol i = proto
            /\ port i = (Py.str p ++ " (" ++ service ++ ")")%string
            /\ ((severity i = "HIGH" /\ source i = "0.0.0.0/0"
                 /\ proto <> "-1")
                \/ (severity i = "MEDIUM" /\ source i <> "0.0.0.0/0"
                    /\ Py.endswith (source i) "/8"
                         || Py.endswith (source i) "/16" = true)))).
Proof.
  unfold check_range.
  destruct (String.eqb_spec (Py.get (CidrIp r) "") "0.0.0.0/0") as [Ec|Ec].
  - destruct (String.eqb_spec proto "-1") as [Ep|Ep].
    + intros [<-|[]]. simpl. rewrite Ec. repeat split. left. now repeat split.
    + rewrite high_loop_emit, app_nil_l. intros Hi.
      apply in_flat_map in Hi as ([p service] & Hin & Hi).
      cbn [fst snd] in Hi. unfold Py.truthy, within in Hi.
      destruct fp as [f|], tp as [t|];
        rewrite ?andb_false_r in Hi; try contradiction.
      destruct (Z.eqb_spec f 0) as [|Hf]; [contradiction|].
      destruct (Z.eqb_spec t 0) as [|Ht]; [contradiction|].
      destruct (Z.leb_spec f p) as [Hfp|]; [|contradiction].
      destruct (Z.leb_spec p t) as [Hpt|]; [|contradiction].
      destruct Hi as [<-|[]]. simpl. rewrite Ec. repeat split.
      right. exists f, t, p, service. repeat split; try assumption.
      left. now repeat split.
  - destruct (Py.endswith (Py.get (CidrIp r) "") "/8"
              || Py.endswith (Py.get (CidrIp r) "") "/16") eqn:Ee;
      [|contradiction].
    unfold Py.truthy.
    destruct fp as [f|], tp as [t|];
      rewrite ?andb_false_r; try contradiction.
    destruct (Z.eqb_spec f 0) as [|Hf]; [contradiction|].
    destruct (Z.eqb_spec t 0) as [|Ht]; [contradiction|].
    cbn [negb andb]. rewrite medium_loop_emit, app_nil_l. intros Hi.
    apply in_flat_map in Hi as ([p service] & Hin & Hi).
    cbn [fst snd] in Hi. unfold within in Hi.
    destruct (Z.leb_spec f p) as [Hfp|]; [|contradiction].
    destruct (Z.leb_spec p t) as [Hpt|]; [|contradiction].
    destruct Hi as [<-|[]]. simpl. repeat split.
    right. exists f, t, p, service. repeat split; try assumption.
    right. now repeat split.
Qed.

(** X1. Every reported issue comes from a (group, rule, source) triple
    of the response: it carries that group's id and name, and its source
    is that entry's CIDR, which is 0.0.0.0/0 or ends in "/8" or "/16".
    Nothing is reported about a group or a source that is not there. *)
Theorem X1_issue_provenance :
  forall groups i,
    In i (classify groups) ->
    exists sg rule r,
      In sg groups
      /\ In rule (Py.get (IpPermissions sg) [])
      /\ In r (Py.get (IpRanges rule) [])
      /\ sg_id i = GroupId sg /\ sg_name i = GroupName sg
      /\ CidrIp r = Some (source i)
      /\ (source i = "0.0.0.0/0"
          \/ Py.endswith (source i) "/8" = true
          \/ Py.endswith (source i) "/16" = true).
Proof.
  intros groups i Hi.
  apply in_classify in Hi as ([[sg rule] r] & Ht & Hi).
  unfold sources in Ht.
  apply in_flat_map in Ht as (sg' & Hsg & Ht).
  apply in_flat_map in Ht as (rule' & Hrule & Ht).
  apply in_map_iff in Ht as (r' & [= -> -> ->] & Hr).
  apply check_range_inv in Hi as (Hid & Hname & Hsrc & Hkind).
  exists sg, rule, r. repeat split; try assumption.
  - destruct (CidrIp r) as [cidr|] eqn:Ec; simpl in Hsrc; [now rewrite Hsrc|].
    exfalso. rewrite Hsrc in Hkind.
    destruct Hkind as [(_ & E & _)|(f & t & p & sv & _ & _ & _ & _ & _ & _
                                     & _ & _ & [(_ & E & _)|(_ & _ & E)])];
      discriminate.
  - destruct Hkind as [(_ & E & _)|(f & t & p & sv & _ & _ & _ & _ & _ & _
                                     & _ & _ & [(_ & E & _)|(_ & _ & E)])];
      [now left | now left |].
    apply orb_true_iff in E. right. exact E.
Qed.

Lemma X1_witness :
  exists sg rule r,
    In sg [tcp_port_from 22 "10.0.0.0/8"]
    /\ In rule (Py.get (IpPermissions sg) [])
    /\ In r (Py.get (IpRanges rule) [])
    /\ "sg-33334444" = GroupId sg /\ "db" = GroupName sg
    /\ CidrIp r = Some "10.0.0.0/8"
    /\ ("10.0.0.0/8" = "0.0.0.0/0"
        \/ Py.endswith "10.0.0.0/8" "/8" = true
        \/ Py.endswith "10.0.0.0/8" "/16" = true).
Proof.
  exact (X1_issue_provenance [tcp_port_from 22 "10.0.0.0/8"]
           (medium_issue "sg-33334444" "db" "tcp" "10.0.0.0/8" 22 "SSH")
           (or_introl eq_refl)).
Defined.

(** X2. Every HIGH or MEDIUM issue names a port of the sensitive table
    that lies inside the bounds of the rule it comes from, both bounds
    being present and not 0, and carries that rule's protocol.  No port
    outside a rule's range is ever reported. *)
Theorem X2_reported_port_inside_bounds :
  forall groups i,
    In i (classify groups) ->
    severity i <> "CRITICAL" ->
    exists sg rule p service,
      In sg groups
      /\ In rule (Py.get (IpPermissions sg) [])
      /\ In (p, service) risky_ports
      /\ covers rule p
      /\ port i = (Py.str p ++ " (" ++ service ++ ")")%string
      /\ protocol i = Py.get (IpProtocol rule) "-1".
Proof.
  intros groups i Hi Hs.
  apply in_classify in Hi as ([[sg rule] r] & Ht & Hi).
  unfold sources in Ht.
  apply in_flat_map in Ht as (sg' & Hsg & Ht).
  apply in_flat_map in Ht as (rule' & Hrule & Ht).
  apply in_map_iff in Ht as (r' & [= -> -> ->] & Hr).
  apply check_range_inv in Hi as (_ & _ & _ & [(E & _)|Hk]);
    [contradiction|].
  destruct Hk as (f & t & p & service & Hf & Ht & Hf0 & Ht0 & Hin & Hb
                  & Hproto & Hport & _).
  exists sg, rule, p, service. repeat split; try assumption.
  exists f, t. now repeat split.
Qed.

Lemma X2_witness :
  exists sg rule p service,
    In sg [tcp_port_from 22 "10.0.0.0/8"]
    /\ In rule (Py.get (IpPermissions sg) [])
    /\ In (p, service) risky_ports
    /\ covers rule p
    /\ "22 (SSH)" = (Py.str p ++ " (" ++ service ++ ")")%string
    /\ "tcp" = Py.get (IpProtocol rule) "-1".
Proof.
  refine (X2_reported_port_inside_bounds [tcp_port_from 22 "10.0.0.0/8"]
            (medium_issue "sg-33334444" "db" "tcp" "10.0.0.0/8" 22 "SSH")
            (or_introl eq_refl) _).
  simpl. discriminate.
Defined.

(** ** Severities present and the strict status *)

Lemma critical_present_iff groups :
  (exists i, In i (classify groups) /\ severity i = "CRITICAL")
  <-> Exists open_to_all (sources groups).
Proof.
  rewrite Exists_exists. split.
  - intros (i & Hi & Hs). apply in_classify in Hi as ([[sg rule] r] & Ht & Hi).
    exists (sg, rule, r). split; [assumption|].
    apply check_range_inv in Hi as (_ & _ & Hsrc & Hk).
    destruct Hk as [(_ & Ec & Ep & _)|(f & t & p & sv & _ & _ & _ & _ & _ & _
                                       & _ & _ & [(E & _)|(E & _)])];
      [|congruence|congruence].
    split; [now rewrite <- Hsrc | assumption].
  - intros ([[sg rule] r] & Ht & Ec & Ep).
    exists (critical_issue (GroupId sg) (GroupName sg) "0.0.0.0/0").
    split; [|reflexivity].
    apply in_classify. exists (sg, rule, r). split; [assumption|].
    unfold triple_issues, check_range. rewrite Ec, Ep. now left.
Qed.

Lemma high_present_iff groups :
  (exists i, In i (classify groups) /\ severity i = "HIGH")
  <-> Exists exposes_port (sources groups).
Proof.
  rewrite Exists_exists. split.
  - intros (i & Hi & Hs). apply in_classify in Hi as ([[sg rule] r] & Ht & Hi).
    exists (sg, rule, r). split; [assumption|].
    apply check_range_inv in Hi as (_ & _ & Hsrc & Hk).
    destruct Hk as [(E & _)|(f & t & p & sv & Hf & Htp & Hf0 & Ht0 & Hin & Hb
                             & _ & _ & [(_ & Ec & Ep)|(E & _)])];
      [congruence| |congruence].
    split; [now rewrite <- Hsrc|]. split; [assumption|].
    exists p, sv. split; [assumption|]. exists f, t. now repeat split.
  - intros ([[sg rule] r] & Ht & Ec & Ep & p & sv & Hin & f & t & Hf & Htp
            & Hf0 & Ht0 & Hb).
    exists (high_issue (GroupId sg) (GroupName sg)
              (Py.get (IpProtocol rule) "-1") "0.0.0.0/0" p sv).
    split; [|reflexivity].
    apply in_classify. exists (sg, rule, r). split; [assumption|].
    unfold triple_issues. rewrite Hf, Htp.
    rewrite internet_branch_high by assumption.
    apply in_map_iff. exists (p, sv). split; [reflexivity|].
    apply in_risky_within. now split.
Qed.

(** X3. With [--strict], the compliance command returns 2 exactly when
    some source entry 0.0.0.0/0 belongs to a rule whose protocol is "-1"
    (or absent); it returns 1 exactly when there is no such entry but
    some entry 0.0.0.0/0 belongs to a rule whose bounds, both present
    and not 0, enclose a sensitive port; and 0 exactly when neither
    holds. *)
Theorem X3_strict_status_characterised :
  forall groups,
    (check_compliance true (inr groups) = 2
     <-> Exists open_to_all (sources groups))
    /\ (check_compliance true (inr groups) = 1
        <-> ~ Exists open_to_all (sources groups)
            /\ Exists exposes_port (sources groups))
    /\ (check_compliance true (inr groups) = 0
        <-> ~ Exists open_to_all (sources groups)
            /\ ~ Exists exposes_port (sources groups)).
Proof.
  intros groups. unfold check_compliance, exit_status.
  rewrite <- critical_present_iff, <- high_present_iff.
  rewrite !count_severity_pos.
  destruct (Z.gtb_spec (count_severity "CRITICAL" (classify groups)) 0);
    destruct (Z.gtb_spec (count_severity "HIGH" (classify groups)) 0);
    repeat split; intros; try lia; try tauto; try (exfalso; lia).
Qed.

Lemma with_severity_classify s groups :
  with_severity s (classify groups) = with_severity s (collect_issues groups).
Proof.
  unfold classify.
  pose proof (collect_issues_severity groups) as Hk.
  rewrite (sort_issues_by_class _ Hk).
  unfold with_severity at 1. rewrite !filter_app.
  fold (with_severity s (with_severity "CRITICAL" (collect_issues groups))).
  fold (with_severity s (with_severity "HIGH" (collect_issues groups))).
  fold (with_severity s (with_severity "MEDIUM" (collect_issues groups))).
  rewrite !with_severity_twice.
  destruct (String.eqb_spec s "CRITICAL") as [->|Hc]; [now rewrite app_nil_r|].
  destruct (String.eqb_spec s "HIGH") as [->|Hh]; [now rewrite app_nil_r|].
  destruct (String.eqb_spec s "MEDIUM") as [->|Hm]; [reflexivity|].
  symmetry. now apply with_severity_unknown.
Qed.

(** X4. In the JSON report, [total_issues] is the sum of the three
    counts [critical], [high] and [medium]: no issue escapes the three
    severities. *)
Theorem X4_total_is_sum_of_counts :
  forall args_region identity_account args_vpc groups,
    let output :=
      compliance_output args_region identity_account args_vpc groups in
    total_issues output = critical output + high output + medium output.
Proof.
  intros rg acc vpc groups. cbv zeta. unfold compliance_output. simpl.
  rewrite !count_severity_length, !with_severity_classify.
  unfold classify.
  rewrite (sort_issues_by_class _ (collect_issues_severity groups)).
  rewrite !length_app. lia.
Qed.

(** ** Responses put together *)

Lemma collect_issues_app g1 g2 :
  collect_issues (g1 ++ g2) = collect_issues g1 ++ collect_issues g2.
Proof. now rewrite !collect_issues_sources, sources_app, flat_map_app. Qed.

Lemma with_key_app {A : Type} (key : A -> Z) k l1 l2 :
  Py.with_key key k (l1 ++ l2)
  = Py.with_key key k l1 ++ Py.with_key key k l2.
Proof. unfold Py.with_key. apply filter_app. Qed.

(** ** One source entry inside a response *)

Lemma collect_issues_single sg :
  collect_issues [sg]
  = flat_map
      (fun rule =>
         flat_map
           (fun r => check_range (GroupId sg) (GroupName sg)
                       (Py.get (IpProtocol rule) "-1") (FromPort rule)
                       (ToPort rule) r [])
           (Py.get (IpRanges rule) []))
      (Py.get (IpPermissions sg) []).
Proof. rewrite collect_issues_flat_map. cbn [flat_map]. apply app_nil_r. Qed.

Lemma with_severity_app s l1 l2 :
  with_severity s (l1 ++ l2) = with_severity s l1 ++ with_severity s l2.
Proof. unfold with_severity. apply filter_app. Qed.

(** C1. Take any response, any group [sg] of it, any rule of [sg] and
    any entry [ip_range] of the rule's [IpRanges], the entry's source
    being exactly 0.0.0.0/0 and the rule's protocol "-1" (given, or
    absent and so defaulted).  Then the loop body turns any [issues] into
    [issues] followed by one CRITICAL issue with port "ALL", carrying the
    group's id and name; the issues collected for the whole response are
    those collected up to the entry, then that one issue, then those
    collected after it; and in the sorted report the CRITICAL class is
    that of the part before, the one issue, that of the part after,
    while the HIGH and MEDIUM classes hold nothing but what the parts
    before and after give: the pair adds no HIGH and no MEDIUM issue. *)
Theorem C1_internet_all_protocols_critical :
  forall before sg after rules1 rule rules2 ranges1 ip_range ranges2,
    Py.get (IpPermissions sg) [] = rules1 ++ rule :: rules2 ->
    Py.get (IpRanges rule) [] = ranges1 ++ ip_range :: ranges2 ->
    Py.get (CidrIp ip_range) "" = "0.0.0.0/0" ->
    Py.get (IpProtocol rule) "-1" = "-1" ->
    let groups := before ++ sg :: after in
    let earlier :=
      before ++ [with_rules sg (rules1 ++ [with_ranges rule ranges1])] in
    let later := with_rules sg (with_ranges rule ranges2 :: rules2) :: after in
    let issue :=
      {| severity := "CRITICAL"; sg_id := GroupId sg;
         sg_name := GroupName sg; protocol := "ALL"; port := "ALL";
         source := "0.0.0.0/0";
         description := "All traffic allowed from internet" |} in
    (forall issues,
       check_range (GroupId sg) (GroupName sg)
         (Py.get (IpProtocol rule) "-1") (FromPort rule) (ToPort rule)
         ip_range issues
       = issues ++ [issue])
    /\ collect_issues groups
       = collect_issues earlier ++ [issue] ++ collect_issues later
    /\ with_severity "CRITICAL" (classify groups)
       = with_severity "CRITICAL" (classify earlier) ++ [issue]
           ++ with_severity "CRITICAL" (classify later)
    /\ with_severity "HIGH" (classify groups)
       = with_severity "HIGH" (classify earlier)
           ++ with_severity "HIGH" (classify later)
    /\ with_severity "MEDIUM" (classify groups)
       = with_severity "MEDIUM" (classify earlier)
           ++ with_severity "MEDIUM" (classify later).
Proof.
  intros before sg after rules1 rule rules2 ranges1 r ranges2
    Hrules Hranges Hc Hp groups earlier later issue.
  assert (Hbody : forall issues,
             check_range (GroupId sg) (GroupName sg)
               (Py.get (IpProtocol rule) "-1") (FromPort rule) (ToPort rule)
               r issues
             = issues ++ [issue]).
  { intros issues. unfold check_range. rewrite Hc, Hp. reflexivity. }
  assert (Hall : collect_issues groups
                 = collect_issues earlier ++ [issue] ++ collect_issues later).
  { subst groups earlier later.
    change (sg :: after) with ([sg] ++ after).
    change (with_rules sg (with_ranges rule ranges2 :: rules2) :: after)
      with ([with_rules sg (with_ranges rule ranges2 :: rules2)] ++ after).
    rewrite !collect_issues_app, !collect_issues_single.
    cbn [with_rules GroupId GroupName IpPermissions Py.get].
    rewrite Hrules, !flat_map_app.
    cbn [flat_map with_ranges IpProtocol FromPort ToPort IpRanges Py.get].
    rewrite Hranges, !flat_map_app. cbn [flat_map].
    rewrite (Hbody []), !app_nil_r. cbn [app].
    rewrite <- !app_assoc. reflexivity. }
  split; [exact Hbody|]. split; [exact Hall|].
  rewrite !with_severity_classify, Hall, !with_severity_app.
  repeat split; reflexivity.
Qed.

Lemma C1_witness :
  with_severity "CRITICAL"
    (classify [tcp_port_from 22 "0.0.0.0/0"; mixed_group;
               all_traffic_from "0.0.0.0/0"])
  = with_severity "CRITICAL"
      (classify
         [ tcp_port_from 22 "0.0.0.0/0";
           with_rules mixed_group
             [ {| IpProtocol := Some "tcp"; FromPort := Some 22;
                  ToPort := Some 22;
                  IpRanges := Some [ {| CidrIp := Some "10.0.0.0/8" |};
                                     {| CidrIp := Some "0.0.0.0/0" |} ];
                  Ipv6Ranges := None |};
               with_ranges
                 {| IpProtocol := Some "-1"; FromPort := Some 22;
                    ToPort := Some 22;
                    IpRanges := Some [ {| CidrIp := Some "172.16.0.0/16" |};
                                       {| CidrIp := Some "0.0.0.0/0" |};
                                       {| CidrIp := Some "192.0.2.1/32" |} ];
                    Ipv6Ranges := None |}
                 [ {| CidrIp := Some "172.16.0.0/16" |} ] ] ])
      ++ [ {| severity := "CRITICAL"; sg_id := "sg-55556666";
              sg_name := "mixed"; protocol := "ALL"; port := "ALL";
              source := "0.0.0.0/0";
              description := "All traffic allowed from internet" |} ]
      ++ with_severity "CRITICAL"
           (classify
              [ with_rules mixed_group
                  [ with_ranges
                      {| IpProtocol := Some "-1"; FromPort := Some 22;
                         ToPort := Some 22;
                         IpRanges :=
                           Some [ {| CidrIp := Some "172.16.0.0/16" |};
                                  {| CidrIp := Some "0.0.0.0/0" |};
                                  {| CidrIp := Some "192.0.2.1/32" |} ];
                         Ipv6Ranges := None |}
                      [ {| CidrIp := Some "192.0.2.1/32" |} ] ];
                all_traffic_from "0.0.0.0/0" ]).
Proof.
  exact (proj1 (proj2 (proj2
           (C1_internet_all_protocols_critical
              [tcp_port_from 22 "0.0.0.0/0"] mixed_group
              [all_traffic_from "0.0.0.0/0"]
              [ {| IpProtocol := Some "tcp"; FromPort := Some 22;
                   ToPort := Some 22;
                   IpRanges := Some [ {| CidrIp := Some "10.0.0.0/8" |};
                                      {| CidrIp := Some "0.0.0.0/0" |} ];
                   Ipv6Ranges := None |} ]
              {| IpProtocol := Some "-1"; FromPort := Some 22;
                 ToPort := Some 22;
                 IpRanges := Some [ {| CidrIp := Some "172.16.0.0/16" |};
                                    {| CidrIp := Some "0.0.0.0/0" |};
                                    {| CidrIp := Some "192.0.2.1/32" |} ];
                 Ipv6Ranges := None |}
              []
              [ {| CidrIp := Some "172.16.0.0/16" |} ]
              {| CidrIp := Some "0.0.0.0/0" |}
              [ {| CidrIp := Some "192.0.2.1/32" |} ]
              eq_refl eq_refl eq_refl eq_refl)))).
Defined.

(** X5. Classifying two responses one after the other: the issues in
    encounter order are the two lists joined, each severity class of the
    joint report is the class of the first followed by the class of the
    second, and the joint report is what sorting the two reports joined
    gives. *)
Theorem X5_classify_concatenation :
  forall g1 g2,
    collect_issues (g1 ++ g2) = collect_issues g1 ++ collect_issues g2
    /\ (forall s,
          with_severity s (classify (g1 ++ g2))
          = with_severity s (classify g1) ++ with_severity s (classify g2))
    /\ classify (g1 ++ g2)
       = Py.sort severity_rank (classify g1 ++ classify g2).
Proof.
  intros g1 g2. split; [apply collect_issues_app|]. split.
  - intros s. rewrite !with_severity_classify, collect_issues_app.
    apply filter_app.
  - unfold classify. apply stable_sort_unique with (key := severity_rank).
    + apply (Sorted_StronglySorted (key_le_trans severity_rank)), sort_sorted.
    + apply (Sorted_StronglySorted (key_le_trans severity_rank)), sort_sorted.
    + intros k. rewrite !sort_stable, collect_issues_app, !with_key_app.
      now rewrite !sort_stable.
Qed.

Lemma count_severity_nonneg s l : 0 <= count_severity s l.
Proof. rewrite count_severity_length. lia. Qed.

Lemma count_severity_classify_app s g1 g2 :
  count_severity s (classify (g1 ++ g2))
  = count_severity s (classify g1) + count_severity s (classify g2).
Proof.
  rewrite !count_severity_length, !with_severity_classify.
  rewrite collect_issues_app. unfold with_severity.
  rewrite filter_app, length_app. lia.
Qed.

(** X6. The status of a response made of two parts is the larger of the
    statuses of the parts, with or without [--strict]; so it does not
    depend on the order in which the groups come. *)
Theorem X6_status_of_parts :
  forall strict g1 g2,
    check_compliance strict (inr (g1 ++ g2))
    = Z.max (check_compliance strict (inr g1))
        (check_compliance strict (inr g2))
    /\ check_compliance strict (inr (g1 ++ g2))
       = check_compliance strict (inr (g2 ++ g1)).
Proof.
  assert (G : forall strict g1 g2,
             check_compliance strict (inr (g1 ++ g2))
             = Z.max (check_compliance strict (inr g1))
                 (check_compliance strict (inr g2))).
  { intros strict g1 g2. unfold check_compliance, exit_status.
    destruct strict; [|reflexivity].
    rewrite !count_severity_classify_app.
    pose proof (count_severity_nonneg "CRITICAL" (classify g1)).
    pose proof (count_severity_nonneg "CRITICAL" (classify g2)).
    pose proof (count_severity_nonneg "HIGH" (classify g1)).
    pose proof (count_severity_nonneg "HIGH" (classify g2)).
    repeat match goal with
           | |- context [?a >? 0] => destruct (Z.gtb_spec a 0)
           end; lia. }
  intros strict g1 g2. split; [apply G|].
  rewrite !G. apply Z.max_comm.
Qed.

(** ** Size of the report *)

Lemma length_flat_map_le {A B : Type} (f : A -> list B) (k : nat) l :
  (forall x, (List.length (f x) <= k)%nat) ->
  (List.length (flat_map f l) <= k * List.length l)%nat.
Proof.
  intros H. induction l as [|x l IH]; simpl; [lia|].
  rewrite length_app. specialize (H x). lia.
Qed.

Lemma triple_issues_length t : (List.length (triple_issues t) <= 8)%nat.
Proof.
  destruct t as [[sg rule] r]. unfold triple_issues, check_range.
  destruct (String.eqb _ "0.0.0.0/0").
  - destruct (String.eqb _ "-1"); [simpl; lia|].
    rewrite high_loop_emit, app_nil_l.
    change 8%nat with (1 * List.length risky_ports)%nat.
    apply length_flat_map_le. intros e. destruct (_ && _); simpl; lia.
  - destruct (_ || _); [|simpl; lia].
    destruct (_ && _); [|simpl; lia].
    rewrite medium_loop_emit, app_nil_l.
    change 8%nat with (1 * List.length risky_ports)%nat.
    apply length_flat_map_le. intros e. destruct (within _ _ _); simpl; lia.
Qed.

(** X7. A report holds at most eight issues per source entry of the
    response, and none when the response has no IPv4 source entry. *)
Theorem X7_report_size_bounded :
  forall groups,
    (List.length (classify groups) <= 8 * List.length (sources groups))%nat.
Proof.
  intros groups. unfold classify.
  rewrite <- (Permutation_length (sort_perm severity_rank _)).
  rewrite collect_issues_sources.
  apply length_flat_map_le, triple_issues_length.
Qed.

(** ** Subnets of a network *)

Lemma broadcast_address_sum n :
  well_formed n ->
  ipaddress.broadcast_address n
  = ipaddress.network_address n
    + (2 ^ (ipaddress._max_prefixlen (ipaddress.net_version n)
            - ipaddress.prefixlen n) - 1).
Proof.
  intros [Hp Hal]. unfold ipaddress.netmask in Hal.
  apply aligned_iff in Hal as [_ Hdiv]; [|assumption].
  unfold ipaddress.broadcast_address.
  rewrite hostmask_ones by assumption.
  assert (Hdisj : Z.land (ipaddress.network_address n)
                    (Z.ones (ipaddress._max_prefixlen (ipaddress.net_version n)
                             - ipaddress.prefixlen n)) = 0).
  { rewrite Z.land_ones by lia. assumption. }
  rewrite <- Z.lxor_lor by assumption.
  rewrite <- Z.add_nocarry_lxor by assumption.
  rewrite Z.ones_equiv. lia.
Qed.

Lemma num_addresses_pow2 n :
  well_formed n ->
  num_addresses n
  = 2 ^ (ipaddress._max_prefixlen (ipaddress.net_version n)
         - ipaddress.prefixlen n).
Proof.
  intros H. unfold num_addresses. rewrite broadcast_address_sum by assumption.
  lia.
Qed.

Lemma Network_of_ints_well_formed v a p n :
  ipaddress.Network_of_ints v a p = inr n ->
  n = ipaddress.mkNetwork v a None p /\ well_formed n.
Proof.
  unfold ipaddress.Network_of_ints.
  destruct (_ || _); [discriminate|].
  destruct (Z.leb_spec 0 p) as [H0|], (Z.leb_spec p (ipaddress._max_prefixlen v))
    as [Hm|]; simpl; try discriminate.
  intros H. apply check_host_bits_inr in H as [-> H].
  split; [reflexivity|]. split; [simpl; lia | exact H].
Qed.

Lemma traverse_exn_Forall {A B : Type} (f : A -> ipaddress.exn + B)
  (P : B -> Prop) :
  (forall x y, f x = inr y -> P y) ->
  forall l l', ipaddress.traverse_exn f l = inr l' -> Forall P l'.
Proof.
  intros Hf l. induction l as [|x l IH]; intros l'; simpl.
  - intros [= <-]. constructor.
  - destruct (f x) as [e|y] eqn:Ex; [discriminate|].
    destruct (ipaddress.traverse_exn f l) as [e|ys]; [discriminate|].
    intros [= <-]. constructor; [now apply (Hf x) | now apply IH].
Qed.

(** Whatever [subnets] returns from a well-formed network passed the
    constructor's tests. *)
Lemma subnets_well_formed n new_prefix l :
  well_formed n ->
  ipaddress.subnets n new_prefix = inr l ->
  Forall well_formed l.
Proof.
  intros Hwf. unfold ipaddress.subnets.
  destruct (_ =? _);
    [intros [= <-]; constructor; [assumption | constructor]|].
  destruct (_ <? _); [discriminate|].
  destruct (_ <? 0); [discriminate|].
  destruct (_ >? _); [discriminate|].
  destruct (_ =? 0); [discriminate|].
  apply traverse_exn_Forall.
  intros x y H. now apply Network_of_ints_well_formed in H.
Qed.

Lemma nth_error_map_seq {A : Type} (f : nat -> A) n i x :
  nth_error (map f (seq 0 n)) i = Some x -> (i < n)%nat /\ x = f i.
Proof.
  intros H.
  assert (Hi : (i < n)%nat).
  { assert (Hn : nth_error (map f (seq 0 n)) i <> None) by congruence.
    apply nth_error_Some in Hn.
    now rewrite length_map, length_seq in Hn. }
  split; [assumption|].
  rewrite nth_error_map, nth_error_seq in H.
  destruct (Nat.ltb_spec i n); [|lia]. simpl in H. now injection H.
Qed.

(** What [subnets] returns when it returns: the network itself when it
    is a single address, else every block of the new length. *)
Lemma subnets_layout n new_prefix l :
  well_formed n ->
  ipaddress.subnets n new_prefix = inr l ->
  (ipaddress.prefixlen n
   = ipaddress._max_prefixlen (ipaddress.net_version n) /\ l = [n])
  \/ (ipaddress.prefixlen n
        < ipaddress._max_prefixlen (ipaddress.net_version n)
      /\ ipaddress.prefixlen n <= new_prefix
           <= ipaddress._max_prefixlen (ipaddress.net_version n)
      /\ l = map (nth_subnet n new_prefix)
               (seq 0 (Z.to_nat (2 ^ (new_prefix - ipaddress.prefixlen n))))).
Proof.
  intros Hwf Hs. pose proof Hwf as [Hp _].
  destruct (Z.eq_dec (ipaddress.prefixlen n)
              (ipaddress._max_prefixlen (ipaddress.net_version n))) as [E|E].
  - left. split; [assumption|].
    unfold ipaddress.subnets in Hs. rewrite E, Z.eqb_refl in Hs.
    now injection Hs.
  - right.
    assert (Hr : ipaddress.prefixlen n <= new_prefix
                 <= ipaddress._max_prefixlen (ipaddress.net_version n)).
    { unfold ipaddress.subnets in Hs.
      destruct (Z.eqb_spec (ipaddress.prefixlen n)
                  (ipaddress._max_prefixlen (ipaddress.net_version n)));
        [contradiction|].
      destruct (Z.ltb_spec new_prefix (ipaddress.prefixlen n));
        [discriminate|].
      destruct (Z.ltb_spec (new_prefix - ipaddress.prefixlen n) 0);
        [discriminate|].
      destruct (Z.gtb_spec
                  (ipaddress.prefixlen n
                   + (new_prefix - ipaddress.prefixlen n))
                  (ipaddress._max_prefixlen (ipaddress.net_version n)));
        [discriminate|].
      lia. }
    split; [lia|]. split; [assumption|].
    rewrite subnets_enumerates in Hs by (assumption || lia).
    now injection Hs.
Qed.

Lemma block_size_pos (n : ipaddress.Network) new_prefix :
  new_prefix <= ipaddress._max_prefixlen (ipaddress.net_version n) ->
  0 < 2 ^ (ipaddress._max_prefixlen (ipaddress.net_version n) - new_prefix).
Proof. intros H. apply Z.pow_pos_nonneg; lia. Qed.

Lemma parent_size (n : ipaddress.Network) new_prefix :
  ipaddress.prefixlen n <= new_prefix
    <= ipaddress._max_prefixlen (ipaddress.net_version n) ->
  2 ^ (ipaddress._max_prefixlen (ipaddress.net_version n)
       - ipaddress.prefixlen n)
  = 2 ^ (new_prefix - ipaddress.prefixlen n)
    * 2 ^ (ipaddress._max_prefixlen (ipaddress.net_version n) - new_prefix).
Proof. intros H. rewrite <- Z.pow_add_r by lia. f_equal. lia. Qed.

Lemma nth_subnet_broadcast n new_prefix i :
  well_formed (nth_subnet n new_prefix i) ->
  ipaddress.broadcast_address (nth_subnet n new_prefix i)
  = ipaddress.network_address n
    + Z.of_nat i
      * 2 ^ (ipaddress._max_prefixlen (ipaddress.net_version n) - new_prefix)
    + (2 ^ (ipaddress._max_prefixlen (ipaddress.net_version n) - new_prefix)
       - 1).
Proof.
  intros H. rewrite broadcast_address_sum by assumption. reflexivity.
Qed.

(** X8. Whatever list [subnets] returns for a network that the parser
    accepted: every member is a network without host bits, of the same
    address family, lying inside the parent; and the members come in
    ascending order without overlap, each ending before the next
    begins. *)
Theorem X8_subnets_valid_inside_disjoint :
  forall repr cidr network new_prefix l,
    ipaddress.ip_network repr cidr = inr network ->
    ipaddress.subnets network new_prefix = inr l ->
    (forall s, In s l ->
       well_formed s
       /\ ipaddress.net_version s = ipaddress.net_version network
       /\ ipaddress.network_address network <= ipaddress.network_address s
       /\ ipaddress.broadcast_address s
          <= ipaddress.broadcast_address network)
    /\ (forall i j s t,
          (i < j)%nat ->
          nth_error l i = Some s -> nth_error l j = Some t ->
          ipaddress.broadcast_address s < ipaddress.network_address t).
Proof.
  intros repr cidr network np l Hparse Hs.
  pose proof (ip_network_well_formed _ _ _ Hparse) as Hwf.
  pose proof (subnets_well_formed _ _ _ Hwf Hs) as Hall.
  rewrite Forall_forall in Hall.
  destruct (subnets_layout _ _ _ Hwf Hs) as [[_ ->]|(Hlt & Hr & ->)].
  - split.
    + intros s [<-|[]]. repeat split; try apply Hwf; lia.
    + intros i j s t Hij Hi Hj. destruct j as [|[|j]]; try lia;
        simpl in Hj; discriminate.
  - pose proof (block_size_pos network np (proj2 Hr)) as Hsize.
    pose proof (parent_size network np Hr) as Hparent.
    pose proof Hwf as [Hp _].
    assert (Hblocks : 0 < 2 ^ (np - ipaddress.prefixlen network))
      by (apply Z.pow_pos_nonneg; lia).
    split.
    + intros s Hin. pose proof (Hall s Hin) as Hs'.
      apply in_map_iff in Hin as (i & <- & Hi). apply in_seq in Hi.
      split; [assumption|]. split; [reflexivity|].
      rewrite (nth_subnet_broadcast network np i Hs').
      rewrite (broadcast_address_sum network Hwf), Hparent.
      cbn [nth_subnet ipaddress.network_address]. split; nia.
    + intros i j s t Hij Hi Hj.
      assert (Hs' : well_formed s)
        by (apply Hall; eapply nth_error_In; eassumption).
      apply nth_error_map_seq in Hi as [Hi ->].
      apply nth_error_map_seq in Hj as [Hj ->].
      rewrite (nth_subnet_broadcast network np i Hs').
      cbn [nth_subnet ipaddress.network_address]. nia.
Qed.

Lemma X8_witness :
  (forall s,
     In s [ ipaddress.mkNetwork ipaddress.V4 167772160 None 17;
            ipaddress.mkNetwork ipaddress.V4 167804928 None 17 ] ->
     well_formed s
     /\ ipaddress.net_version s = ipaddress.V4
     /\ 167772160 <= ipaddress.network_address s
     /\ ipaddress.broadcast_address s <= 167837695)
  /\ (forall i j s t,
        (i < j)%nat ->
        nth_error [ ipaddress.mkNetwork ipaddress.V4 167772160 None 17;
                    ipaddress.mkNetwork ipaddress.V4 167804928 None 17 ] i
        = Some s ->
        nth_error [ ipaddress.mkNetwork ipaddress.V4 167772160 None 17;
                    ipaddress.mkNetwork ipaddress.V4 167804928 None 17 ] j
        = Some t ->
        ipaddress.broadcast_address s < ipaddress.network_address t).
Proof.
  exact (X8_subnets_valid_inside_disjoint quote "10.0.0.0/16"
           (ipaddress.mkNetwork ipaddress.V4 167772160 None 16) 17
           [ ipaddress.mkNetwork ipaddress.V4 167772160 None 17;
             ipaddress.mkNetwork ipaddress.V4 167804928 None 17 ]
           eq_refl eq_refl).
Defined.

(** X9. The list that [subnets] returns for a parsed network tiles the
    parent: the first member starts at the parent's address, each next
    member starts right after the previous one's last address, and the
    last member ends at the parent's last address; the sizes add up to
    the parent's size. *)
Theorem X9_subnets_tile_parent :
  forall repr cidr network new_prefix l,
    ipaddress.ip_network repr cidr = inr network ->
    ipaddress.subnets network new_prefix = inr l ->
    (exists first, nth_error l 0 = Some first
       /\ ipaddress.network_address first
          = ipaddress.network_address network)
    /\ (forall i s t,
          nth_error l i = Some s -> nth_error l (S i) = Some t ->
          ipaddress.network_address t = ipaddress.broadcast_address s + 1)
    /\ (exists final, nth_error l (List.length l - 1) = Some final
          /\ ipaddress.broadcast_address final
             = ipaddress.broadcast_address network)
    /\ fold_right Z.add 0 (map num_addresses l) = num_addresses network.
Proof.
  intros repr cidr network np l Hparse Hs.
  pose proof (ip_network_well_formed _ _ _ Hparse) as Hwf.
  pose proof (subnets_well_formed _ _ _ Hwf Hs) as Hall.
  destruct (subnets_layout _ _ _ Hwf Hs) as [[_ ->]|(Hlt & Hr & ->)].
  - split; [exists network; now split|]. split.
    + intros i s t _ Ht. destruct i; simpl in Ht; discriminate.
    + split; [exists network; now split|]. simpl. lia.
  - pose proof (block_size_pos network np (proj2 Hr)) as Hsize.
    pose proof (parent_size network np Hr) as Hparent.
    pose proof Hwf as [Hp _].
    assert (Hblocks : 0 < 2 ^ (np - ipaddress.prefixlen network))
      by (apply Z.pow_pos_nonneg; lia).
    set (k := Z.to_nat (2 ^ (np - ipaddress.prefixlen network))) in *.
    assert (Hk : (0 < k)%nat) by (unfold k; lia).
    rewrite Forall_forall in Hall.
    assert (Hnth : forall i, (i < k)%nat ->
               nth_error (map (nth_subnet network np) (seq 0 k)) i
               = Some (nth_subnet network np i)).
    { intros i Hi. rewrite nth_error_map, nth_error_seq.
      destruct (Nat.ltb_spec i k); [reflexivity|lia]. }
    assert (Hwfi : forall i, (i < k)%nat ->
               well_formed (nth_subnet network np i)).
    { intros i Hi. apply Hall. apply in_map, in_seq. lia. }
    split; [|split; [|split]].
    + exists (nth_subnet network np 0). split; [now apply Hnth|].
      cbn [nth_subnet ipaddress.network_address]. lia.
    + intros i s t Hi Ht.
      apply nth_error_map_seq in Hi as [Hi ->].
      apply nth_error_map_seq in Ht as [Ht ->].
      rewrite (nth_subnet_broadcast network np i (Hwfi i Hi)).
      cbn [nth_subnet ipaddress.network_address]. lia.
    + exists (nth_subnet network np (k - 1)).
      rewrite length_map, length_seq. split; [apply Hnth; lia|].
      assert (Hlast : (k - 1 < k)%nat) by lia.
      rewrite (nth_subnet_broadcast network np _ (Hwfi _ Hlast)).
      rewrite (broadcast_address_sum network Hwf), Hparent.
      replace (Z.of_nat (k - 1))
        with (2 ^ (np - ipaddress.prefixlen network) - 1) by (unfold k; lia).
      lia.
    + rewrite (num_addresses_pow2 network Hwf), Hparent.
      replace (2 ^ (np - ipaddress.prefixlen network)) with (Z.of_nat k)
        by (unfold k; lia).
      assert (G : forall start len,
                 (start + len <= k)%nat ->
                 fold_right Z.add 0
                   (map num_addresses
                      (map (nth_subnet network np) (seq start len)))
                 = Z.of_nat len * 2 ^ (ipaddress._max_prefixlen
                                         (ipaddress.net_version network)
                                       - np)).
      { intros start len. revert start.
        induction len as [|len IH]; intros start Hle; [reflexivity|].
        cbn [seq map fold_right]. rewrite IH by lia.
        assert (Hstart : (start < k)%nat) by lia.
        rewrite (num_addresses_pow2 _ (Hwfi start Hstart)).
        cbn [nth_subnet ipaddress.net_version ipaddress.prefixlen]. lia. }
      apply G. lia.
Qed.

Lemma X9_witness :
  fold_right Z.add 0
    (map num_addresses
       [ ipaddress.mkNetwork ipaddress.V4 167772160 None 17;
         ipaddress.mkNetwork ipaddress.V4 167804928 None 17 ])
  = num_addresses (ipaddress.mkNetwork ipaddress.V4 167772160 None 16).
Proof.
  exact (proj2 (proj2 (proj2
           (X9_subnets_tile_parent quote "10.0.0.0/16"
              (ipaddress.mkNetwork ipaddress.V4 167772160 None 16) 17
              [ ipaddress.mkNetwork ipaddress.V4 167772160 None 17;
                ipaddress.mkNetwork ipaddress.V4 167804928 None 17 ]
              eq_refl eq_refl)))).
Defined.

(** ** The subnet command, case by case *)

Lemma split_without_separator sep s :
  Py.contains sep s = false -> Py.split sep s = [s].
Proof.
  induction s as [|ch s IH]; simpl; [reflexivity|].
  intros H. apply orb_false_iff in H as [Hc Hs].
  rewrite Ascii.eqb_sym, Hc, IH by assumption. reflexivity.
Qed.

Lemma bare_address_max_prefixlen repr cidr network :
  Py.contains "/" cidr = false ->
  ipaddress.ip_network repr cidr = inr network ->
  ipaddress.prefixlen network
  = ipaddress._max_prefixlen (ipaddress.net_version network).
Proof.
  intros Hbare. unfold ipaddress.ip_network.
  assert (H4 : forall n, ipaddress.IPv4Network cidr = inr n ->
               ipaddress.prefixlen n
               = ipaddress._max_prefixlen (ipaddress.net_version n)).
  { intros n. unfold ipaddress.IPv4Network, ipaddress._split_addr_prefix.
    rewrite split_without_separator by assumption.
    destruct (ipaddress.IPv4Address cidr); [|discriminate].
    intros H. apply check_host_bits_inr in H as [-> _]. reflexivity. }
  assert (H6 : forall n, ipaddress.IPv6Network cidr = inr n ->
               ipaddress.prefixlen n
               = ipaddress._max_prefixlen (ipaddress.net_version n)).
  { intros n. unfold ipaddress.IPv6Network, ipaddress._split_addr_prefix.
    rewrite split_without_separator by assumption.
    destruct (ipaddress.IPv6Address cidr) as [[ip scope]|]; [|discriminate].
    intros H. apply check_host_bits_inr in H as [-> _]. reflexivity. }
  destruct (ipaddress.IPv4Network cidr) as [[| |msg]|n4] eqn:E4.
  - destruct (ipaddress.IPv6Network cidr) as [[| |msg]|n6] eqn:E6;
      try discriminate.
    intros [= <-]. now apply H6.
  - destruct (ipaddress.IPv6Network cidr) as [[| |msg]|n6] eqn:E6;
      try discriminate.
    intros [= <-]. now apply H6.
  - discriminate.
  - intros [= <-]. now apply H4.
Qed.

Section SubnetCommand.
Variable repr : string -> string.
Variable ceil_log2 : Z -> Z.

(** What is assumed of the floating-point computation, as before. *)
Hypothesis ceil_log2_exact :
  forall n, 1 <= n <= 2 ^ 28 -> ceil_log2 n = Z.log2_up n.
Hypothesis ceil_log2_large :
  forall n, 2 ^ 28 < n -> 28 < ceil_log2 n.

Lemma ceil_log2_over c cidr count network :
  ipaddress.ip_network repr cidr = inr network ->
  0 < count ->
  28 < ipaddress.prefixlen network + Z.log2_up count ->
  calculate_subnets repr ceil_log2 c cidr count
  = (banner c cidr count
       ++ [limit_line c (ipaddress.prefixlen network + ceil_log2 count)],
     Return 1).
Proof.
  intros Hparse Hpos Hover.
  pose proof (ip_network_well_formed _ _ _ Hparse) as [Hp _].
  assert (Hgt : 28 < ipaddress.prefixlen network + ceil_log2 count).
  { destruct (Z.le_gt_cases count (2 ^ 28)) as [Hs|Hl].
    - rewrite ceil_log2_exact by lia. lia.
    - pose proof (ceil_log2_large count Hl). lia. }
  unfold calculate_subnets. rewrite Hparse.
  destruct (Z.leb_spec count 0) as [E|_]; [lia|].
  destruct (Z.gtb_spec (ipaddress.prefixlen network + ceil_log2 count) 28)
    as [_|E]; [reflexivity|lia].
Qed.

(** X10. The [subnet] command ends with status 0 exactly when the CIDR
    parses, the count is positive and the prefix length plus
    [ceil(log2 count)] is at most 28; in every other case its status is
    1.  The only exception that leaves [calculate_subnets] is the
    "math domain error" of a count that is not positive, after a CIDR
    that parsed: enumerating the subnets never fails. *)
Theorem X10_subnet_status :
  forall c cidr count,
    (main_subnet repr ceil_log2 c cidr count = 0
     <-> exists network,
           ipaddress.ip_network repr cidr = inr network
           /\ 0 < count
           /\ ipaddress.prefixlen network + Z.log2_up count <= 28)
    /\ (main_subnet repr ceil_log2 c cidr count = 0
        \/ main_subnet repr ceil_log2 c cidr count = 1)
    /\ (forall e,
          snd (calculate_subnets repr ceil_log2 c cidr count) = Raise e ->
          e = ipaddress.ValueError "math domain error"
          /\ count <= 0
          /\ exists network, ipaddress.ip_network repr cidr = inr network).
Proof.
  intros c cidr count. unfold main_subnet.
  destruct (ipaddress.ip_network repr cidr) as [msg|network] eqn:Hparse.
  - unfold calculate_subnets. rewrite Hparse. simpl.
    split; [|split; [now right|discriminate]].
    split; [discriminate|]. intros (n & E & _). discriminate.
  - destruct (Z.le_gt_cases count 0) as [H0|Hpos].
    + unfold calculate_subnets. rewrite Hparse.
      destruct (Z.leb_spec count 0) as [_|E]; [|lia]. simpl.
      split; [|split; [now right|]].
      * split; [discriminate|]. intros (n & _ & E & _). lia.
      * intros e [= <-]. split; [reflexivity|]. split; [assumption|].
        now exists network.
    + destruct (Z.le_gt_cases
                  (ipaddress.prefixlen network + Z.log2_up count) 28)
        as [Hfit|Hover].
      * rewrite (calculate_subnets_allocates repr ceil_log2 ceil_log2_exact
                   c cidr count network Hparse) by lia.
        simpl. split; [|split; [now left|discriminate]].
        split; [|reflexivity]. intros _. now exists network.
      * rewrite (ceil_log2_over c cidr count network Hparse) by lia.
        simpl. split; [|split; [now right|discriminate]].
        split; [discriminate|]. intros (n & [= <-] & _ & E). lia.
Qed.

(** X11. On a successful run the usable-host figure printed for each
    subnet is at least 14.  For an IPv4 network it is the number of
    addresses of each listed subnet less two.  For an IPv6 network it
    is not: each listed subnet holds [2^96] times the addresses that
    the figure accounts for. *)
Theorem X11_usable_host_figure :
  forall c cidr count network,
    ipaddress.ip_network repr cidr = inr network ->
    0 < count ->
    ipaddress.prefixlen network + Z.log2_up count <= 28 ->
    let new_prefix := ipaddress.prefixlen network + Z.log2_up count in
    let figure := 2 ^ (32 - new_prefix) - 2 in
    (exists lines,
       fst (calculate_subnets repr ceil_log2 c cidr count)
       = banner c cidr count
           ++ summary c (ipaddress.prefixlen network)
                (2 ^ (32 - ipaddress.prefixlen network) - 2)
                new_prefix figure
           ++ map (allocation_line c figure) lines ++ [""; rule]
       /\ map snd lines
          = map (nth_subnet network new_prefix) (seq 0 (Z.to_nat count))
       /\ forall s, In s (map snd lines) ->
            match ipaddress.net_version network with
            | ipaddress.V4 => num_addresses s = figure + 2
            | ipaddress.V6 => num_addresses s = 2 ^ 96 * (figure + 2)
            end)
    /\ 14 <= figure.
Proof.
  intros c cidr count network Hparse Hpos Hfit. cbv zeta.
  pose proof (ip_network_well_formed _ _ _ Hparse) as Hwf.
  pose proof Hwf as [Hp _].
  pose proof (Z.log2_up_nonneg count) as Hbits.
  set (np := ipaddress.prefixlen network + Z.log2_up count) in *.
  assert (Hmax : 32 <= ipaddress._max_prefixlen (ipaddress.net_version network))
    by (destruct (ipaddress.net_version network); simpl; lia).
  split.
  - exists (map (fun i => (i, nth_subnet network np i))
              (seq 0 (Z.to_nat count))).
    rewrite (calculate_subnets_allocates repr ceil_log2 ceil_log2_exact
               c cidr count network Hparse) by assumption.
    fold np. cbn [fst]. rewrite !map_map. cbn [snd]. split; [reflexivity|].
    split; [reflexivity|].
    intros s Hin. apply in_map_iff in Hin as (i & <- & Hi). apply in_seq in Hi.
    (* the listed subnet is one of those that [subnets] built *)
    assert (Hcount : count <= 2 ^ (np - ipaddress.prefixlen network)).
    { unfold np.
      replace (ipaddress.prefixlen network + Z.log2_up count
               - ipaddress.prefixlen network) with (Z.log2_up count) by lia.
      apply Z.log2_up_le_pow2; lia. }
    assert (Hs : well_formed (nth_subnet network np i)).
    { pose proof (subnets_enumerates network np Hwf) as Hsub.
      assert (Hr : ipaddress.prefixlen network <= np
                   <= ipaddress._max_prefixlen (ipaddress.net_version network))
        by lia.
      specialize (Hsub Hr ltac:(lia)).
      pose proof (subnets_well_formed _ _ _ Hwf Hsub) as Hall.
      rewrite Forall_forall in Hall. apply Hall.
      apply in_map, in_seq. lia. }
    rewrite (num_addresses_pow2 _ Hs).
    cbn [nth_subnet ipaddress.net_version ipaddress.prefixlen].
    destruct (ipaddress.net_version network); cbn [ipaddress._max_prefixlen].
    + lia.
    + replace (128 - np) with (96 + (32 - np)) by lia.
      rewrite Z.pow_add_r by lia. lia.
  - assert (H4 : 2 ^ 4 <= 2 ^ (32 - np)) by (apply Z.pow_le_mono_r; lia).
    change (2 ^ 4) with 16 in H4. lia.
Qed.

(** X12. A CIDR argument without a "/" that the parser accepts is a
    single address, of the family's full prefix length, so every
    positive count is refused as too many subnets. *)
Theorem X12_bare_address_refused :
  forall c cidr count network,
    Py.contains "/" cidr = false ->
    ipaddress.ip_network repr cidr = inr network ->
    0 < count ->
    ipaddress.prefixlen network
    = ipaddress._max_prefixlen (ipaddress.net_version network)
    /\ calculate_subnets repr ceil_log2 c cidr count
       = (banner c cidr count
            ++ [limit_line c
                  (ipaddress._max_prefixlen (ipaddress.net_version network)
                   + ceil_log2 count)],
          Return 1).
Proof.
  intros c cidr count network Hbare Hparse Hpos.
  pose proof (bare_address_max_prefixlen _ _ _ Hbare Hparse) as Hfull.
  split; [assumption|].
  rewrite <- Hfull. apply ceil_log2_over; [assumption|assumption|].
  pose proof (Z.log2_up_nonneg count).
  destruct (ipaddress.net_version network); simpl in Hfull; lia.
Qed.
End SubnetCommand.

Lemma X10_witness :
  main_subnet quote Z.log2_up Colors_initial "10.0.0.0/16" 4 = 0
  \/ main_subnet quote Z.log2_up Colors_initial "10.0.0.0/16" 4 = 1.
Proof.
  exact (proj1 (proj2 (X10_subnet_status quote Z.log2_up
                         (fun n _ => eq_refl) log2_up_large
                         Colors_initial "10.0.0.0/16" 4))).
Defined.

Lemma X11_witness : 14 <= 2 ^ (32 - (16 + Z.log2_up 5)) - 2.
Proof.
  exact (proj2 (X11_usable_host_figure quote Z.log2_up (fun n _ => eq_refl)
                  Colors_disabled "10.0.0.0/16" 5
                  (ipaddress.mkNetwork ipaddress.V4 167772160 None 16)
                  eq_refl eq_refl ltac:(vm_compute; congruence))).
Defined.

Lemma X12_witness :
  calculate_subnets quote Z.log2_up Colors_disabled "10.0.0.0" 2
  = ([ "Subnet Calculator"; rule; "VPC CIDR: 10.0.0.0"; "Subnets: 2"; "";
       "ERROR: Too many subnets - would result in /33 (max /28)" ],
     Return 1).
Proof.
  exact (proj2 (X12_bare_address_refused quote Z.log2_up
                  (fun n _ => eq_refl) log2_up_large Colors_disabled
                  "10.0.0.0" 2
                  (ipaddress.mkNetwork ipaddress.V4 167772160 None 32)
                  eq_refl eq_refl eq_refl)).
Defined.

(** ** What the parser reports *)

Lemma check_host_bits_inl n msg :
  ipaddress.check_host_bits n = inl (ipaddress.ValueError msg) ->
  msg = (ipaddress.network_str n ++ " has host bits set")%string
  /\ Z.land (ipaddress.network_address n) (ipaddress.netmask n)
     <> ipaddress.network_address n.
Proof.
  unfold ipaddress.check_host_bits.
  destruct (Z.eqb_spec (Z.land (ipaddress.network_address n)
                          (ipaddress.netmask n))
              (ipaddress.network_address n)) as [|Hne]; cbn [negb].
  - discriminate.
  - intros H. split; [|assumption].
    apply (f_equal (fun r : ipaddress.exn + ipaddress.Network =>
                      match r with
                      | inl (ipaddress.ValueError m) => m
                      | _ => EmptyString
                      end)) in H.
    cbv beta iota in H. now symmetry.
Qed.

Lemma IPv4Network_value_error s msg :
  ipaddress.IPv4Network s = inl (ipaddress.ValueError msg) ->
  exists n,
    msg = (ipaddress.network_str n ++ " has host bits set")%string
    /\ Z.land (ipaddress.network_address n) (ipaddress.netmask n)
       <> ipaddress.network_address n.
Proof.
  unfold ipaddress.IPv4Network.
  destruct (ipaddress._split_addr_prefix s) as [[addr mask]|]; [|discriminate].
  destruct (ipaddress.IPv4Address addr) as [ip|]; [|discriminate].
  match goal with
  | |- match ?made with _ => _ end = _ -> _ =>
      destruct made as [p|]; [|discriminate]
  end.
  intros H. apply check_host_bits_inl in H.
  eexists. exact H.
Qed.

Lemma IPv6Network_value_error s msg :
  ipaddress.IPv6Network s = inl (ipaddress.ValueError msg) ->
  exists n,
    msg = (ipaddress.network_str n ++ " has host bits set")%string
    /\ Z.land (ipaddress.network_address n) (ipaddress.netmask n)
       <> ipaddress.network_address n.
Proof.
  unfold ipaddress.IPv6Network.
  destruct (ipaddress._split_addr_prefix s) as [[addr mask]|]; [|discriminate].
  destruct (ipaddress.IPv6Address addr) as [[ip scope]|]; [|discriminate].
  match goal with
  | |- match ?made with _ => _ end = _ -> _ =>
      destruct made as [p|]; [|discriminate]
  end.
  intros H. apply check_host_bits_inl in H.
  eexists. exact H.
Qed.

(** X13. The parser refuses a string with one of two messages only:
    that the string "does not appear to be an IPv4 or IPv6 network", or
    that a network, printed with its address and prefix length, "has
    host bits set"; the second only for an address that really has bits
    outside its netmask. *)
Theorem X13_parser_messages :
  forall repr s msg,
    ipaddress.ip_network repr s = inl msg ->
    msg = (repr s ++ " does not appear to be an IPv4 or IPv6 network")%string
    \/ exists n,
         msg = (ipaddress.network_str n ++ " has host bits set")%string
         /\ Z.land (ipaddress.network_address n) (ipaddress.netmask n)
            <> ipaddress.network_address n.
Proof.
  intros repr s msg. unfold ipaddress.ip_network.
  destruct (ipaddress.IPv4Network s) as [[| |m4]|n4] eqn:E4.
  - destruct (ipaddress.IPv6Network s) as [[| |m6]|n6] eqn:E6;
      try discriminate; intros [= <-];
      [now left | now left | right; now apply (IPv6Network_value_error s)].
  - destruct (ipaddress.IPv6Network s) as [[| |m6]|n6] eqn:E6;
      try discriminate; intros [= <-];
      [now left | now left | right; now apply (IPv6Network_value_error s)].
  - intros [= <-]. right. now apply (IPv4Network_value_error s).
  - discriminate.
Qed.

Lemma X13_witness :
  "10.0.0.5/16 has host bits set"
  = (quote "10.0.0.5/16"
       ++ " does not appear to be an IPv4 or IPv6 network")%string
  \/ exists n,
       "10.0.0.5/16 has host bits set"
       = (ipaddress.network_str n ++ " has host bits set")%string
       /\ Z.land (ipaddress.network_address n) (ipaddress.netmask n)
          <> ipaddress.network_address n.
Proof.
  exact (X13_parser_messages quote "10.0.0.5/16"
           "10.0.0.5/16 has host bits set" eq_refl).
Defined.

(** ** Printing an IPv4 network and parsing it back *)

Lemma contains_app ch s1 s2 :
  Py.contains ch (s1 ++ s2)%string = Py.contains ch s1 || Py.contains ch s2.
Proof.
  induction s1 as [|d s1 IH]; simpl; [reflexivity|].
  now rewrite IH, orb_assoc.
Qed.

Lemma split_app_separator sep s1 s2 :
  Py.contains sep s1 = false ->
  Py.split sep (s1 ++ String sep s2)%string = s1 :: Py.split sep s2.
Proof.
  induction s1 as [|d s1 IH]; intros H; cbn [append Py.split].
  - now rewrite Ascii.eqb_refl.
  - cbn [Py.contains] in H. apply orb_false_iff in H as [Hd Hs].
    rewrite Ascii.eqb_sym, Hd, IH by assumption. reflexivity.
Qed.

Lemma append_separator_nonempty s1 sep s2 :
  String.eqb (s1 ++ String sep s2)%string "" = false.
Proof. destruct s1; reflexivity. Qed.

(** Each octet, printed in decimal, reads back as itself and holds no
    separator. *)
Lemma octet_round_trip o :
  0 <= o <= 255 ->
  ipaddress._parse_octet (Py.str o) = Some o
  /\ Py.contains "/" (Py.str o) = false
  /\ Py.contains "." (Py.str o) = false.
Proof.
  intros Ho.
  assert (Hall :
            forallb
              (fun k =>
                 match ipaddress._parse_octet (Py.str (Z.of_nat k)) with
                 | Some o' => o' =? Z.of_nat k
                 | None => false
                 end
                 && negb (Py.contains "/" (Py.str (Z.of_nat k)))
                 && negb (Py.contains "." (Py.str (Z.of_nat k))))
              (seq 0 256) = true) by (vm_compute; reflexivity).
  rewrite forallb_forall in Hall.
  specialize (Hall (Z.to_nat o)).
  rewrite Z2Nat.id in Hall by lia.
  assert (Hin : In (Z.to_nat o) (seq 0 256)) by (apply in_seq; lia).
  specialize (Hall Hin).
  apply andb_true_iff in Hall as [Hall Hdot].
  apply andb_true_iff in Hall as [Hparse Hslash].
  apply negb_true_iff in Hdot, Hslash.
  destruct (ipaddress._parse_octet (Py.str o)) as [o'|]; [|discriminate].
  apply Z.eqb_eq in Hparse. subst o'. now repeat split.
Qed.

(** Each IPv4 prefix length, printed in decimal, reads back as itself
    and holds no "/". *)
Lemma prefix_round_trip p :
  0 <= p <= 32 ->
  ipaddress._prefix_from_prefix_string ipaddress.V4 (Py.str p) = Some p
  /\ Py.contains "/" (Py.str p) = false.
Proof.
  intros Hp.
  assert (Hall :
            forallb
              (fun k =>
                 match ipaddress._prefix_from_prefix_string ipaddress.V4
                         (Py.str (Z.of_nat k)) with
                 | Some p' => p' =? Z.of_nat k
                 | None => false
                 end
                 && negb (Py.contains "/" (Py.str (Z.of_nat k))))
              (seq 0 33) = true) by (vm_compute; reflexivity).
  rewrite forallb_forall in Hall.
  specialize (Hall (Z.to_nat p)).
  rewrite Z2Nat.id in Hall by lia.
  assert (Hin : In (Z.to_nat p) (seq 0 33)) by (apply in_seq; lia).
  specialize (Hall Hin).
  apply andb_true_iff in Hall as [Hparse Hslash].
  apply negb_true_iff in Hslash.
  destruct (ipaddress._prefix_from_prefix_string ipaddress.V4 (Py.str p))
    as [p'|]; [|discriminate].
  apply Z.eqb_eq in Hparse. subst p'. now split.
Qed.

Lemma octet_of_address a k :
  0 <= k -> 0 <= Z.land (Z.shiftr a (8 * k)) 255 <= 255.
Proof.
  intros Hk. change 255 with (Z.ones 8) at 1 2.
  rewrite Z.land_ones by lia. change (2 ^ 8) with 256.
  assert (H256 : 0 < 256) by lia.
  pose proof (Z.mod_pos_bound (Z.shiftr a (8 * k)) 256 H256). lia.
Qed.

Lemma from_bytes_octets a :
  0 <= a < 2 ^ 32 ->
  ipaddress.from_bytes
    (map (fun k => Z.land (Z.shiftr a (8 * k)) 255) [3; 2; 1; 0])
  = a.
Proof.
  intros Ha. unfold ipaddress.from_bytes. cbn [map fold_left].
  change 255 with (Z.ones 8).
  rewrite !Z.land_ones, !Z.shiftr_div_pow2 by lia.
  change (8 * 3) with 24. change (8 * 2) with 16. change (8 * 1) with 8.
  change (8 * 0) with 0. change (2 ^ 0) with 1. rewrite Z.div_1_r.
  change (2 ^ 8) with 256. change (2 ^ 16) with (256 * 256).
  change (2 ^ 24) with (256 * (256 * 256)).
  change (2 ^ 32) with 4294967296 in Ha.
  rewrite <- !Z.div_div by lia.
  set (q1 := a / 256). set (q2 := q1 / 256). set (q3 := q2 / 256).
  assert (Hnz : 256 <> 0) by lia. assert (H256 : 0 < 256) by lia.
  pose proof (Z.div_mod a 256 Hnz) as E0. fold q1 in E0.
  pose proof (Z.div_mod q1 256 Hnz) as E1. fold q2 in E1.
  pose proof (Z.div_mod q2 256 Hnz) as E2. fold q3 in E2.
  pose proof (Z.mod_pos_bound a 256 H256).
  pose proof (Z.mod_pos_bound q1 256 H256).
  pose proof (Z.mod_pos_bound q2 256 H256).
  assert (H3 : 0 <= q3 < 256) by lia.
  rewrite (Z.mod_small q3) by assumption. lia.
Qed.

Lemma v4_address_round_trip a :
  0 <= a < 2 ^ 32 ->
  ipaddress.IPv4Address (ipaddress.v4_string_from_ip_int a) = Some a
  /\ Py.contains "/" (ipaddress.v4_string_from_ip_int a) = false.
Proof.
  intros Ha.
  assert (K3 : 0 <= 3) by lia. assert (K2 : 0 <= 2) by lia.
  assert (K1 : 0 <= 1) by lia. assert (K0 : 0 <= 0) by lia.
  destruct (octet_round_trip _ (octet_of_address a 3 K3)) as (P3 & S3 & D3).
  destruct (octet_round_trip _ (octet_of_address a 2 K2)) as (P2 & S2 & D2).
  destruct (octet_round_trip _ (octet_of_address a 1 K1)) as (P1 & S1 & D1).
  destruct (octet_round_trip _ (octet_of_address a 0 K0)) as (P0 & S0 & D0).
  pose proof (from_bytes_octets a Ha) as Hbytes.
  unfold ipaddress.v4_string_from_ip_int. cbn [map] in *.
  set (s3 := Py.str (Z.land (Z.shiftr a (8 * 3)) 255)) in *.
  set (s2 := Py.str (Z.land (Z.shiftr a (8 * 2)) 255)) in *.
  set (s1 := Py.str (Z.land (Z.shiftr a (8 * 1)) 255)) in *.
  set (s0 := Py.str (Z.land (Z.shiftr a (8 * 0)) 255)) in *.
  assert (Hjoin : Py.join "." [s3; s2; s1; s0]
                  = (s3 ++ String "." (s2 ++ String "." (s1 ++ String "." s0)))
                    %string) by reflexivity.
  rewrite Hjoin.
  assert (Hslash : Py.contains "/"
                     (s3 ++ String "." (s2 ++ String "." (s1 ++ String "." s0)))
                     %string = false).
  { rewrite contains_app, S3. cbn [Py.contains orb].
    rewrite contains_app, S2. cbn [Py.contains orb].
    rewrite contains_app, S1. cbn [Py.contains orb].
    change (Ascii.eqb "/" ".") with false. cbn [orb]. exact S0. }
  split; [|exact Hslash].
  unfold ipaddress.IPv4Address. rewrite Hslash.
  unfold ipaddress.v4_ip_int_from_string.
  rewrite append_separator_nonempty.
  rewrite !split_app_separator by assumption.
  rewrite split_without_separator by assumption.
  cbn [List.length Nat.eqb negb ipaddress.traverse].
  rewrite P3, P2, P1, P0. now rewrite Hbytes.
Qed.

(** X14. An IPv4 network without host bits, printed as the calculator
    prints it, is accepted by the parser and read back as the same
    network: the CIDR of every subnet listed for an IPv4 network can be
    given back to the command. *)
Theorem X14_ipv4_print_parse_round_trip :
  forall repr n,
    ipaddress.net_version n = ipaddress.V4 ->
    ipaddress.scope_id n = None ->
    well_formed n ->
    ipaddress.ip_network repr (ipaddress.network_str n) = inr n.
Proof.
  intros repr [v a sc p]. cbn [ipaddress.net_version ipaddress.scope_id].
  intros -> -> [Hp Hal].
  cbn [ipaddress.net_version ipaddress.prefixlen
       ipaddress.network_address ipaddress._max_prefixlen] in Hp, Hal.
  assert (Ha : 0 <= a < 2 ^ 32).
  { unfold ipaddress.netmask in Hal.
    cbn [ipaddress.net_version ipaddress.prefixlen] in Hal.
    now apply aligned_iff in Hal as [Ha _]. }
  destruct (v4_address_round_trip a Ha) as [Haddr Hslash].
  destruct (prefix_round_trip p Hp) as [Hprefix Hpslash].
  assert (H4 : ipaddress.IPv4Network
                 (ipaddress.network_str
                    (ipaddress.mkNetwork ipaddress.V4 a None p))
               = inr (ipaddress.mkNetwork ipaddress.V4 a None p)).
  { unfold ipaddress.network_str, ipaddress.address_str.
    cbn [ipaddress.net_version ipaddress.network_address ipaddress.prefixlen].
    change (ipaddress.v4_string_from_ip_int a ++ "/" ++ Py.str p)%string
      with (ipaddress.v4_string_from_ip_int a ++ String "/" (Py.str p))%string.
    unfold ipaddress.IPv4Network, ipaddress._split_addr_prefix.
    rewrite split_app_separator by assumption.
    rewrite split_without_separator by assumption.
    rewrite Haddr, Hprefix.
    unfold ipaddress.check_host_bits.
    cbn [ipaddress.network_address].
    rewrite Hal, Z.eqb_refl. reflexivity. }
  unfold ipaddress.ip_network. now rewrite H4.
Qed.

Lemma X14_witness :
  ipaddress.ip_network quote
    (ipaddress.network_str
       (ipaddress.mkNetwork ipaddress.V4 167788544 None 18))
  = inr (ipaddress.mkNetwork ipaddress.V4 167788544 None 18).
Proof.
  refine (X14_ipv4_print_parse_round_trip quote
            (ipaddress.mkNetwork ipaddress.V4 167788544 None 18)
            eq_refl eq_refl _).
  split; [simpl; lia | reflexivity].
Defined.

(** ** The security-group listing *)

Lemma run_each_stopped {A : Type} (body : A -> printed) l :
  (snd (run_each body l) = None
   <-> forall x, In x l -> snd (body x) = None)
  /\ (forall key, snd (run_each body l) = Some key ->
        exists x, In x l /\ snd (body x) = Some key).
Proof.
  induction l as [|x l [IHn IHs]]; cbn [run_each].
  - split; [split; [intros _ x []|reflexivity]|discriminate].
  - destruct (body x) as [lines [key|]] eqn:Ex.
    + split.
      * split; [discriminate|].
        intros H. specialize (H x (or_introl eq_refl)).
        rewrite Ex in H. exact H.
      * intros k [= <-]. exists x. split; [now left | now rewrite Ex].
    + destruct (run_each body l) as [rest stopped] eqn:Er. cbn [snd] in *.
      split.
      * rewrite IHn. split.
        -- intros H y [<-|Hy]; [now rewrite Ex | now apply H].
        -- intros H y Hy. apply H. now right.
      * intros k Hk. destruct (IHs k Hk) as (y & Hy & Ey).
        exists y. split; [now right | assumption].
Qed.

Lemma range_line_stopped (line : IpPermission -> IpRange -> printed) :
  (forall rule r,
     snd (line rule r)
     = match CidrIp r with None => Some "CidrIp" | Some _ => None end) ->
  forall rules,
    (snd (rules_block "" line rules) = None
     <-> forall rule r,
           In rule (Py.get rules []) -> In r (Py.get (IpRanges rule) []) ->
           CidrIp r <> None)
    /\ (forall key, snd (rules_block "" line rules) = Some key ->
          key = "CidrIp").
Proof.
  intros Hline rules.
  assert (G : forall l : list IpPermission,
             (snd (run_each
                     (fun rule =>
                        run_each (line rule) (Py.get (IpRanges rule) []))
                     l) = None
              <-> forall rule r,
                    In rule l -> In r (Py.get (IpRanges rule) []) ->
                    CidrIp r <> None)
             /\ (forall key,
                   snd (run_each
                          (fun rule =>
                             run_each (line rule) (Py.get (IpRanges rule) []))
                          l) = Some key -> key = "CidrIp")).
  { intros l.
    destruct (run_each_stopped
                (fun rule => run_each (line rule) (Py.get (IpRanges rule) []))
                l) as [Hn Hs].
    split.
    - rewrite Hn. split.
      + intros H rule r Hrule Hr.
        specialize (H rule Hrule).
        apply (proj1 (run_each_stopped (line rule) _)) with (x := r) in H;
          [|assumption].
        rewrite Hline in H. destruct (CidrIp r); [discriminate|discriminate].
      + intros H rule Hrule.
        apply (proj1 (run_each_stopped (line rule) _)).
        intros r Hr. rewrite Hline.
        specialize (H rule r Hrule Hr). destruct (CidrIp r); congruence.
    - intros key Hk. destruct (Hs key Hk) as (rule & _ & Hk').
      apply (proj2 (run_each_stopped (line rule) _)) in Hk'
        as (r & _ & Hk').
      rewrite Hline in Hk'. destruct (CidrIp r); congruence. }
  unfold rules_block.
  destruct rules as [[|rule0 rules]|].
  - split; [split; [intros _ ? ? []|reflexivity]|discriminate].
  - specialize (G (rule0 :: rules)).
    destruct (run_each _ (rule0 :: rules)) as [lines stopped].
    exact G.
  - split; [split; [intros _ ? ? []|reflexivity]|discriminate].
Qed.

Lemma rules_block_heading h1 h2 line rules :
  snd (rules_block h1 line rules) = snd (rules_block h2 line rules).
Proof.
  unfold rules_block. destruct rules as [[|r rs]|]; try reflexivity.
  destruct (run_each _ (r :: rs)). reflexivity.
Qed.

Lemma and_then_stopped first next :
  snd (and_then first next)
  = match snd first with Some key => Some key | None => snd next end.
Proof.
  destruct first as [l1 [k|]], next as [l2 s2]; reflexivity.
Qed.

Lemma group_block_stopped c sg :
  (snd (group_block c sg) = None <-> fully_keyed sg)
  /\ (forall key, snd (group_block c sg) = Some key ->
        key = "VpcId" \/ key = "CidrIp").
Proof.
  unfold group_block, fully_keyed.
  destruct (VpcId sg) as [vpc|].
  - rewrite !and_then_stopped. cbn [snd].
    rewrite (rules_block_heading _ "" (inbound_line c)).
    rewrite (rules_block_heading _ "" (outbound_line c)).
    destruct (range_line_stopped (inbound_line c)
                ltac:(intros rule r; unfold inbound_line;
                      destruct (CidrIp r); reflexivity)
                (IpPermissions (group sg))) as [In_n In_s].
    destruct (range_line_stopped (outbound_line c)
                ltac:(intros rule r; unfold outbound_line;
                      destruct (CidrIp r); reflexivity)
                (IpPermissionsEgress sg)) as [Out_n Out_s].
    destruct (snd (rules_block "" (inbound_line c) (IpPermissions (group sg))))
      as [k|] eqn:Ein.
    + split.
      * split; [discriminate|]. intros [_ H].
        exfalso. assert (Some k = None); [|discriminate].
        apply In_n. intros rule r Hrule Hr. apply (H rule r); [|assumption].
        apply in_or_app. now left.
      * intros key [= <-]. right. now apply In_s.
    + destruct (snd (rules_block "" (outbound_line c)
                       (IpPermissionsEgress sg))) as [k|] eqn:Eout.
      * split.
        -- split; [discriminate|]. intros [_ H].
           exfalso. assert (Some k = None); [|discriminate].
           apply Out_n. intros rule r Hrule Hr.
           apply (H rule r); [|assumption]. apply in_or_app. now right.
        -- intros key [= <-]. right. now apply Out_s.
      * split; [|discriminate].
        split; [|reflexivity]. intros _. split; [discriminate|].
        intros rule r Hrule Hr. apply in_app_or in Hrule as [Hrule|Hrule].
        -- exact (proj1 In_n eq_refl rule r Hrule Hr).
        -- exact (proj1 Out_n eq_refl rule r Hrule Hr).
  - cbn [snd]. split.
    + split; [discriminate|]. intros [H _]. now elim H.
    + intros key [= <-]. now left.
Qed.

(** X15. The listing command returns 0 exactly when every group of the
    response has its [VpcId] and every IPv4 range entry of its inbound
    and outbound rules has its [CidrIp]; it then ends with the total
    of groups.  Otherwise it stops with a [KeyError] on "VpcId" or on
    "CidrIp" (the compliance check reads the same entry with a default
    and goes on). *)
Theorem X15_listing_needs_every_key :
  forall c args_region args_vpc sgs,
    (snd (analyze_security_groups c args_region args_vpc (inr sgs))
     = Listed 0
     <-> Forall fully_keyed sgs)
    /\ (Forall fully_keyed sgs ->
        exists lines,
          fst (analyze_security_groups c args_region args_vpc (inr sgs))
          = listing_heading c args_region args_vpc ++ lines
              ++ [ rule;
                   ("Total: " ++ Py.str (Z.of_nat (List.length sgs))
                      ++ " security group(s)")%string ])
    /\ (~ Forall fully_keyed sgs ->
        snd (analyze_security_groups c args_region args_vpc (inr sgs))
        = KeyError "VpcId"
        \/ snd (analyze_security_groups c args_region args_vpc (inr sgs))
           = KeyError "CidrIp").
Proof.
  intros c rg vpc sgs.
  destruct (run_each_stopped (group_block c) sgs) as [Hn Hs].
  assert (Hiff : snd (run_each (group_block c) sgs) = None
                 <-> Forall fully_keyed sgs).
  { rewrite Hn, Forall_forall. split; intros H x Hx.
    - now apply (proj1 (group_block_stopped c x)), H.
    - now apply (proj1 (group_block_stopped c x)), H. }
  unfold analyze_security_groups.
  destruct (run_each (group_block c) sgs) as [lines [key|]] eqn:Er;
    cbn [fst snd] in *.
  - split; [|split].
    + split; [discriminate|]. intros H. apply Hiff in H. discriminate.
    + intros H. apply Hiff in H. discriminate.
    + intros _. destruct (Hs key eq_refl) as (x & _ & Hx).
      destruct (proj2 (group_block_stopped c x) key Hx) as [->| ->];
        [now left | now right].
  - split; [|split].
    + split; [intros _; now apply Hiff | reflexivity].
    + intros _. now exists lines.
    + intros H. exfalso. apply H. now apply Hiff.
Qed.

Lemma X15_witness :
  exists lines,
    fst (analyze_security_groups Colors_disabled "us-east-1" None
           (inr [ {| group := tcp_port_from 22 "10.0.0.0/8";
                     VpcId := Some "vpc-1";
                     IpPermissionsEgress := None |} ]))
    = listing_heading Colors_disabled "us-east-1" None ++ lines
        ++ [ rule; "Total: 1 security group(s)" ].
Proof.
  refine (proj1 (proj2 (X15_listing_needs_every_key Colors_disabled
                          "us-east-1" None
                          [ {| group := tcp_port_from 22 "10.0.0.0/8";
                               VpcId := Some "vpc-1";
                               IpPermissionsEgress := None |} ])) _).
  constructor; [|constructor].
  split; [discriminate|].
  intros rule r [<-|[]] [<-|[]]. discriminate.
Defined.

(** ** The comparison of two VPCs *)





Section ComparisonFacts.
Variable set_iter : list string -> list string.
Variable difference_iter : list string -> list string -> list string.

(** What is assumed of the two iteration orders: each member once. *)
Hypothesis set_iter_members :
  forall l, NoDup (set_iter l) /\ forall x, In x (set_iter l) <-> In x l.
Hypothesis difference_iter_members :
  forall a b,
    NoDup (difference_iter a b)
    /\ forall x, In x (difference_iter a b) <-> In x a /\ ~ In x b.



End ComparisonFacts.


(** ** Netmask and hostmask notation *)

Lemma digits_hold_no_dot s :
  forallb ipaddress.is_decimal_digit (ipaddress.chars s) = true ->
  Py.contains "." s = false.
Proof.
  induction s as [|ch s IH]; [reflexivity|].
  cbn [ipaddress.chars list_ascii_of_string forallb Py.contains].
  intros H. apply andb_true_iff in H as [Hd Hs].
  rewrite (IH Hs), orb_false_r.
  destruct (Ascii.eqb_spec "."%char ch) as [<-|]; [discriminate|reflexivity].
Qed.

Lemma dotted_string_is_no_prefix v s :
  Py.contains "." s = true ->
  ipaddress._prefix_from_prefix_string v s = None.
Proof.
  intros H. unfold ipaddress._prefix_from_prefix_string,
    ipaddress.isascii_isdigit.
  destruct (forallb ipaddress.is_decimal_digit (ipaddress.chars s)) eqn:E.
  - apply digits_hold_no_dot in E. congruence.
  - now rewrite andb_false_r.
Qed.

Lemma v4_string_has_dot a :
  Py.contains "." (ipaddress.v4_string_from_ip_int a) = true.
Proof.
  unfold ipaddress.v4_string_from_ip_int. cbn [map].
  match goal with
  | |- Py.contains _ (Py.join _ [?s3; ?s2; ?s1; ?s0]) = _ =>
      change (Py.join "." [s3; s2; s1; s0])
        with (s3 ++ String "." (s2 ++ String "." (s1 ++ String "." s0)))%string
  end.
  rewrite contains_app. cbn [Py.contains].
  change (Ascii.eqb "." ".") with true. cbn [orb]. apply orb_true_r.
Qed.

Lemma v4_string_reads_back a :
  0 <= a < 2 ^ 32 ->
  ipaddress.v4_ip_int_from_string (ipaddress.v4_string_from_ip_int a) = Some a.
Proof.
  intros Ha. destruct (v4_address_round_trip a Ha) as [H Hs].
  unfold ipaddress.IPv4Address in H. now rewrite Hs in H.
Qed.

(** The 33 netmasks and the hostmasks strictly between the extremes,
    checked one by one. *)
Lemma masks_checked p :
  0 <= p <= 32 ->
  let mask := ipaddress._ip_int_from_prefix ipaddress.V4 p in
  let host := Z.lxor mask (ipaddress._ALL_ONES ipaddress.V4) in
  0 <= mask < 2 ^ 32
  /\ 0 <= host < 2 ^ 32
  /\ ipaddress._prefix_from_ip_int ipaddress.V4 mask = Some p
  /\ (0 < p < 32 ->
      ipaddress._prefix_from_ip_int ipaddress.V4 host = None
      /\ ipaddress._prefix_from_ip_int ipaddress.V4
           (Z.lxor host (ipaddress._ALL_ONES ipaddress.V4)) = Some p).
Proof.
  intros Hp.
  assert (Hall :
            forallb
              (fun k =>
                 let q := Z.of_nat k in
                 let mask := ipaddress._ip_int_from_prefix ipaddress.V4 q in
                 let host := Z.lxor mask (ipaddress._ALL_ONES ipaddress.V4) in
                 (0 <=? mask) && (mask <? 2 ^ 32)
                 && (0 <=? host) && (host <? 2 ^ 32)
                 && match ipaddress._prefix_from_ip_int ipaddress.V4 mask with
                    | Some q' => q' =? q
                    | None => false
                    end
                 && (negb ((0 <? q) && (q <? 32))
                     || (match ipaddress._prefix_from_ip_int ipaddress.V4
                                 host with
                         | Some _ => false
                         | None => true
                         end
                         && match ipaddress._prefix_from_ip_int ipaddress.V4
                                    (Z.lxor host
                                       (ipaddress._ALL_ONES ipaddress.V4)) with
                            | Some q' => q' =? q
                            | None => false
                            end)))
              (seq 0 33) = true) by (vm_compute; reflexivity).
  rewrite forallb_forall in Hall.
  specialize (Hall (Z.to_nat p)).
  assert (Hin : In (Z.to_nat p) (seq 0 33)) by (apply in_seq; lia).
  specialize (Hall Hin). cbv zeta in Hall |- *.
  rewrite Z2Nat.id in Hall by lia.
  repeat (apply andb_true_iff in Hall as [Hall ?]).
  repeat match goal with
         | H : (_ <=? _) = true |- _ => apply Z.leb_le in H
         | H : (_ <? _) = true |- _ => apply Z.ltb_lt in H
         end.
  split; [lia|]. split; [lia|]. split.
  - destruct (ipaddress._prefix_from_ip_int ipaddress.V4
                (ipaddress._ip_int_from_prefix ipaddress.V4 p)) as [q|];
      [|discriminate].
    f_equal. now apply Z.eqb_eq.
  - intros Hmid.
    match goal with
    | H : negb _ || _ = true |- _ => apply orb_true_iff in H as [H|H]
    end.
    + apply negb_true_iff, andb_false_iff in H.
      destruct H as [H|H]; [apply Z.ltb_ge in H | apply Z.ltb_ge in H]; lia.
    + apply andb_true_iff in H as [Hnone Hsome]. split.
      * destruct (ipaddress._prefix_from_ip_int ipaddress.V4
                    (Z.lxor (ipaddress._ip_int_from_prefix ipaddress.V4 p)
                       (ipaddress._ALL_ONES ipaddress.V4)));
          [discriminate|reflexivity].
      * destruct (ipaddress._prefix_from_ip_int ipaddress.V4
                    (Z.lxor
                       (Z.lxor (ipaddress._ip_int_from_prefix ipaddress.V4 p)
                          (ipaddress._ALL_ONES ipaddress.V4))
                       (ipaddress._ALL_ONES ipaddress.V4))) as [q|];
          [|discriminate].
        f_equal. now apply Z.eqb_eq.
Qed.

Lemma IPv4Network_with_mask addr mask :
  Py.contains "/" addr = false ->
  Py.contains "/" mask = false ->
  ipaddress.IPv4Network (addr ++ "/" ++ mask)%string
  = match ipaddress.IPv4Address addr with
    | None => inl ipaddress.AddressValueError
    | Some ip =>
        match
          match ipaddress._prefix_from_prefix_string ipaddress.V4 mask with
          | Some prefixlen => Some prefixlen
          | None => ipaddress._prefix_from_ip_string mask
          end
        with
        | None => inl ipaddress.NetmaskValueError
        | Some prefixlen =>
            ipaddress.check_host_bits
              (ipaddress.mkNetwork ipaddress.V4 ip None prefixlen)
        end
    end.
Proof.
  intros Ha Hm.
  change (addr ++ "/" ++ mask)%string with (addr ++ String "/" mask)%string.
  unfold ipaddress.IPv4Network, ipaddress._split_addr_prefix.
  rewrite split_app_separator by assumption.
  now rewrite split_without_separator by assumption.
Qed.

(** X17. For an IPv4 address text and a prefix length [p] from 0 to 32,
    writing the mask as a dotted netmask gives exactly what writing
    "/p" gives, whether a network or an exception; so does writing it
    as a dotted hostmask when [0 < p < 32].  (At the two extremes the
    dotted text is read as a netmask: "/255.255.255.255" is /32 and
    "/0.0.0.0" is /0.) *)
Theorem X17_dotted_masks :
  forall addr p,
    0 <= p <= 32 ->
    Py.contains "/" addr = false ->
    let netmask := ipaddress._ip_int_from_prefix ipaddress.V4 p in
    let hostmask := Z.lxor netmask (ipaddress._ALL_ONES ipaddress.V4) in
    ipaddress.IPv4Network
      (addr ++ "/" ++ ipaddress.v4_string_from_ip_int netmask)%string
    = ipaddress.IPv4Network (addr ++ "/" ++ Py.str p)%string
    /\ (0 < p < 32 ->
        ipaddress.IPv4Network
          (addr ++ "/" ++ ipaddress.v4_string_from_ip_int hostmask)%string
        = ipaddress.IPv4Network (addr ++ "/" ++ Py.str p)%string).
Proof.
  intros addr p Hp Haddr. cbv zeta.
  destruct (masks_checked p Hp) as (Hmask & Hhost & Hnet & Hmid).
  destruct (prefix_round_trip p Hp) as [Hprefix Hpslash].
  assert (Hdec : ipaddress.IPv4Network (addr ++ "/" ++ Py.str p)%string
                 = match ipaddress.IPv4Address addr with
                   | None => inl ipaddress.AddressValueError
                   | Some ip =>
                       ipaddress.check_host_bits
                         (ipaddress.mkNetwork ipaddress.V4 ip None p)
                   end).
  { rewrite IPv4Network_with_mask by assumption. now rewrite Hprefix. }
  split.
  - rewrite Hdec.
    rewrite IPv4Network_with_mask
      by (assumption || apply (v4_address_round_trip _ Hmask)).
    rewrite dotted_string_is_no_prefix by apply v4_string_has_dot.
    unfold ipaddress._prefix_from_ip_string.
    now rewrite (v4_string_reads_back _ Hmask), Hnet.
  - intros Hin. destruct (Hmid Hin) as [Hnone Hsome].
    rewrite Hdec.
    rewrite IPv4Network_with_mask
      by (assumption || apply (v4_address_round_trip _ Hhost)).
    rewrite dotted_string_is_no_prefix by apply v4_string_has_dot.
    unfold ipaddress._prefix_from_ip_string.
    now rewrite (v4_string_reads_back _ Hhost), Hnone, Hsome.
Qed.

Lemma X17_witness :
  ipaddress.IPv4Network "10.0.0.0/255.255.0.0"
  = ipaddress.IPv4Network "10.0.0.0/16"
  /\ (0 < 16 < 32 ->
      ipaddress.IPv4Network "10.0.0.0/0.0.255.255"
      = ipaddress.IPv4Network "10.0.0.0/16").
Proof.
  refine (X17_dotted_masks "10.0.0.0" 16 _ eq_refl). lia.
Defined.

(** ** What the slice leaves out *)

(** X18. On a successful split [subnets] builds [2^ceil(log2 count)]
    blocks, of which the slice keeps exactly the first [count]; the
    blocks left out are fewer than [count], so more than half of the
    blocks built are listed, and all of them when [count] is a power of
    two. *)
Theorem X18_blocks_left_out :
  forall repr cidr count network,
    ipaddress.ip_network repr cidr = inr network ->
    0 < count ->
    ipaddress.prefixlen network + Z.log2_up count <= 28 ->
    exists l,
      ipaddress.subnets network
        (ipaddress.prefixlen network + Z.log2_up count) = inr l
      /\ Z.of_nat (List.length l) = 2 ^ Z.log2_up count
      /\ List.length (firstn (Z.to_nat count) l) = Z.to_nat count
      /\ Z.of_nat (List.length l) - count < count
      /\ (count = 2 ^ Z.log2_up count -> firstn (Z.to_nat count) l = l).
Proof.
  intros repr cidr count network Hparse Hpos Hfit.
  pose proof (ip_network_well_formed _ _ _ Hparse) as Hwf.
  pose proof Hwf as [Hp _].
  pose proof (Z.log2_up_nonneg count) as Hbits.
  assert (Hmax : 32 <= ipaddress._max_prefixlen (ipaddress.net_version network))
    by (destruct (ipaddress.net_version network); simpl; lia).
  assert (Hup : count <= 2 ^ Z.log2_up count)
    by (apply Z.log2_up_le_pow2; lia).
  assert (Hpow : 0 < 2 ^ Z.log2_up count) by (apply Z.pow_pos_nonneg; lia).
  assert (Hhalf : 2 ^ Z.log2_up count < 2 * count).
  { destruct (Z.eq_dec count 1) as [->|Hne]; [reflexivity|].
    assert (Hgt : 1 < count) by lia.
    pose proof (Z.log2_up_spec count Hgt) as [Hlow _].
    pose proof (Z.log2_up_pos count Hgt) as Hbit.
    replace (Z.log2_up count) with (Z.succ (Z.pred (Z.log2_up count)))
      at 1 by lia.
    rewrite Z.pow_succ_r by lia. lia. }
  eexists. split.
  - apply subnets_enumerates; [assumption|lia|lia].
  - replace (ipaddress.prefixlen network + Z.log2_up count
             - ipaddress.prefixlen network) with (Z.log2_up count) by lia.
    rewrite length_firstn, !length_map, !length_seq.
    generalize dependent (2 ^ Z.log2_up count). intros blocks Hup Hpow Hhalf.
    split; [lia|]. split; [lia|]. split; [lia|].
    intros ->. apply firstn_all2. rewrite length_map, length_seq. lia.
Qed.

Lemma X18_witness :
  exists l,
    ipaddress.subnets (ipaddress.mkNetwork ipaddress.V4 167772160 None 16)
      (16 + Z.log2_up 5) = inr l
    /\ Z.of_nat (List.length l) = 2 ^ Z.log2_up 5
    /\ List.length (firstn (Z.to_nat 5) l) = Z.to_nat 5
    /\ Z.of_nat (List.length l) - 5 < 5
    /\ (5 = 2 ^ Z.log2_up 5 -> firstn (Z.to_nat 5) l = l).
Proof.
  exact (X18_blocks_left_out quote "10.0.0.0/16" 5
           (ipaddress.mkNetwork ipaddress.V4 167772160 None 16)
           eq_refl eq_refl ltac:(vm_compute; congruence)).
Defined.
